(** * Inference and validation notebook: training/validation driver

    Shallow embedding of the code cells of
    [03-deep-learning/04-deep-learning-with-pytorch/5-inference-and-validation.ipynb].

    Conventions of the embedding.
    - A finite float is modelled by the real number it denotes; rounding and
      overflow are abstracted.  The non-finite floats (the two infinities and
      not-a-number) are collapsed into one absorbing value, [NonFinite].
    - A batch tensor is the list of its examples, every example stored
      row-major as a list of reals.
    - Python exceptions are outcomes: a cell either finishes ([Done]) or
      stops at the first uncaught exception ([Raised]), in both cases with the
      interpreter state reached so far.
    - The autodifferentiation engine, the Adam update, the random generator,
      the initialisation of [nn.Linear] and the entry [topk] selects among
      equal greatest entries are the interface [Torch]; every theorem holds
      for every implementation of that interface. *)

From Stdlib Require Import Reals Lra Lia List ZArith Bool Arith.
Import ListNotations.
Open Scope R_scope.

Set Implicit Arguments.

(** ** Python and float values *)

Inductive exn : Type :=
| ZeroDivisionError
| RuntimeError
| ValueError
| IndexError
| StopIteration.

Inductive result (A : Type) : Type :=
| Ok (a : A)
| Err (e : exn).
Arguments Ok {A} a.
Arguments Err {A} e.

Definition result_bind {A B} (r : result A) (k : A -> result B) : result B :=
  match r with
  | Ok a => k a
  | Err e => Err e
  end.

(** A float: finite (the real it denotes) or one of inf, -inf, nan. *)
Inductive scalar : Type :=
| Fin (r : R)
| NonFinite.

Definition sadd (a b : scalar) : scalar :=
  match a, b with
  | Fin x, Fin y => Fin (x + y)
  | _, _ => NonFinite
  end.

Definition smul (a : scalar) (k : R) : scalar :=
  match a with
  | Fin x => Fin (x * k)
  | NonFinite => NonFinite
  end.

(** Float division by a non-negative count: dividing by zero gives inf or nan. *)
Definition sdiv_nat (a : scalar) (n : nat) : scalar :=
  match a, n with
  | Fin x, S _ => Fin (x / INR n)
  | _, _ => NonFinite
  end.

(** A Python number as the loops hold it: the literal [0] the accumulators
    start from, a Python float ([loss.item()]), or a 0-d float tensor. *)
Inductive pynum : Type :=
| PyInt (z : Z)
| PyFloat (x : scalar)
| Tensor (x : scalar).

(** [acc += t] for a 0-d tensor [t]: the result is a tensor. *)
Definition py_iadd_tensor (acc : pynum) (t : scalar) : pynum :=
  match acc with
  | PyInt z => Tensor (sadd (Fin (IZR z)) t)
  | PyFloat x => Tensor (sadd x t)
  | Tensor x => Tensor (sadd x t)
  end.

(** [acc += x] for a Python float [x]. *)
Definition py_iadd_float (acc : pynum) (x : scalar) : pynum :=
  match acc with
  | PyInt z => PyFloat (sadd (Fin (IZR z)) x)
  | PyFloat y => PyFloat (sadd y x)
  | Tensor y => Tensor (sadd y x)
  end.

(** [v / len(loader)]: Python numbers raise on a zero divisor, tensors do not. *)
Definition py_truediv_len (v : pynum) (n : nat) : result pynum :=
  match v with
  | PyInt z =>
      match n with
      | O => Err ZeroDivisionError
      | S _ => Ok (PyFloat (Fin (IZR z / INR n)))
      end
  | PyFloat x =>
      match n with
      | O => Err ZeroDivisionError
      | S _ => Ok (PyFloat (sdiv_nat x n))
      end
  | Tensor x => Ok (Tensor (sdiv_nat x n))
  end.

(** [v * 100]. *)
Definition py_mul_100 (v : pynum) : pynum :=
  match v with
  | PyInt z => PyInt (z * 100)
  | PyFloat x => PyFloat (smul x 100)
  | Tensor x => Tensor (smul x 100)
  end.

(** ** Tensor operations used by the cells *)

Definition matrix := list (list R).

Definition Rsum (xs : list R) : R := fold_right Rplus 0 xs.

(** [torch.mean]: sum over the number of elements; nan on an empty tensor. *)
Definition torch_mean (xs : list R) : scalar :=
  sdiv_nat (Fin (Rsum xs)) (length xs).

Definition torch_exp (t : matrix) : matrix := map (map exp) t.

Definition F_relu (t : matrix) : matrix := map (map (Rmax 0)) t.

(** [F.log_softmax(., dim=1)]: every row minus the log of its sum of
    exponentials. *)
Definition log_softmax_row (z : list R) : list R :=
  map (fun zi => zi - ln (Rsum (map exp z))) z.

Definition F_log_softmax (t : matrix) : matrix := map log_softmax_row t.

(** [x.view(x.shape[0], -1)]: the storage is kept; a batch of no examples
    cannot be reshaped with an inferred dimension. *)
Definition view_flatten (x : matrix) : result matrix :=
  match x with
  | [] => Err RuntimeError
  | _ :: _ => Ok x
  end.

Fixpoint chunks {A} (rows cols : nat) (data : list A) : list (list A) :=
  match rows with
  | O => []
  | S r => firstn cols data :: chunks r cols (skipn cols data)
  end.

(** [t.view(rows, cols)] of a one-dimensional tensor. *)
Definition view2 {A} (data : list A) (rows cols : nat) : result (list (list A)) :=
  if (length data =? rows * cols)%nat then Ok (chunks rows cols data)
  else Err RuntimeError.

(** [t.view(n)] of a two-dimensional tensor. *)
Definition view1 {A} (t : list (list A)) (n : nat) : result (list A) :=
  if (length (concat t) =? n)%nat then Ok (concat t) else Err RuntimeError.

Fixpoint result_map {A B} (f : A -> result B) (xs : list A) : result (list B) :=
  match xs with
  | [] => Ok []
  | x :: r =>
      result_bind (f x) (fun y =>
      result_bind (result_map f r) (fun ys => Ok (y :: ys)))
  end.

(** [c] is the index of a greatest entry of [row]. *)
Definition max_index (row : list R) (c : nat) : Prop :=
  exists v, nth_error row c = Some v /\ forall x, In x row -> x <= v.

(** [a == b] on two index tensors of one shape. *)
Definition tensor_eq (a b : list (list nat)) : list (list bool) :=
  map (fun rr => map (fun xy => Nat.eqb (fst xy) (snd xy)) (combine (fst rr) (snd rr)))
      (combine a b).

(** [equals.type(torch.FloatTensor)] *)
Definition to_float (t : list (list bool)) : matrix :=
  map (map (fun b : bool => if b then 1 else 0)) t.

(** ** The network *)

(** [nn.Linear(in_features, out_features)]: [weight] has one row per output. *)
Record Linear : Type := {
  in_features : nat;
  out_features : nat;
  weight : matrix;
  bias : list R
}.

Definition dot (u v : list R) : R :=
  Rsum (map (fun p => fst p * snd p) (combine u v)).

Definition Linear_row (l : Linear) (x : list R) : list R :=
  map (fun wb => dot x (fst wb) + snd wb) (combine (weight l) (bias l)).

Definition Linear_forward (l : Linear) (x : matrix) : result matrix :=
  if forallb (fun row => (length row =? in_features l)%nat) x
  then Ok (map (Linear_row l) x)
  else Err RuntimeError.

(** The four layers both [Classifier] classes declare in [__init__]. *)
Record Parameters : Type := {
  fc1 : Linear;
  fc2 : Linear;
  fc3 : Linear;
  fc4 : Linear
}.

Definition Linear_shape (i o : nat) (l : Linear) : Prop :=
  in_features l = i /\ out_features l = o /\
  length (weight l) = o /\ length (bias l) = o /\
  Forall (fun row => length row = i) (weight l).

Definition Classifier_shape (p : Parameters) : Prop :=
  Linear_shape 784 256 (fc1 p) /\ Linear_shape 256 128 (fc2 p) /\
  Linear_shape 128 64 (fc3 p) /\ Linear_shape 64 10 (fc4 p).

(** Which of the two [Classifier] classes a model object is an instance of. *)
Inductive arch : Type :=
| Plain
| WithDropout.

(** [Classifier.forward] of the class without dropout. *)
Definition Classifier_forward (p : Parameters) (x : matrix) : result matrix :=
  result_bind (view_flatten x) (fun x =>
  result_bind (Linear_forward (fc1 p) x) (fun h1 =>
  result_bind (Linear_forward (fc2 p) (F_relu h1)) (fun h2 =>
  result_bind (Linear_forward (fc3 p) (F_relu h2)) (fun h3 =>
  result_bind (Linear_forward (fc4 p) (F_relu h3)) (fun h4 =>
  Ok (F_log_softmax h4)))))).

(** [nn.NLLLoss()] with its default mean reduction: the mean over the batch of
    minus the log-probability of the true class. *)
Definition NLLLoss (log_ps : matrix) (labels : list nat) : result scalar :=
  if (length log_ps =? length labels)%nat then
    result_bind
      (result_map
         (fun rl : list R * nat =>
            match nth_error (fst rl) (snd rl) with
            | Some v => Ok (- v)
            | None => Err IndexError
            end)
         (combine log_ps labels))
      (fun picked => Ok (torch_mean picked))
  else Err ValueError.

(** ** The framework interface *)

(** What a forward pass records for the backward pass when gradient tracking
    is on. *)
Record graph (G : Type) : Type := {
  graph_class : arch;
  graph_parameters : Parameters;
  graph_training : bool;
  graph_generator : G;
  graph_input : matrix
}.

Class Torch : Type := {
  (** state of the global random generator *)
  Generator : Type;
  (** one Bernoulli draw with the given probability of [true] *)
  bernoulli : R -> Generator -> bool * Generator;
  (** the random initial weights of the four [nn.Linear] layers *)
  init_parameters : Generator -> Parameters * Generator;
  init_parameters_shape : forall g, Classifier_shape (fst (init_parameters g));
  (** the [.grad] attributes of the parameters *)
  Gradients : Type;
  no_gradients : Gradients;
  (** [loss.backward()]: adds the gradient of the loss to [.grad] *)
  autograd : graph Generator -> list nat -> Gradients -> Gradients;
  (** [optim.Adam(model.parameters(), lr=0.003)] and one update of it *)
  Adam : Type;
  Adam_init : Parameters -> Adam;
  Adam_step : Adam -> Gradients -> Parameters -> Adam * Parameters;
  Adam_step_shape :
    forall a g p, Classifier_shape p -> Classifier_shape (snd (Adam_step a g p));
  (** [row.topk(1)] of a non-empty row: the index it returns.  The entry
      there is a greatest one; which of several equal greatest entries is
      taken is the library's business, and nothing is assumed about it. *)
  topk_index : list R -> nat;
  topk_index_max : forall row, row <> [] -> max_index row (topk_index row)
}.

Section TopK.

Context {T : Torch}.

Definition topk1_row (row : list R) : result (R * nat) :=
  match row with
  | [] => Err RuntimeError
  | _ :: _ => Ok (nth (topk_index row) row 0, topk_index row)
  end.

(** [ps.topk(1, dim=1)]: two tensors of shape (B, 1), values and indices. *)
Definition topk1 (ps : matrix) : result (matrix * list (list nat)) :=
  result_bind (result_map topk1_row ps) (fun tops =>
  Ok (map (fun t => [fst t]) tops, map (fun t => [snd t]) tops)).

(** Lines 284-287 and 502-505: top-1 class of every example, the labels viewed
    in the shape of [top_class], element-wise equality, mean of the floats. *)
Definition batch_accuracy (ps : matrix) (labels : list nat) : result scalar :=
  result_bind (topk1 ps) (fun tops =>
  let top_class := snd tops in
  result_bind (view2 labels (length top_class) 1) (fun labels2 =>
  let equals := tensor_eq top_class labels2 in
  Ok (torch_mean (concat (to_float equals))))).

End TopK.


Section Driver.

Context {T : Torch}.

(** [nn.Dropout(p=0.2)] *)
Definition p_drop : R := 2 / 10.

Fixpoint dropout_row (g : Generator) (row : list R) : list R * Generator :=
  match row with
  | [] => ([], g)
  | x :: r =>
      let (keep, g1) := bernoulli (1 - p_drop) g in
      let (r', g2) := dropout_row g1 r in
      ((if keep then x / (1 - p_drop) else 0) :: r', g2)
  end.

Fixpoint dropout_rows (g : Generator) (t : matrix) : matrix * Generator :=
  match t with
  | [] => ([], g)
  | row :: r =>
      let (row', g1) := dropout_row g row in
      let (r', g2) := dropout_rows g1 r in
      (row' :: r', g2)
  end.

(** [self.dropout(x)]: active only while the module is in training mode. *)
Definition Dropout_forward (training : bool) (g : Generator) (t : matrix)
  : matrix * Generator :=
  if training then dropout_rows g t else (t, g).

(** [Classifier.forward] of the class with dropout. *)
Definition DropoutClassifier_forward
  (p : Parameters) (training : bool) (g : Generator) (x : matrix)
  : result matrix * Generator :=
  match view_flatten x with
  | Err e => (Err e, g)
  | Ok x =>
  match Linear_forward (fc1 p) x with
  | Err e => (Err e, g)
  | Ok h1 =>
  let (d1, g1) := Dropout_forward training g (F_relu h1) in
  match Linear_forward (fc2 p) d1 with
  | Err e => (Err e, g1)
  | Ok h2 =>
  let (d2, g2) := Dropout_forward training g1 (F_relu h2) in
  match Linear_forward (fc3 p) d2 with
  | Err e => (Err e, g2)
  | Ok h3 =>
  let (d3, g3) := Dropout_forward training g2 (F_relu h3) in
  match Linear_forward (fc4 p) d3 with
  | Err e => (Err e, g3)
  | Ok h4 => (Ok (F_log_softmax h4), g3)
  end end end end end.

(** ** Interpreter state *)

Inductive site : Type :=
| TrainingPass
| ValidationPass
| Inference.

(** Calls into the framework, in the order they are made.  A forward call
    records the mode flag and the gradient-tracking flag it ran under. *)
Inductive event : Type :=
| ZeroGrad
| Forward (at_site : site) (training : bool) (grad : bool)
| Criterion (at_site : site) (loss : scalar)
| Backward
| OptimizerStep
| AccumulateLoss (loss : scalar)
| ViewClassify (img : list R) (ps : matrix).

Inductive line : Type :=
| AccuracyLine (percent : pynum)     (* f'Accuracy: {percent}%' *)
| LossLine (value : pynum).          (* f'Loss: {value}' *)

Record world : Type := {
  model_class : arch;
  model_parameters : Parameters;
  model_training : bool;
  grad_enabled : bool;
  generator : Generator;
  grads : Gradients;
  optimizer : Adam;
  trace : list event;
  stdout : list line
}.

Definition set_model (c : arch) (p : Parameters) (w : world) : world :=
  {| model_class := c; model_parameters := p; model_training := model_training w;
     grad_enabled := grad_enabled w; generator := generator w; grads := grads w;
     optimizer := optimizer w; trace := trace w; stdout := stdout w |}.

Definition set_training (b : bool) (w : world) : world :=
  {| model_class := model_class w; model_parameters := model_parameters w;
     model_training := b;
     grad_enabled := grad_enabled w; generator := generator w; grads := grads w;
     optimizer := optimizer w; trace := trace w; stdout := stdout w |}.

Definition set_grad_enabled (b : bool) (w : world) : world :=
  {| model_class := model_class w; model_parameters := model_parameters w;
     model_training := model_training w;
     grad_enabled := b; generator := generator w; grads := grads w;
     optimizer := optimizer w; trace := trace w; stdout := stdout w |}.

Definition set_generator (g : Generator) (w : world) : world :=
  {| model_class := model_class w; model_parameters := model_parameters w;
     model_training := model_training w;
     grad_enabled := grad_enabled w; generator := g; grads := grads w;
     optimizer := optimizer w; trace := trace w; stdout := stdout w |}.

Definition set_grads (g : Gradients) (w : world) : world :=
  {| model_class := model_class w; model_parameters := model_parameters w;
     model_training := model_training w;
     grad_enabled := grad_enabled w; generator := generator w; grads := g;
     optimizer := optimizer w; trace := trace w; stdout := stdout w |}.

Definition set_optimizer (a : Adam) (w : world) : world :=
  {| model_class := model_class w; model_parameters := model_parameters w;
     model_training := model_training w;
     grad_enabled := grad_enabled w; generator := generator w; grads := grads w;
     optimizer := a; trace := trace w; stdout := stdout w |}.

Definition log (e : event) (w : world) : world :=
  {| model_class := model_class w; model_parameters := model_parameters w;
     model_training := model_training w;
     grad_enabled := grad_enabled w; generator := generator w; grads := grads w;
     optimizer := optimizer w; trace := trace w ++ [e]; stdout := stdout w |}.

Definition emit (l : line) (w : world) : world :=
  {| model_class := model_class w; model_parameters := model_parameters w;
     model_training := model_training w;
     grad_enabled := grad_enabled w; generator := generator w; grads := grads w;
     optimizer := optimizer w; trace := trace w; stdout := stdout w ++ [l] |}.

(** ** Statements: state and exceptions *)

Inductive outcome (A : Type) : Type :=
| Done (a : A) (w : world)
| Raised (e : exn) (w : world).
Arguments Done {A} a w.
Arguments Raised {A} e w.

Definition M (A : Type) : Type := world -> outcome A.

Definition ret {A} (a : A) : M A := fun w => Done a w.

Definition bind {A B} (c : M A) (k : A -> M B) : M B :=
  fun w =>
    match c w with
    | Done a w1 => k a w1
    | Raised e w1 => Raised e w1
    end.

Definition lift {A} (r : result A) : M A :=
  fun w =>
    match r with
    | Ok a => Done a w
    | Err e => Raised e w
    end.

Definition final_world {A} (o : outcome A) : world :=
  match o with
  | Done _ w => w
  | Raised _ w => w
  end.

Definition returned {A} (o : outcome A) : result A :=
  match o with
  | Done a _ => Ok a
  | Raised e _ => Err e
  end.

End Driver.

Arguments Done {T A} a w.
Arguments Raised {T A} e w.

Declare Scope py_scope.
Delimit Scope py_scope with py.
Notation "x <- c ;; k" := (bind c (fun x => k))
  (at level 61, c at next level, right associativity) : py_scope.
Notation "c ;; k" := (bind c (fun _ => k))
  (at level 61, right associativity) : py_scope.

Section Cells.

Context {T : Torch}.
Open Scope py_scope.

(** A tensor produced by a forward call: its values and, when gradient
    tracking was on, the graph it came from. *)
Record tensor : Type := {
  values : matrix;
  grad_fn : option (graph Generator)
}.

Record loss_tensor : Type := {
  item : scalar;
  loss_grad_fn : option (graph Generator * list nat)
}.

Definition batch : Type := (matrix * list nat)%type.

(** A [DataLoader] with [shuffle=True]: the batches of its k-th traversal. *)
Definition DataLoader : Type := nat -> list batch.

(** ** Framework calls *)

(** [model = Classifier()]: a fresh module starts in training mode. *)
Definition new_Classifier (c : arch) : M unit :=
  fun w =>
    let (p, g) := init_parameters (generator w) in
    Done tt (set_grads no_gradients
              (set_generator g (set_training true (set_model c p w)))).

(** [optimizer = optim.Adam(model.parameters(), lr=0.003)] *)
Definition new_Adam : M unit :=
  fun w => Done tt (set_optimizer (Adam_init (model_parameters w)) w).

(** [optimizer.zero_grad()] *)
Definition zero_grad : M unit :=
  fun w => Done tt (set_grads no_gradients (log ZeroGrad w)).

(** [model(images)], dispatched on the class of the model object. *)
Definition model_call (at_site : site) (images : matrix) : M tensor :=
  fun w =>
    let w1 := log (Forward at_site (model_training w) (grad_enabled w)) w in
    let fn :=
      if grad_enabled w
      then Some {| graph_class := model_class w;
                   graph_parameters := model_parameters w;
                   graph_training := model_training w;
                   graph_generator := generator w;
                   graph_input := images |}
      else None in
    match model_class w with
    | Plain =>
        match Classifier_forward (model_parameters w) images with
        | Ok v => Done {| values := v; grad_fn := fn |} w1
        | Err e => Raised e w1
        end
    | WithDropout =>
        let (r, g) :=
          DropoutClassifier_forward (model_parameters w) (model_training w)
                                    (generator w) images in
        match r with
        | Ok v => Done {| values := v; grad_fn := fn |} (set_generator g w1)
        | Err e => Raised e (set_generator g w1)
        end
    end.

(** [criterion(log_ps, labels)] with [criterion = nn.NLLLoss()] *)
Definition criterion (at_site : site) (log_ps : tensor) (labels : list nat)
  : M loss_tensor :=
  fun w =>
    match NLLLoss (values log_ps) labels with
    | Ok l =>
        Done {| item := l;
                loss_grad_fn :=
                  match grad_fn log_ps with
                  | Some gr => Some (gr, labels)
                  | None => None
                  end |}
             (log (Criterion at_site l) w)
    | Err e => Raised e w
    end.

(** [loss.backward()]: needs the graph of the forward pass. *)
Definition backward (loss : loss_tensor) : M unit :=
  fun w =>
    match loss_grad_fn loss with
    | Some (gr, labels) =>
        Done tt (set_grads (autograd gr labels (grads w)) (log Backward w))
    | None => Raised RuntimeError (log Backward w)
    end.

(** [optimizer.step()] *)
Definition optimizer_step : M unit :=
  fun w =>
    let (a, p) := Adam_step (optimizer w) (grads w) (model_parameters w) in
    Done tt (set_optimizer a (set_model (model_class w) p (log OptimizerStep w))).

(** [running_loss += loss.item()] *)
Definition accumulate_loss (running_loss : pynum) (loss : loss_tensor) : M pynum :=
  fun w =>
    Done (py_iadd_float running_loss (item loss)) (log (AccumulateLoss (item loss)) w).

(** [model.eval()] and [model.train()] *)
Definition model_eval : M unit := fun w => Done tt (set_training false w).
Definition model_train : M unit := fun w => Done tt (set_training true w).

(** [with torch.no_grad(): body]: tracking is off inside and put back to what
    it was on the way out, also when the body raises. *)
Definition no_grad {A} (body : M A) : M A :=
  fun w =>
    let prev := grad_enabled w in
    match body (set_grad_enabled false w) with
    | Done a w1 => Done a (set_grad_enabled prev w1)
    | Raised e w1 => Raised e (set_grad_enabled prev w1)
    end.

Definition print (l : line) : M unit := fun w => Done tt (emit l w).

(** [helper.view_classify(img.view(1, 28, 28), ps, version='Fashion')] *)
Definition view_classify (img : list R) (ps : matrix) : M unit :=
  fun w => Done tt (log (ViewClassify img ps) w).

(** [for x in xs: body], the loop-carried variables threaded through. *)
Fixpoint for_each {A S} (xs : list A) (body : A -> S -> M S) (acc : S) : M S :=
  match xs with
  | [] => ret acc
  | x :: r => acc1 <- body x acc ;; for_each r body acc1
  end.

(** ** The training loop (lines 267-276 and 479-488) *)

Definition training_step (b : batch) (running_loss : pynum) : M pynum :=
  zero_grad ;;
  log_ps <- model_call TrainingPass (fst b) ;;
  loss <- criterion TrainingPass log_ps (snd b) ;;
  backward loss ;;
  optimizer_step ;;
  accumulate_loss running_loss loss.

Definition training_pass (trainloader : list batch) : M pynum :=
  for_each trainloader training_step (PyInt 0).

(** ** The first train-and-validate cell (lines 257-289) *)

Definition validation_step13 (b : batch) (accuracy_accum : pynum) : M pynum :=
  out <- model_call ValidationPass (fst b) ;;
  let ps := torch_exp (values out) in
  acc <- lift (batch_accuracy ps (snd b)) ;;
  ret (py_iadd_tensor accuracy_accum acc).

Definition validation_pass13 (testloader : list batch) : M pynum :=
  no_grad (for_each testloader validation_step13 (PyInt 0)).

Definition report_accuracy (accuracy_accum : pynum) (len_testloader : nat) : M unit :=
  mean <- lift (py_truediv_len accuracy_accum len_testloader) ;;
  print (AccuracyLine (py_mul_100 mean)).

Definition epoch13 (trainloader testloader : list batch) : M unit :=
  _ <- training_pass trainloader ;;
  accuracy_accum <- validation_pass13 testloader ;;
  report_accuracy accuracy_accum (length testloader).

Definition epochs : nat := 30.

Definition cell13_loop (n : nat) (trainloader testloader : DataLoader) : M unit :=
  for_each (seq 0 n) (fun e _ => epoch13 (trainloader e) (testloader e)) tt.

Definition cell13 (trainloader testloader : DataLoader) : M unit :=
  new_Classifier Plain ;;
  new_Adam ;;
  cell13_loop epochs trainloader testloader.

(** ** The train-and-validate cell of the dropout model (lines 469-510) *)

Definition validation_step17 (b : batch) (accs : pynum * pynum) : M (pynum * pynum) :=
  let accuracy_accum := fst accs in
  log_ps <- model_call ValidationPass (fst b) ;;
  loss <- criterion ValidationPass log_ps (snd b) ;;
  let loss_accum := Tensor (item loss) in
  let ps := torch_exp (values log_ps) in
  acc <- lift (batch_accuracy ps (snd b)) ;;
  ret (py_iadd_tensor accuracy_accum acc, loss_accum).

Definition validation_pass17 (testloader : list batch) : M (pynum * pynum) :=
  no_grad (
    model_eval ;;
    accs <- for_each testloader validation_step17 (PyInt 0, PyInt 0) ;;
    model_train ;;
    ret accs).

Definition report_loss (loss_accum : pynum) (len_testloader : nat) : M unit :=
  mean <- lift (py_truediv_len loss_accum len_testloader) ;;
  print (LossLine (py_mul_100 mean)).

Definition epoch17 (trainloader testloader : list batch) : M unit :=
  _ <- training_pass trainloader ;;
  accs <- validation_pass17 testloader ;;
  report_accuracy (fst accs) (length testloader) ;;
  report_loss (snd accs) (length testloader).

Definition cell17_loop (n : nat) (trainloader testloader : DataLoader) : M unit :=
  for_each (seq 0 n) (fun e _ => epoch17 (trainloader e) (testloader e)) tt.

Definition cell17 (trainloader testloader : DataLoader) : M unit :=
  new_Classifier WithDropout ;;
  new_Adam ;;
  cell17_loop epochs trainloader testloader.

(** ** Inference on one example (lines 547-562) *)

Definition cell19 (traversal : list batch) : M unit :=
  model_eval ;;
  b <- lift (match traversal with
             | [] => Err StopIteration
             | b :: _ => Ok b
             end) ;;
  img <- lift (match fst b with
               | [] => Err IndexError
               | img :: _ => Ok img
               end) ;;
  img <- lift (view2 img 1 784) ;;
  output <- no_grad (model_call Inference img) ;;
  let ps := torch_exp (values output) in
  view_classify (concat img) ps.

End Cells.

(** * Specification-level definitions *)

Section SpecAccuracy.

Context {T : Torch}.

(** The per-batch accuracy as the specification words it: the prediction
    index tensor reshaped to the shape of the label tensor and compared with
    the labels element by element; the fraction of matches. *)
Definition spec_batch_accuracy (ps : matrix) (labels : list nat) : result scalar :=
  result_bind (topk1 ps) (fun tops =>
  result_bind (view1 (snd tops) (length labels)) (fun preds =>
  let matches :=
    filter (fun pl : nat * nat => Nat.eqb (fst pl) (snd pl)) (combine preds labels) in
  Ok (sdiv_nat (Fin (INR (length matches))) (length labels)))).

End SpecAccuracy.

(** What the data loaders of the notebook yield: a non-empty batch of
    28x28 images with one label in 0..9 per image. *)
Definition batch_wf (b : matrix * list nat) : Prop :=
  fst b <> [] /\ Forall (fun img => length img = 784%nat) (fst b) /\
  length (snd b) = length (fst b) /\ Forall (fun l => (l < 10)%nat) (snd b).

(** 1.0 where prediction and label agree, 0.0 elsewhere. *)
Definition indicator (pl : nat * nat) : R :=
  if Nat.eqb (fst pl) (snd pl) then 1 else 0.

(** Every row of [t] has [n] entries. *)
Definition rows_of (n : nat) (t : matrix) : Prop :=
  Forall (fun row => length row = n) t.

Fixpoint result_fold {A S} (f : A -> S -> result S) (xs : list A) (acc : S) : result S :=
  match xs with
  | [] => Ok acc
  | x :: r => result_bind (f x acc) (result_fold f r)
  end.

Section Validation.

Context {T : Torch}.

(** Accuracy and loss of one validation batch under parameters [p], dropout
    inactive: the class without dropout always computes [Classifier_forward],
    the class with dropout does so in evaluation mode
    ([DropoutClassifier_forward_eval]). *)
Definition validation_accuracy (p : Parameters) (b : matrix * list nat) : result scalar :=
  result_bind (Classifier_forward p (fst b)) (fun log_ps =>
  spec_batch_accuracy (torch_exp log_ps) (snd b)).

Definition validation_loss (p : Parameters) (b : matrix * list nat) : result scalar :=
  result_bind (Classifier_forward p (fst b)) (fun log_ps => NLLLoss log_ps (snd b)).

(** The loop-carried variables after one validation batch, as a function of
    the parameters alone. *)
Definition vstep13_pure (p : Parameters) (b : matrix * list nat) (acc : pynum)
  : result pynum :=
  result_bind (Classifier_forward p (fst b)) (fun log_ps =>
  result_bind (batch_accuracy (torch_exp log_ps) (snd b)) (fun a =>
  Ok (py_iadd_tensor acc a))).

Definition vstep17_pure (p : Parameters) (b : matrix * list nat) (accs : pynum * pynum)
  : result (pynum * pynum) :=
  result_bind (Classifier_forward p (fst b)) (fun log_ps =>
  result_bind (NLLLoss log_ps (snd b)) (fun l =>
  result_bind (batch_accuracy (torch_exp log_ps) (snd b)) (fun a =>
  Ok (py_iadd_tensor (fst accs) a, Tensor l)))).

End Validation.

Section Frames.

Context {T : Torch}.

(** The forward pass of either class. *)
Definition forward_of (c : arch) (p : Parameters) (tr : bool) (g : Generator) (x : matrix)
  : result matrix * Generator :=
  match c with
  | Plain => (Classifier_forward p x, g)
  | WithDropout => DropoutClassifier_forward p tr g x
  end.

(** The graph a forward call records in world [w]. *)
Definition graph_of (w : world) (x : matrix) : graph Generator :=
  {| graph_class := model_class w;
     graph_parameters := model_parameters w;
     graph_training := model_training w;
     graph_generator := generator w;
     graph_input := x |}.

(** Dropout cannot act in [w]: the class has none, or the mode is evaluation. *)
Definition deterministic (w : world) : Prop :=
  model_class w = Plain \/ model_training w = false.

(** The events a validation loop adds when it runs with flags [tr] and [g]. *)
Definition val_event (tr g : bool) (ev : event) : Prop :=
  ev = Forward ValidationPass tr g \/ exists l, ev = Criterion ValidationPass l.

(** [w'] differs from [w] by validation events only. *)
Definition frame (w w' : world) : Prop :=
  model_class w' = model_class w /\
  model_parameters w' = model_parameters w /\
  model_training w' = model_training w /\
  grad_enabled w' = grad_enabled w /\
  generator w' = generator w /\
  grads w' = grads w /\
  optimizer w' = optimizer w /\
  stdout w' = stdout w /\
  exists evs, trace w' = trace w ++ evs /\
              Forall (val_event (model_training w) (grad_enabled w)) evs.

(** The six framework calls of one training step that computes loss [l]. *)
Definition step_events (tr : bool) (l : scalar) : list event :=
  [ZeroGrad; Forward TrainingPass tr true; Criterion TrainingPass l;
   Backward; OptimizerStep; AccumulateLoss l].

(** Mode flag seen by the forward calls of the dropout cell. *)
Definition mode_ok17 (ev : event) : Prop :=
  match ev with
  | Forward TrainingPass tr _ => tr = true
  | Forward ValidationPass tr _ => tr = false
  | _ => True
  end.

(** Mode flag seen by the forward calls of the first cell. *)
Definition mode_ok13 (ev : event) : Prop :=
  match ev with
  | Forward _ tr _ => tr = true
  | _ => True
  end.

(** What C3 asks of every loop: a validation forward call sees the mode flag
    at evaluation. *)
Definition validation_in_evaluation_mode (ev : event) : Prop :=
  match ev with
  | Forward ValidationPass tr _ => tr = false
  | _ => True
  end.

(** Gradient tracking seen by the forward calls of both cells. *)
Definition grad_ok (ev : event) : Prop :=
  match ev with
  | Forward TrainingPass _ g => g = true
  | Forward ValidationPass _ g => g = false
  | _ => True
  end.

End Frames.

Section HiddenState.

Context {T : Torch}.

(** Everything a later forward pass or optimizer step can depend on, apart
    from the two flags. *)
Definition same_state (w w' : world) : Prop :=
  model_class w' = model_class w /\
  model_parameters w' = model_parameters w /\
  generator w' = generator w /\
  grads w' = grads w /\
  optimizer w' = optimizer w /\
  stdout w' = stdout w.

(** The two framework calls of one validation step of the dropout cell. *)
Definition val_events17 (l : scalar) : list event :=
  [Forward ValidationPass false false; Criterion ValidationPass l].

End HiddenState.

Section Epochs.

Context {T : Torch}.

(** [ws] lists the states in which the epochs [start], [start + 1], ... end
    when the first of them starts in [w]. *)
Fixpoint epochs_between (body : nat -> M unit) (start : nat) (ws : list world) (w : world)
  : Prop :=
  match ws with
  | [] => True
  | w' :: rest => body start w = Done tt w' /\ epochs_between body (S start) rest w'
  end.

End Epochs.

(** * A concrete framework and concrete inputs *)

Definition zero_linear (i o : nat) : Linear :=
  {| in_features := i; out_features := o;
     weight := repeat (repeat 0 i) o; bias := repeat 0 o |}.

(** A classifier of the shape [__init__] declares, all weights zero. *)
Definition zero_parameters : Parameters :=
  {| fc1 := zero_linear 784 256; fc2 := zero_linear 256 128;
     fc3 := zero_linear 128 64; fc4 := zero_linear 64 10 |}.

(** A classifier whose first three layers are zero and whose last layer has
    zero weights and the biases 0, 1, ..., 9: the ten scores of every image
    are 0, 1, ..., 9, so class 9 alone has the greatest probability. *)
Definition ramp_linear : Linear :=
  {| in_features := 64; out_features := 10;
     weight := repeat (repeat 0 64) 10; bias := [0; 1; 2; 3; 4; 5; 6; 7; 8; 9] |}.

Definition ramp_parameters : Parameters :=
  {| fc1 := zero_linear 784 256; fc2 := zero_linear 256 128;
     fc3 := zero_linear 128 64; fc4 := ramp_linear |}.

(** One selection among those the interface admits, used by the
    implementation below to run the cells on concrete inputs: scan the row
    from the left and keep the greatest entry met so far.  It stands for no
    rule of the library; no theorem about the cells depends on it. *)
Fixpoint argmax_from (best_i : nat) (best : R) (i : nat) (row : list R) : R * nat :=
  match row with
  | [] => (best, best_i)
  | x :: r =>
      if Rlt_dec best x then argmax_from i x (S i) r
      else argmax_from best_i best (S i) r
  end.

(** An implementation of the framework interface: the generator is a
    counter, every layer starts at zero, the gradients and the optimizer count
    the calls they receive, and an optimizer step leaves the weights alone. *)
Definition constant_torch : Torch.
Proof.
  refine {| Generator := nat;
            bernoulli := fun _ g => (Nat.even g, S g);
            init_parameters := fun g => (zero_parameters, S g);
            Gradients := nat;
            no_gradients := 0%nat;
            autograd := fun _ _ n => S n;
            Adam := nat;
            Adam_init := fun _ => 0%nat;
            Adam_step := fun a _ p => (S a, p);
            topk_index := fun row =>
              match row with
              | [] => 0%nat
              | x :: r => snd (argmax_from 0%nat x 1%nat r)
              end;
            init_parameters_shape := _;
            Adam_step_shape := _;
            topk_index_max := _ |}.
  - intros g. cbn [fst].
    unfold Classifier_shape, Linear_shape, zero_parameters, zero_linear.
    cbn [fc1 fc2 fc3 fc4 in_features out_features weight bias].
    repeat match goal with
           | |- _ /\ _ => split
           | |- length (repeat _ _) = _ => apply repeat_length
           | |- Forall _ (repeat _ _) =>
               apply Forall_forall; intros row Hrow;
               apply repeat_spec in Hrow; subst row; apply repeat_length
           | |- _ = _ => reflexivity
           end.
  - intros a g p Hp. exact Hp.
  - assert (Hscan : forall r pre bi b i,
               nth_error pre bi = Some b ->
               (forall x, In x pre -> x <= b) ->
               length pre = i ->
               max_index (pre ++ r) (snd (argmax_from bi b i r))).
    { induction r as [|x r IH]; intros pre bi b i Hb Hall Hlen; simpl.
      - rewrite app_nil_r. exists b. split; assumption.
      - assert (Hbi : (bi < length pre)%nat)
          by (apply nth_error_Some; rewrite Hb; discriminate).
        replace (pre ++ x :: r) with ((pre ++ [x]) ++ r)
          by (rewrite <- app_assoc; reflexivity).
        destruct (Rlt_dec b x) as [Hlt|Hge]; apply IH.
        + rewrite nth_error_app2 by lia.
          rewrite Hlen, Nat.sub_diag. reflexivity.
        + intros y Hy. apply in_app_or in Hy.
          destruct Hy as [Hy|[<-|[]]]; [apply Hall in Hy; lra|lra].
        + rewrite length_app. simpl. lia.
        + rewrite nth_error_app1 by exact Hbi. exact Hb.
        + intros y Hy. apply in_app_or in Hy.
          destruct Hy as [Hy|[<-|[]]]; [apply Hall; exact Hy|lra].
        + rewrite length_app. simpl. lia. }
    intros [|x r] Hne; [congruence|].
    apply (Hscan r [x] 0%nat x 1%nat).
    + reflexivity.
    + intros y [<-|[]]. lra.
    + reflexivity.
Defined.

(** A 28x28 image, all pixels zero, labelled 3. *)
Definition blank_image : list R := repeat 0 784.
Definition batch0 : matrix * list nat := ([blank_image], [3%nat]).

(** A loader that yields the same single batch at every traversal. *)
Definition loader0 : nat -> list (matrix * list nat) := fun _ => [batch0].

(** The interpreter state after [model = Classifier()] with zero weights, for
    either class. *)
Definition world_of (c : arch) : @world constant_torch :=
  @Build_world constant_torch
    c                 (* model_class *)
    zero_parameters   (* model_parameters *)
    true              (* model_training *)
    true              (* grad_enabled *)
    0%nat             (* generator *)
    0%nat             (* grads *)
    0%nat             (* optimizer *)
    []                (* trace *)
    [].               (* stdout *)

(** Two images, the first labelled 9 and the second labelled 3. *)
Definition batch2 : matrix * list nat := ([blank_image; blank_image], [9%nat; 3%nat]).

(** The interpreter state after [model = Classifier()] with the weights of
    [ramp_parameters]. *)
Definition ramp_world (c : arch) : @world constant_torch :=
  @Build_world constant_torch
    c                 (* model_class *)
    ramp_parameters   (* model_parameters *)
    true              (* model_training *)
    true              (* grad_enabled *)
    0%nat             (* generator *)
    0%nat             (* grads *)
    0%nat             (* optimizer *)
    []                (* trace *)
    [].               (* stdout *)


(** * Definitions for the further properties *)

(** [optimizer.step()] among the framework calls. *)
Definition is_optimizer_step (ev : event) : bool :=
  match ev with
  | OptimizerStep => true
  | _ => false
  end.

(** The two lines an epoch of the dropout cell prints. *)
Definition report_lines17 (r : pynum * pynum) : list line :=
  [AccuracyLine (fst r); LossLine (snd r)].

(** One row of log-probabilities over ten classes: no entry is positive, and
    the exponentials sum to 1. *)
Definition log_probabilities (row : list R) : Prop :=
  length row = 10%nat /\ Forall (fun v => v <= 0) row /\ Rsum (map exp row) = 1.

(** What [nn.Dropout(p=0.2)] does to one activation in training mode. *)
Definition dropped_or_rescaled (x y : R) : Prop := y = 0 \/ y = 1.25 * x.

Section Untouched.

Context {T : Torch}.

(** [w'] has the model, the optimizer, the two flags and the output of [w]. *)
Definition untouched (w w' : world) : Prop :=
  model_class w' = model_class w /\
  model_parameters w' = model_parameters w /\
  optimizer w' = optimizer w /\
  model_training w' = model_training w /\
  grad_enabled w' = grad_enabled w /\
  stdout w' = stdout w.

End Untouched.

(** * Properties *)

(** ** Lists of reals *)

Lemma Rsum_app (xs ys : list R) : Rsum (xs ++ ys) = Rsum xs + Rsum ys.
Proof.
  unfold Rsum. induction xs as [|x xs IH]; simpl.
  - lra.
  - rewrite IH. lra.
Qed.

Lemma Rsum_bounds (xs : list R) (lo hi : R) :
  Forall (fun x => lo <= x <= hi) xs ->
  INR (length xs) * lo <= Rsum xs <= INR (length xs) * hi.
Proof.
  induction 1 as [|x xs Hx _ IH].
  - simpl. lra.
  - change (Rsum (x :: xs)) with (x + Rsum xs).
    change (length (x :: xs)) with (S (length xs)).
    rewrite S_INR. lra.
Qed.

Lemma Rsum_exp_pos (z : list R) : z <> [] -> 0 < Rsum (map exp z).
Proof.
  destruct z as [|x z]; [congruence|intros _].
  assert (H : forall l, 0 <= Rsum (map exp l)).
  { unfold Rsum. induction l as [|y l IH]; simpl; [lra|].
    pose proof (exp_pos y). lra. }
  specialize (H z). unfold Rsum in *. simpl. pose proof (exp_pos x). lra.
Qed.

Lemma result_map_Forall2 {A B} (f : A -> result B) (xs : list A) (ys : list B) :
  result_map f xs = Ok ys <-> Forall2 (fun x y => f x = Ok y) xs ys.
Proof.
  revert ys. induction xs as [|x xs IH]; intros ys; simpl.
  - split.
    + intros H. injection H as <-. constructor.
    + intros H. inversion H. reflexivity.
  - split.
    + destruct (f x) as [y|e] eqn:Hx; simpl; [|discriminate].
      destruct (result_map f xs) as [ys'|e] eqn:Hr; simpl; [|discriminate].
      intros H. injection H as <-. constructor; [exact Hx|]. apply IH. reflexivity.
    + intros H. inversion H as [|x' y l l' Hxy Hrest]; subst.
      rewrite Hxy. simpl. apply IH in Hrest. rewrite Hrest. reflexivity.
Qed.

Lemma result_map_length {A B} (f : A -> result B) (xs : list A) (ys : list B) :
  result_map f xs = Ok ys -> length ys = length xs.
Proof.
  intros H. apply result_map_Forall2 in H.
  symmetry. eapply Forall2_length. exact H.
Qed.

Lemma result_map_total {A B} (f : A -> result B) (P : B -> Prop) (xs : list A) :
  Forall (fun x => exists y, f x = Ok y /\ P y) xs ->
  exists ys, result_map f xs = Ok ys /\ Forall P ys.
Proof.
  induction 1 as [|x xs (y & Hy & Py) _ (ys & Hys & Pys)].
  - exists []. split; [reflexivity|constructor].
  - exists (y :: ys). simpl. rewrite Hy. simpl. rewrite Hys. simpl.
    split; [reflexivity|constructor; assumption].
Qed.

(** ** Top-1 selection *)

Section AccuracyFacts.

Context {T : Torch}.

Lemma topk1_row_inv (row : list R) (v : R) (c : nat) :
  topk1_row row = Ok (v, c) ->
  row <> [] /\ c = topk_index row /\ v = nth c row 0.
Proof.
  destruct row as [|x r]; cbn [topk1_row]; [discriminate|].
  intros H. split; [discriminate|]. split; congruence.
Qed.

Lemma topk1_row_max (row : list R) (v : R) (c : nat) :
  topk1_row row = Ok (v, c) -> max_index row c /\ nth_error row c = Some v.
Proof.
  intros H. apply topk1_row_inv in H. destruct H as (Hne & -> & ->).
  pose proof (topk_index_max Hne) as Hmax.
  split; [exact Hmax|].
  destruct Hmax as (v' & Hn & _). rewrite Hn. f_equal.
  symmetry. apply nth_error_nth. exact Hn.
Qed.

Lemma topk1_row_total (row : list R) :
  row <> [] -> exists v c, topk1_row row = Ok (v, c).
Proof.
  destruct row as [|x r]; [congruence|intros _]. cbn [topk1_row]. eauto.
Qed.

(** Where one entry is greater than all the others, its index is the one
    selected, whatever the library does with equal entries. *)
Lemma topk_index_unique (row : list R) (c : nat) (v : R) :
  nth_error row c = Some v ->
  (forall j x, j <> c -> nth_error row j = Some x -> x < v) ->
  topk_index row = c.
Proof.
  intros Hc Hothers.
  assert (Hne : row <> []) by (intros ->; destruct c; discriminate).
  destruct (topk_index_max Hne) as (v' & Hn & Hall).
  destruct (Nat.eq_dec (topk_index row) c) as [Heq|Hneq]; [exact Heq|exfalso].
  pose proof (Hothers _ _ Hneq Hn) as Hlt.
  pose proof (Hall v (nth_error_In _ _ Hc)) as Hle. lra.
Qed.

Lemma topk1_max_index (ps : matrix) (tops : matrix * list (list nat)) :
  topk1 ps = Ok tops -> Forall2 max_index ps (concat (snd tops)).
Proof.
  unfold topk1. destruct (result_map topk1_row ps) as [ts|e] eqn:Hts; simpl; [|discriminate].
  intros H. injection H as <-. simpl.
  apply result_map_Forall2 in Hts.
  induction Hts as [|row [v c] ps' ts' Hrow _ IH]; simpl.
  - constructor.
  - constructor; [|exact IH]. apply (topk1_row_max _ Hrow).
Qed.

(** ** Accuracy of one batch *)

Lemma chunks_singletons {A} (data : list A) :
  chunks (length data) 1 data = map (fun x => [x]) data.
Proof.
  induction data as [|x data IH]; simpl; [reflexivity|].
  rewrite IH. reflexivity.
Qed.

Lemma equals_singletons (preds labels : list nat) :
  concat (to_float (tensor_eq (map (fun p => [p]) preds) (map (fun l => [l]) labels)))
  = map indicator (combine preds labels).
Proof.
  revert labels. induction preds as [|p preds IH]; intros [|l labels]; simpl;
    try reflexivity.
  unfold tensor_eq, to_float in IH |- *. simpl. rewrite IH. reflexivity.
Qed.

Lemma Rsum_indicator (l : list (nat * nat)) :
  Rsum (map indicator l)
  = INR (length (filter (fun pl : nat * nat => Nat.eqb (fst pl) (snd pl)) l)).
Proof.
  unfold Rsum. induction l as [|pl l IH]; simpl; [reflexivity|].
  unfold indicator at 1. destruct (Nat.eqb (fst pl) (snd pl)).
  - change (length (pl :: ?x)) with (S (length x)).
    simpl length. rewrite S_INR, IH. lra.
  - rewrite IH. lra.
Qed.

(** The cell views the labels in the shape of the predictions; the
    specification views the predictions in the shape of the labels.  Both give
    the same number, and fail on the same inputs. *)
Lemma batch_accuracy_refines (ps : matrix) (labels : list nat) :
  batch_accuracy ps labels = spec_batch_accuracy ps labels.
Proof.
  unfold batch_accuracy, spec_batch_accuracy, topk1.
  destruct (result_map topk1_row ps) as [ts|e]; simpl; [|reflexivity].
  unfold view2, view1.
  assert (Hc : concat (map (fun t : R * nat => [snd t]) ts) = map snd ts).
  { induction ts as [|t ts IH]; simpl; [reflexivity|]. rewrite IH. reflexivity. }
  rewrite Hc. rewrite !length_map, Nat.mul_1_r.
  destruct (Nat.eqb_spec (length labels) (length ts)) as [Hlen|Hlen].
  - rewrite <- Hlen, Nat.eqb_refl. simpl.
    rewrite chunks_singletons.
    replace (map (fun t : R * nat => [snd t]) ts)
      with (map (fun p : nat => [p]) (map snd ts)) by (rewrite map_map; reflexivity).
    rewrite equals_singletons. unfold torch_mean.
    rewrite Rsum_indicator, length_map, length_combine, length_map.
    rewrite <- Hlen, Nat.min_id. reflexivity.
  - destruct (Nat.eqb_spec (length ts) (length labels)) as [Heq|_]; [congruence|].
    reflexivity.
Qed.

Lemma spec_batch_accuracy_bounds (ps : matrix) (labels : list nat) (a : R) :
  spec_batch_accuracy ps labels = Ok (Fin a) -> 0 <= a <= 1.
Proof.
  unfold spec_batch_accuracy.
  destruct (topk1 ps) as [tops|e]; simpl; [|discriminate].
  destruct (view1 (snd tops) (length labels)) as [preds|e] eqn:Hv; simpl; [|discriminate].
  unfold view1 in Hv.
  destruct (Nat.eqb_spec (length (concat (snd tops))) (length labels)) as [Hlen|_];
    [|discriminate].
  injection Hv as <-.
  set (l := combine (concat (snd tops)) labels).
  assert (Hm : (length (filter (fun pl : nat * nat => Nat.eqb (fst pl) (snd pl)) l)
                <= length labels)%nat).
  { etransitivity; [apply filter_length_le|].
    unfold l. rewrite length_combine. lia. }
  destruct (length labels) as [|n] eqn:Hn; simpl; [discriminate|].
  intros H. injection H as <-.
  apply le_INR in Hm.
  assert (Hpos : 0 < INR (S n)) by (apply lt_0_INR; lia).
  pose proof (pos_INR (length (filter (fun pl : nat * nat => Nat.eqb (fst pl) (snd pl)) l))) as H0.
  split.
  - apply Rmult_le_pos; [exact H0|]. left. apply Rinv_0_lt_compat. exact Hpos.
  - apply (Rmult_le_reg_r (INR (S n))); [exact Hpos|].
    unfold Rdiv. rewrite Rmult_assoc, Rinv_l by lra. lra.
Qed.

Lemma batch_accuracy_total (ps : matrix) (labels : list nat) :
  ps <> [] -> Forall (fun row => row <> []) ps -> length labels = length ps ->
  exists a, batch_accuracy ps labels = Ok (Fin a).
Proof.
  intros Hne Hrows Hlen.
  destruct (@result_map_total _ _ topk1_row (fun _ => True) ps) as (ts & Hts & _).
  { eapply Forall_impl; [|exact Hrows]. intros row Hrow.
    destruct (topk1_row_total Hrow) as (v & c & H). eauto. }
  pose proof (result_map_length _ _ Hts) as Hl.
  unfold batch_accuracy, topk1. rewrite Hts. simpl.
  unfold view2. rewrite length_map, Nat.mul_1_r.
  replace (length labels =? length ts)%nat with true
    by (symmetry; apply Nat.eqb_eq; lia).
  simpl. unfold torch_mean.
  destruct (length (concat (to_float (tensor_eq (map (fun t : R * nat => [snd t]) ts)
                                                (chunks (length ts) 1 labels))))) eqn:Hn.
  - exfalso.
    assert (Hx : chunks (length ts) 1 labels = map (fun x => [x]) labels).
    { rewrite Hl, <- Hlen. apply chunks_singletons. }
    rewrite Hx in Hn.
    replace (map (fun t : R * nat => [snd t]) ts)
      with (map (fun p : nat => [p]) (map snd ts)) in Hn by (rewrite map_map; reflexivity).
    rewrite equals_singletons, length_map, length_combine, length_map in Hn.
    destruct ps; [congruence|]. simpl in *. lia.
  - simpl. eauto.
Qed.

(** ** Small runs of the tensor operations *)

Lemma topk_index_12 : topk_index [1; 2] = 1%nat.
Proof.
  apply topk_index_unique with (v := 2); [reflexivity|].
  intros [|[|[|j]]] x Hj Hx; simpl in Hx; try congruence; try discriminate.
  injection Hx as <-. lra.
Qed.

Lemma topk_index_21 : topk_index [2; 1] = 0%nat.
Proof.
  apply topk_index_unique with (v := 2); [reflexivity|].
  intros [|[|[|j]]] x Hj Hx; simpl in Hx; try congruence; try discriminate.
  injection Hx as <-. lra.
Qed.

Example batch_accuracy_one_of_two :
  batch_accuracy [[1; 2]; [2; 1]] [1%nat; 1%nat] = Ok (Fin (1 / 2)).
Proof.
  unfold batch_accuracy, topk1. cbn [result_map topk1_row].
  rewrite topk_index_12, topk_index_21.
  simpl. unfold torch_mean, Rsum. simpl. do 2 f_equal. lra.
Qed.

Example batch_accuracy_shape_mismatch :
  batch_accuracy [[1; 2]; [2; 1]] [1%nat] = Err RuntimeError.
Proof.
  unfold batch_accuracy, topk1. cbn [result_map topk1_row].
  rewrite topk_index_12, topk_index_21. reflexivity.
Qed.

End AccuracyFacts.

Example int_zero_over_zero : py_truediv_len (PyInt 0) 0 = Err ZeroDivisionError.
Proof. reflexivity. Qed.

Example tensor_over_zero : py_truediv_len (Tensor (Fin 1)) 0 = Ok (Tensor NonFinite).
Proof. reflexivity. Qed.

Example mean_of_empty_tensor : torch_mean [] = NonFinite.
Proof. reflexivity. Qed.

(** ** Shapes through the network *)

Lemma Linear_forward_total (i o : nat) (l : Linear) (x : matrix) :
  Linear_shape i o l -> rows_of i x ->
  exists y, Linear_forward l x = Ok y /\ length y = length x /\ rows_of o y.
Proof.
  intros (Hi & Ho & Hw & Hb & Hrows) Hx.
  exists (map (Linear_row l) x). unfold Linear_forward.
  replace (forallb (fun row => (length row =? in_features l)%nat) x) with true.
  - split; [reflexivity|]. split; [apply length_map|].
    unfold rows_of. apply Forall_map. apply Forall_forall. intros row _.
    unfold Linear_row. rewrite length_map, length_combine. lia.
  - symmetry. apply forallb_forall. intros row Hrow.
    apply Nat.eqb_eq. rewrite Hi.
    unfold rows_of in Hx. rewrite Forall_forall in Hx. auto.
Qed.

Lemma F_relu_shape (n : nat) (t : matrix) :
  rows_of n t -> rows_of n (F_relu t) /\ length (F_relu t) = length t.
Proof.
  intros H. unfold F_relu. split; [|apply length_map].
  unfold rows_of. apply Forall_map. eapply Forall_impl; [|exact H].
  intros row Hrow. simpl. rewrite length_map. exact Hrow.
Qed.

Lemma F_log_softmax_shape (n : nat) (t : matrix) :
  rows_of n t -> rows_of n (F_log_softmax t) /\ length (F_log_softmax t) = length t.
Proof.
  intros H. unfold F_log_softmax. split; [|apply length_map].
  unfold rows_of. apply Forall_map. eapply Forall_impl; [|exact H].
  intros row Hrow. simpl. unfold log_softmax_row. rewrite length_map. exact Hrow.
Qed.

Lemma Classifier_forward_total (p : Parameters) (x : matrix) :
  Classifier_shape p -> x <> [] -> rows_of 784 x ->
  exists y, Classifier_forward p x = Ok y /\ length y = length x /\ rows_of 10 y.
Proof.
  intros (H1 & H2 & H3 & H4) Hne Hx.
  unfold Classifier_forward.
  destruct x as [|x0 x']; [congruence|]. simpl view_flatten. simpl result_bind.
  destruct (Linear_forward_total H1 Hx) as (h1 & -> & L1 & R1). simpl.
  destruct (F_relu_shape R1) as (R1' & L1').
  destruct (Linear_forward_total H2 R1') as (h2 & -> & L2 & R2). simpl.
  destruct (F_relu_shape R2) as (R2' & L2').
  destruct (Linear_forward_total H3 R2') as (h3 & -> & L3 & R3). simpl.
  destruct (F_relu_shape R3) as (R3' & L3').
  destruct (Linear_forward_total H4 R3') as (h4 & -> & L4 & R4). simpl.
  destruct (F_log_softmax_shape R4) as (R5 & L5).
  eexists. split; [reflexivity|]. split; [|exact R5].
  rewrite L5, L4, L3', L3, L2', L2, L1', L1. reflexivity.
Qed.

(** ** Exponentiated log-softmax is a probability distribution *)

Lemma exp_log_softmax_row (z : list R) :
  z <> [] ->
  map exp (log_softmax_row z) = map (fun zi => exp zi / Rsum (map exp z)) z.
Proof.
  intros Hz. pose proof (Rsum_exp_pos Hz) as Hpos.
  unfold log_softmax_row. rewrite map_map. apply map_ext. intros zi.
  unfold Rminus. rewrite exp_plus, exp_Ropp, exp_ln by exact Hpos. reflexivity.
Qed.

Lemma Rsum_scale (xs : list R) (k : R) :
  Rsum (map (fun x => x / k) xs) = Rsum xs / k.
Proof.
  unfold Rsum. induction xs as [|x xs IH]; simpl.
  - unfold Rdiv. lra.
  - rewrite IH. unfold Rdiv. lra.
Qed.

Lemma softmax_distribution (z : list R) :
  z <> [] ->
  Forall (fun pr => 0 < pr) (map exp (log_softmax_row z)) /\
  Rsum (map exp (log_softmax_row z)) = 1.
Proof.
  intros Hz. pose proof (Rsum_exp_pos Hz) as Hpos. split.
  - apply Forall_map. apply Forall_forall. intros x _. apply exp_pos.
  - rewrite (exp_log_softmax_row Hz).
    replace (map (fun zi => exp zi / Rsum (map exp z)) z)
      with (map (fun e => e / Rsum (map exp z)) (map exp z))
      by (rewrite map_map; reflexivity).
    rewrite Rsum_scale. unfold Rdiv. apply Rinv_r. lra.
Qed.

Lemma NLLLoss_total (log_ps : matrix) (labels : list nat) :
  log_ps <> [] -> rows_of 10 log_ps -> length labels = length log_ps ->
  Forall (fun l => (l < 10)%nat) labels ->
  exists l, NLLLoss log_ps labels = Ok (Fin l).
Proof.
  intros Hne Hrows Hlen Hlab. unfold NLLLoss.
  replace (length log_ps =? length labels)%nat with true
    by (symmetry; apply Nat.eqb_eq; lia).
  destruct (@result_map_total _ _
              (fun rl : list R * nat =>
                 match nth_error (fst rl) (snd rl) with
                 | Some v => Ok (- v)
                 | None => Err IndexError
                 end) (fun _ => True) (combine log_ps labels)) as (picked & Hp & _).
  { apply Forall_forall. intros [row l] Hin. simpl.
    pose proof (in_combine_l _ _ _ _ Hin) as Hr.
    pose proof (in_combine_r _ _ _ _ Hin) as Hl.
    unfold rows_of in Hrows. rewrite Forall_forall in Hrows, Hlab.
    specialize (Hrows _ Hr). specialize (Hlab _ Hl).
    destruct (nth_error row l) as [v|] eqn:Hv; [eauto|].
    apply nth_error_None in Hv. lia. }
  rewrite Hp. simpl. unfold torch_mean.
  pose proof (result_map_length _ _ Hp) as Hl.
  rewrite length_combine, Hlen, Nat.min_id in Hl.
  assert (Hpos : length log_ps <> 0%nat) by (destruct log_ps; simpl; congruence).
  destruct (length picked) eqn:Hn; [congruence|].
  simpl. eauto.
Qed.

(** ** Dropout and the forward pass of the second class *)

Section ForwardFacts.

Context {T : Torch}.

Lemma dropout_row_length (row : list R) :
  forall g, length (fst (dropout_row g row)) = length row.
Proof.
  induction row as [|x r IH]; intros g; simpl; [reflexivity|].
  destruct (bernoulli (1 - p_drop) g) as [keep g1].
  specialize (IH g1). destruct (dropout_row g1 r) as [r' g2]. simpl in *.
  rewrite IH. reflexivity.
Qed.

Lemma dropout_rows_shape (n : nat) (t : matrix) :
  forall g, rows_of n t ->
            rows_of n (fst (dropout_rows g t)) /\
            length (fst (dropout_rows g t)) = length t.
Proof.
  induction t as [|row r IH]; intros g Ht; simpl.
  - split; [constructor|reflexivity].
  - inversion Ht as [|? ? Hrow Hr]; subst.
    pose proof (dropout_row_length row g) as Hl.
    destruct (dropout_row g row) as [row' g1]. simpl in Hl.
    destruct (IH g1 Hr) as (IH1 & IH2).
    destruct (dropout_rows g1 r) as [r' g2]. simpl in *.
    split; [constructor; [lia|exact IH1]|lia].
Qed.

Lemma Dropout_forward_shape (n : nat) (tr : bool) (g : Generator) (t : matrix) :
  rows_of n t ->
  rows_of n (fst (Dropout_forward tr g t)) /\
  length (fst (Dropout_forward tr g t)) = length t.
Proof.
  intros Ht. destruct tr; simpl.
  - apply dropout_rows_shape. exact Ht.
  - split; [exact Ht|reflexivity].
Qed.

(** In evaluation mode the class with dropout computes what the class without
    dropout computes, and draws nothing from the generator. *)
Lemma DropoutClassifier_forward_eval (p : Parameters) (g : Generator) (x : matrix) :
  DropoutClassifier_forward p false g x = (Classifier_forward p x, g).
Proof.
  unfold DropoutClassifier_forward, Classifier_forward, Dropout_forward.
  destruct (view_flatten x) as [x'|e]; simpl; [|reflexivity].
  destruct (Linear_forward (fc1 p) x') as [h1|e]; simpl; [|reflexivity].
  destruct (Linear_forward (fc2 p) (F_relu h1)) as [h2|e]; simpl; [|reflexivity].
  destruct (Linear_forward (fc3 p) (F_relu h2)) as [h3|e]; simpl; [|reflexivity].
  destruct (Linear_forward (fc4 p) (F_relu h3)) as [h4|e]; simpl; reflexivity.
Qed.

Lemma DropoutClassifier_forward_total
  (p : Parameters) (tr : bool) (g : Generator) (x : matrix) :
  Classifier_shape p -> x <> [] -> rows_of 784 x ->
  exists y g', DropoutClassifier_forward p tr g x = (Ok y, g') /\
               length y = length x /\ rows_of 10 y.
Proof.
  intros (H1 & H2 & H3 & H4) Hne Hx.
  unfold DropoutClassifier_forward.
  destruct x as [|x0 x']; [congruence|]. simpl view_flatten. cbv iota.
  destruct (Linear_forward_total H1 Hx) as (h1 & -> & L1 & R1).
  destruct (F_relu_shape R1) as (R1' & L1').
  destruct (Dropout_forward_shape tr g R1') as (D1 & E1).
  destruct (Dropout_forward tr g (F_relu h1)) as [d1 g1]. simpl in D1, E1.
  destruct (Linear_forward_total H2 D1) as (h2 & -> & L2 & R2).
  destruct (F_relu_shape R2) as (R2' & L2').
  destruct (Dropout_forward_shape tr g1 R2') as (D2 & E2).
  destruct (Dropout_forward tr g1 (F_relu h2)) as [d2 g2]. simpl in D2, E2.
  destruct (Linear_forward_total H3 D2) as (h3 & -> & L3 & R3).
  destruct (F_relu_shape R3) as (R3' & L3').
  destruct (Dropout_forward_shape tr g2 R3') as (D3 & E3).
  destruct (Dropout_forward tr g2 (F_relu h3)) as [d3 g3]. simpl in D3, E3.
  destruct (Linear_forward_total H4 D3) as (h4 & -> & L4 & R4).
  destruct (F_log_softmax_shape R4) as (R5 & L5).
  do 2 eexists. split; [reflexivity|]. split; [|exact R5].
  rewrite L5, L4, E3, L3', L3, E2, L2', L2, E1, L1', L1. reflexivity.
Qed.

Lemma forward_of_total (c : arch) (p : Parameters) (tr : bool) (g : Generator) (x : matrix) :
  Classifier_shape p -> x <> [] -> rows_of 784 x ->
  exists y g', forward_of c p tr g x = (Ok y, g') /\
               length y = length x /\ rows_of 10 y.
Proof.
  intros Hp Hne Hx. destruct c; simpl.
  - destruct (Classifier_forward_total Hp Hne Hx) as (y & -> & Hy). eauto.
  - apply DropoutClassifier_forward_total; assumption.
Qed.

End ForwardFacts.

(** ** One training step *)

Ltac split_all := repeat match goal with |- _ /\ _ => split end.

Ltac world_simpl :=
  cbn [model_class model_parameters model_training grad_enabled generator grads
       optimizer trace stdout set_model set_training set_grad_enabled
       set_generator set_grads set_optimizer log emit final_world returned
       values grad_fn item loss_grad_fn fst snd] in *.

Section WorldFacts.

Context {T : Torch}.
Open Scope py_scope.

Lemma training_step_total (b : batch) (running_loss : pynum) (w : world) :
  Classifier_shape (model_parameters w) -> batch_wf b -> grad_enabled w = true ->
  exists log_ps g' l w',
    forward_of (model_class w) (model_parameters w) (model_training w)
               (generator w) (fst b) = (Ok log_ps, g') /\
    NLLLoss log_ps (snd b) = Ok (Fin l) /\
    training_step b running_loss w = Done (py_iadd_float running_loss (Fin l)) w' /\
    model_class w' = model_class w /\
    model_training w' = model_training w /\
    grad_enabled w' = true /\
    generator w' = g' /\
    grads w' = autograd (graph_of w (fst b)) (snd b) no_gradients /\
    (optimizer w', model_parameters w')
      = Adam_step (optimizer w) (grads w') (model_parameters w) /\
    stdout w' = stdout w /\
    trace w' = trace w ++ step_events (model_training w) (Fin l) /\
    Classifier_shape (model_parameters w').
Proof.
  intros Hshape (Hne & Hx & Hlen & Hlab) Hg.
  destruct (forward_of_total (model_class w) (model_training w) (generator w)
              Hshape Hne Hx) as (log_ps & g' & Hf & Hl & Hrows).
  assert (Hne' : log_ps <> []).
  { destruct log_ps; [|congruence]. destruct (fst b); [congruence|discriminate]. }
  destruct (@NLLLoss_total log_ps (snd b) Hne' Hrows) as (l & Hloss);
    [congruence|exact Hlab|].
  pose proof (Adam_step_shape (optimizer w)
                (autograd (graph_of w (fst b)) (snd b) no_gradients) Hshape) as Hadam.
  destruct (Adam_step (optimizer w)
              (autograd (graph_of w (fst b)) (snd b) no_gradients)
              (model_parameters w)) as [a p] eqn:Hstep.
  unfold forward_of in Hf.
  destruct (model_class w) eqn:Hc.
  - injection Hf as Hf <-.
    exists log_ps, (generator w), l. eexists.
    split; [unfold forward_of; try rewrite Hc; rewrite Hf; reflexivity|].
    split; [exact Hloss|].
    unfold training_step, bind, zero_grad, model_call, criterion, backward,
      optimizer_step, accumulate_loss.
    world_simpl. rewrite Hg; try rewrite Hc; rewrite Hf. world_simpl.
    rewrite Hloss. world_simpl.
    unfold graph_of in Hstep; try rewrite Hc in Hstep. rewrite Hstep.
    split; [reflexivity|]. world_simpl.
    split_all; try reflexivity; try exact Hadam; try exact Hg;
      try (unfold graph_of; try rewrite Hc; try rewrite Hstep; reflexivity).
    unfold step_events. repeat rewrite <- app_assoc. reflexivity.
  - exists log_ps, g', l. eexists.
    split; [unfold forward_of; try rewrite Hc; rewrite Hf; reflexivity|].
    split; [exact Hloss|].
    unfold training_step, bind, zero_grad, model_call, criterion, backward,
      optimizer_step, accumulate_loss.
    world_simpl. rewrite Hg; try rewrite Hc; rewrite Hf. world_simpl.
    rewrite Hloss. world_simpl.
    unfold graph_of in Hstep; try rewrite Hc in Hstep. rewrite Hstep.
    split; [reflexivity|]. world_simpl.
    split_all; try reflexivity; try exact Hadam; try exact Hg;
      try (unfold graph_of; try rewrite Hc; try rewrite Hstep; reflexivity).
    unfold step_events. repeat rewrite <- app_assoc. reflexivity.
Qed.

Lemma training_loop_total (trainloader : list batch) :
  forall (running_loss : pynum) (w : world),
    Classifier_shape (model_parameters w) -> Forall batch_wf trainloader ->
    grad_enabled w = true ->
    exists losses w',
      for_each trainloader training_step running_loss w
        = Done (fold_left py_iadd_float (map Fin losses) running_loss) w' /\
      length losses = length trainloader /\
      model_class w' = model_class w /\
      model_training w' = model_training w /\
      grad_enabled w' = true /\
      stdout w' = stdout w /\
      trace w' = trace w ++ flat_map (step_events (model_training w)) (map Fin losses) /\
      Classifier_shape (model_parameters w').
Proof.
  induction trainloader as [|b r IH]; intros rl w Hshape Hwf Hg.
  - exists [], w. simpl. unfold ret. rewrite app_nil_r. split_all; auto.
  - inversion Hwf as [|? ? Hb Hr]; subst.
    pose proof training_step_total as Hstep1.
    specialize (Hstep1 b rl w Hshape Hb Hg).
    destruct Hstep1
      as (lp & g' & l & w1 & _ & _ & Hstep & Hc1 & Ht1 & Hg1 & _ & _ & _ & Ho1 & Htr1 & Hs1).
    destruct (IH (py_iadd_float rl (Fin l)) w1 Hs1 Hr Hg1)
      as (losses & w' & Hloop & Hlen & Hc & Ht & Hg' & Ho & Htr & Hs).
    exists (l :: losses), w'. simpl. unfold bind. rewrite Hstep, Hloop.
    split_all; try congruence; try (simpl; lia).
    rewrite Htr, Htr1, Ht1, <- app_assoc. reflexivity.
Qed.

(** ** Validation: what a forward call does when dropout cannot act *)

Lemma model_call_deterministic (s : site) (x : matrix) (w : world) :
  deterministic w ->
  model_call s x w
  = match Classifier_forward (model_parameters w) x with
    | Ok v =>
        Done {| values := v;
                grad_fn := if grad_enabled w then Some (graph_of w x) else None |}
             (log (Forward s (model_training w) (grad_enabled w)) w)
    | Err e => Raised e (log (Forward s (model_training w) (grad_enabled w)) w)
    end.
Proof.
  intros Hdet. destruct w as [c p tr ge g gs o t out].
  unfold deterministic in Hdet. unfold model_call, graph_of. world_simpl.
  destruct c.
  - destruct (Classifier_forward p x); reflexivity.
  - destruct Hdet as [Hc|Htr]; [discriminate|]. subst tr.
    rewrite DropoutClassifier_forward_eval.
    destruct (Classifier_forward p x); reflexivity.
Qed.

Lemma frame_refl (w : world) : frame w w.
Proof.
  unfold frame. split_all; try reflexivity.
  exists []. rewrite app_nil_r. split; [reflexivity|constructor].
Qed.

Lemma frame_trans (w1 w2 w3 : world) : frame w1 w2 -> frame w2 w3 -> frame w1 w3.
Proof.
  intros (A1 & A2 & A3 & A4 & A5 & A6 & A7 & A8 & e1 & A9 & A10)
         (B1 & B2 & B3 & B4 & B5 & B6 & B7 & B8 & e2 & B9 & B10).
  unfold frame. split_all; try congruence.
  exists (e1 ++ e2). split.
  - rewrite B9, A9, app_assoc. reflexivity.
  - apply Forall_app. split; [exact A10|]. rewrite <- A3, <- A4. exact B10.
Qed.

Lemma frame_log (w : world) (ev : event) :
  val_event (model_training w) (grad_enabled w) ev -> frame w (log ev w).
Proof.
  intros Hev. unfold frame. world_simpl. split_all; try reflexivity.
  exists [ev]. split; [reflexivity|]. constructor; [exact Hev|constructor].
Qed.

Lemma frame_deterministic (w w' : world) : frame w w' -> deterministic w -> deterministic w'.
Proof.
  intros (A1 & _ & A3 & _) [H|H]; [left|right]; congruence.
Qed.

Lemma validation_step13_spec (b : batch) (acc : pynum) (w : world) :
  deterministic w ->
  returned (validation_step13 b acc w) = vstep13_pure (model_parameters w) b acc /\
  final_world (validation_step13 b acc w)
  = log (Forward ValidationPass (model_training w) (grad_enabled w)) w.
Proof.
  intros Hdet. unfold validation_step13, bind, vstep13_pure.
  rewrite (model_call_deterministic _ _ Hdet).
  destruct (Classifier_forward (model_parameters w) (fst b)) as [lp|e]; simpl.
  - unfold lift. destruct (batch_accuracy (torch_exp lp) (snd b)); simpl; auto.
  - auto.
Qed.

Lemma validation_step17_spec (b : batch) (accs : pynum * pynum) (w : world) :
  deterministic w ->
  returned (validation_step17 b accs w) = vstep17_pure (model_parameters w) b accs /\
  final_world (validation_step17 b accs w)
  = match validation_loss (model_parameters w) b with
    | Ok l => log (Criterion ValidationPass l)
                  (log (Forward ValidationPass (model_training w) (grad_enabled w)) w)
    | Err _ => log (Forward ValidationPass (model_training w) (grad_enabled w)) w
    end.
Proof.
  intros Hdet. unfold validation_step17, bind, vstep17_pure, validation_loss.
  rewrite (model_call_deterministic _ _ Hdet).
  destruct (Classifier_forward (model_parameters w) (fst b)) as [lp|e]; simpl.
  - unfold criterion. world_simpl.
    destruct (NLLLoss lp (snd b)) as [l|e]; simpl; [|auto].
    unfold lift. destruct (batch_accuracy (torch_exp lp) (snd b)); simpl; auto.
  - auto.
Qed.

(** ** The validation loops *)

Lemma vloop13_spec (testloader : list batch) :
  forall (acc : pynum) (w : world),
    deterministic w ->
    returned (for_each testloader validation_step13 acc w)
      = result_fold (vstep13_pure (model_parameters w)) testloader acc /\
    frame w (final_world (for_each testloader validation_step13 acc w)) /\
    (forall a w', for_each testloader validation_step13 acc w = Done a w' ->
                  trace w' = trace w ++
                    repeat (Forward ValidationPass (model_training w) (grad_enabled w))
                           (length testloader)).
Proof.
  induction testloader as [|b r IH]; intros acc w Hdet.
  - simpl. unfold ret. split_all; [reflexivity|apply frame_refl|].
    intros a w' H. injection H as _ <-. rewrite app_nil_r. reflexivity.
  - destruct (validation_step13_spec b acc Hdet) as (Hret & Hfw).
    assert (Hfr : frame w (log (Forward ValidationPass (model_training w) (grad_enabled w)) w))
      by (apply frame_log; left; reflexivity).
    simpl. unfold bind.
    destruct (validation_step13 b acc w) as [a1 w1|e w1]; simpl in Hret, Hfw; subst w1.
    + rewrite <- Hret. simpl.
      set (w1 := log (Forward ValidationPass (model_training w) (grad_enabled w)) w) in *.
      destruct (IH a1 w1 (frame_deterministic Hfr Hdet)) as (IH1 & IH2 & IH3).
      split_all.
      * exact IH1.
      * eapply frame_trans; [exact Hfr|exact IH2].
      * intros a w' H. rewrite (IH3 _ _ H). unfold w1. world_simpl.
        rewrite <- app_assoc. reflexivity.
    + rewrite <- Hret. simpl. split_all; [reflexivity|exact Hfr|discriminate].
Qed.

Lemma vloop17_spec (testloader : list batch) :
  forall (accs : pynum * pynum) (w : world),
    deterministic w -> model_training w = false -> grad_enabled w = false ->
    returned (for_each testloader validation_step17 accs w)
      = result_fold (vstep17_pure (model_parameters w)) testloader accs /\
    frame w (final_world (for_each testloader validation_step17 accs w)) /\
    (forall a w', for_each testloader validation_step17 accs w = Done a w' ->
       exists losses,
         Forall2 (fun b l => validation_loss (model_parameters w) b = Ok l)
                 testloader losses /\
         trace w' = trace w ++ flat_map val_events17 losses).
Proof.
  induction testloader as [|b r IH]; intros accs w Hdet Htr Hg.
  - simpl. unfold ret. split_all; [reflexivity|apply frame_refl|].
    intros a w' H. injection H as _ <-. exists []. rewrite app_nil_r.
    split; [constructor|reflexivity].
  - destruct (validation_step17_spec b accs Hdet) as (Hret & Hfw).
    rewrite Htr, Hg in Hfw.
    assert (Hfr : frame w (final_world (validation_step17 b accs w))).
    { rewrite Hfw.
      assert (H1 : frame w (log (Forward ValidationPass false false) w))
        by (apply frame_log; left; congruence).
      destruct (validation_loss (model_parameters w) b) as [l|e]; [|exact H1].
      eapply frame_trans; [exact H1|]. apply frame_log. right. eauto. }
    simpl. unfold bind.
    destruct (validation_step17 b accs w) as [a1 w1|e w1] eqn:Hstep;
      simpl in Hret, Hfw, Hfr.
    + rewrite <- Hret. simpl.
      destruct Hfr as (F1 & F2 & F3 & F4 & Frest).
      assert (Hfr : frame w w1) by (unfold frame; split_all; tauto).
      destruct (IH a1 w1 (frame_deterministic Hfr Hdet)) as (IH1 & IH2 & IH3);
        [congruence|congruence|].
      rewrite F2 in IH1, IH3.
      split_all.
      * exact IH1.
      * eapply frame_trans; [exact Hfr|exact IH2].
      * intros a w' H. destruct (IH3 _ _ H) as (losses & Hl & Ht).
        unfold vstep17_pure in Hret. unfold validation_loss in Hfw.
        destruct (Classifier_forward (model_parameters w) (fst b)) as [lp|e] eqn:Hf;
          simpl in Hret, Hfw; [|discriminate].
        destruct (NLLLoss lp (snd b)) as [l|e] eqn:Hn; simpl in Hret; [|discriminate].
        exists (l :: losses). split.
        -- constructor; [|exact Hl]. unfold validation_loss. rewrite Hf. simpl. exact Hn.
        -- rewrite Ht, Hfw. world_simpl. simpl. repeat rewrite <- app_assoc. reflexivity.
    + rewrite <- Hret. simpl. split_all; [reflexivity|exact Hfr|discriminate].
Qed.

Lemma validation_pass17_spec (testloader : list batch) (w : world) :
  returned (validation_pass17 testloader w)
    = result_fold (vstep17_pure (model_parameters w)) testloader (PyInt 0, PyInt 0) /\
  same_state w (final_world (validation_pass17 testloader w)) /\
  grad_enabled (final_world (validation_pass17 testloader w)) = grad_enabled w /\
  (exists evs, trace (final_world (validation_pass17 testloader w)) = trace w ++ evs /\
               Forall (val_event false false) evs) /\
  (forall a w', validation_pass17 testloader w = Done a w' ->
     model_training w' = true /\
     exists losses,
       Forall2 (fun b l => validation_loss (model_parameters w) b = Ok l)
               testloader losses /\
       trace w' = trace w ++ flat_map val_events17 losses).
Proof.
  unfold validation_pass17, no_grad, bind, model_eval, model_train, ret.
  set (w0 := set_training false (set_grad_enabled false w)).
  assert (Hdet : deterministic w0) by (right; reflexivity).
  destruct (vloop17_spec testloader (PyInt 0, PyInt 0) Hdet eq_refl eq_refl)
    as (Hret & Hfr & Hdone).
  destruct Hfr as (F1 & F2 & F3 & F4 & F5 & F6 & F7 & F8 & evs & F9 & F10).
  destruct (for_each testloader validation_step17 (PyInt 0, PyInt 0) w0) as [a w1|e w1] eqn:E;
    unfold w0 in F1, F2, F3, F4, F5, F6, F7, F8, F9, F10, Hret, Hdone; world_simpl.
  - split_all; try assumption; try reflexivity.
    + unfold same_state. world_simpl. split_all; assumption.
    + exists evs. split; assumption.
    + intros a' w' H. injection H as _ <-. world_simpl. split; [reflexivity|].
      destruct (Hdone a w1 eq_refl) as (losses & Hl & Ht). eauto.
  - split_all; try assumption; try reflexivity.
    + unfold same_state. world_simpl. split_all; assumption.
    + exists evs. split; assumption.
    + discriminate.
Qed.

Lemma validation_pass13_spec (testloader : list batch) (w : world) :
  deterministic w ->
  returned (validation_pass13 testloader w)
    = result_fold (vstep13_pure (model_parameters w)) testloader (PyInt 0) /\
  same_state w (final_world (validation_pass13 testloader w)) /\
  grad_enabled (final_world (validation_pass13 testloader w)) = grad_enabled w /\
  model_training (final_world (validation_pass13 testloader w)) = model_training w /\
  (exists evs, trace (final_world (validation_pass13 testloader w)) = trace w ++ evs /\
               Forall (val_event (model_training w) false) evs) /\
  (forall a w', validation_pass13 testloader w = Done a w' ->
     trace w' = trace w ++
       repeat (Forward ValidationPass (model_training w) false) (length testloader)).
Proof.
  intros Hdet0.
  unfold validation_pass13, no_grad.
  set (w0 := set_grad_enabled false w).
  assert (Hdet : deterministic w0) by exact Hdet0.
  destruct (vloop13_spec testloader (PyInt 0) Hdet) as (Hret & Hfr & Hdone).
  destruct Hfr as (F1 & F2 & F3 & F4 & F5 & F6 & F7 & F8 & evs & F9 & F10).
  destruct (for_each testloader validation_step13 (PyInt 0) w0) as [a w1|e w1] eqn:E;
    unfold w0 in F1, F2, F3, F4, F5, F6, F7, F8, F9, F10, Hret, Hdone; world_simpl.
  - split_all; try assumption; try reflexivity.
    + unfold same_state. world_simpl. split_all; assumption.
    + exists evs. split; assumption.
    + intros a' w' H. injection H as _ <-. world_simpl. apply (Hdone a w1 eq_refl).
  - split_all; try assumption; try reflexivity.
    + unfold same_state. world_simpl. split_all; assumption.
    + exists evs. split; assumption.
    + discriminate.
Qed.

(** ** The accumulators as functions of the batches *)

Lemma validation_total (p : Parameters) (b : batch) :
  Classifier_shape p -> batch_wf b ->
  exists a l, validation_accuracy p b = Ok (Fin a) /\
              validation_loss p b = Ok (Fin l) /\ 0 <= a <= 1.
Proof.
  intros Hp (Hne & Hx & Hlen & Hlab).
  destruct (Classifier_forward_total Hp Hne Hx) as (lp & Hf & Hl & Hrows).
  assert (Hne' : lp <> []).
  { destruct lp; [|congruence]. destruct (fst b); [congruence|discriminate]. }
  destruct (@NLLLoss_total lp (snd b) Hne' Hrows) as (l & Hloss);
    [congruence|exact Hlab|].
  destruct (@batch_accuracy_total _ (torch_exp lp) (snd b)) as (a & Ha).
  - destruct lp; [congruence|discriminate].
  - unfold torch_exp. apply Forall_map. eapply Forall_impl; [|exact Hrows].
    intros row Hrow. simpl in Hrow. destruct row; [discriminate|discriminate].
  - unfold torch_exp. rewrite length_map. congruence.
  - rewrite batch_accuracy_refines in Ha.
    exists a, l. unfold validation_accuracy, validation_loss. rewrite Hf. simpl.
    split_all; try assumption; apply (spec_batch_accuracy_bounds _ _ Ha).
Qed.

Lemma validation_all_total (p : Parameters) (testloader : list batch) :
  Classifier_shape p -> Forall batch_wf testloader ->
  exists accs losses,
    Forall2 (fun b a => validation_accuracy p b = Ok (Fin a)) testloader accs /\
    Forall2 (fun b l => validation_loss p b = Ok (Fin l)) testloader losses /\
    Forall (fun a => 0 <= a <= 1) accs.
Proof.
  intros Hp. induction 1 as [|b r Hb _ (accs & losses & IH1 & IH2 & IH3)].
  - exists [], []. split_all; constructor.
  - destruct (validation_total Hp Hb) as (a & l & Ha & Hl & Hbd).
    exists (a :: accs), (l :: losses). split_all; constructor; assumption.
Qed.

Lemma vfold13_ok (p : Parameters) (testloader : list batch) (accs : list R) :
  Forall2 (fun b a => validation_accuracy p b = Ok (Fin a)) testloader accs ->
  forall acc,
    result_fold (vstep13_pure p) testloader acc
    = Ok (fold_left py_iadd_tensor (map Fin accs) acc).
Proof.
  induction 1 as [|b a r accs Ha _ IH]; intros acc; simpl; [reflexivity|].
  unfold vstep13_pure at 1. unfold validation_accuracy in Ha.
  destruct (Classifier_forward p (fst b)) as [lp|e]; simpl in *; [|discriminate].
  rewrite batch_accuracy_refines, Ha. simpl. apply IH.
Qed.

Lemma last_cons_default {A} (l : list A) :
  forall x d1 d2, last (x :: l) d1 = last (x :: l) d2.
Proof.
  induction l as [|y l IH]; intros x d1 d2; [reflexivity|].
  change (last (y :: l) d1 = last (y :: l) d2). apply IH.
Qed.

Lemma vfold17_ok (p : Parameters) (testloader : list batch) (accs losses : list R) :
  Forall2 (fun b a => validation_accuracy p b = Ok (Fin a)) testloader accs ->
  Forall2 (fun b l => validation_loss p b = Ok (Fin l)) testloader losses ->
  forall acc loss_accum,
    result_fold (vstep17_pure p) testloader (acc, loss_accum)
    = Ok (fold_left py_iadd_tensor (map Fin accs) acc,
          last (map (fun l => Tensor (Fin l)) losses) loss_accum).
Proof.
  intros Ha. revert losses.
  induction Ha as [|b a r accs Ha _ IH]; intros losses Hl acc l0.
  - inversion Hl. reflexivity.
  - inversion Hl as [|b' l r' losses' Hl1 Hl2]; subst.
    simpl result_fold. unfold vstep17_pure at 1.
    unfold validation_accuracy in Ha. unfold validation_loss in Hl1.
    destruct (Classifier_forward p (fst b)) as [lp|e]; simpl in *; [|discriminate].
    rewrite Hl1. simpl. rewrite batch_accuracy_refines, Ha. simpl.
    rewrite (IH _ Hl2). f_equal. f_equal.
    destruct losses' as [|l' losses']; [reflexivity|].
    simpl map. rewrite (last_cons_default _ _ (Tensor (Fin l)) l0). reflexivity.
Qed.

Lemma accumulate_tensor (accs : list R) :
  forall s, fold_left py_iadd_tensor (map Fin accs) (Tensor (Fin s))
            = Tensor (Fin (s + Rsum accs)).
Proof.
  unfold Rsum. induction accs as [|a r IH]; intros s; simpl.
  - f_equal. f_equal. lra.
  - rewrite IH. f_equal. f_equal. lra.
Qed.

(** Starting from the literal [0], the accumulator ends as a tensor holding
    the sum of the per-batch values. *)
Lemma accumulate_from_zero (accs : list R) :
  accs <> [] ->
  fold_left py_iadd_tensor (map Fin accs) (PyInt 0) = Tensor (Fin (Rsum accs)).
Proof.
  destruct accs as [|a r]; [congruence|intros _]. simpl.
  rewrite accumulate_tensor. unfold Rsum. simpl. f_equal. f_equal. lra.
Qed.

Lemma report_accuracy_tensor (s : R) (n : nat) (w : world) :
  n <> 0%nat ->
  report_accuracy (Tensor (Fin s)) n w
  = Done tt (emit (AccuracyLine (Tensor (Fin (s / INR n * 100)))) w).
Proof.
  destruct n as [|n]; [congruence|intros _]. reflexivity.
Qed.

Lemma report_loss_tensor (s : R) (n : nat) (w : world) :
  n <> 0%nat ->
  report_loss (Tensor (Fin s)) n w
  = Done tt (emit (LossLine (Tensor (Fin (s / INR n * 100)))) w).
Proof.
  destruct n as [|n]; [congruence|intros _]. reflexivity.
Qed.

Lemma Forall2_map_r {A B C} (P : A -> C -> Prop) (f : B -> C) (xs : list A) (ys : list B) :
  Forall2 (fun x y => P x (f y)) xs ys -> Forall2 P xs (map f ys).
Proof.
  induction 1; simpl; constructor; assumption.
Qed.

Lemma Forall2_functional {A B} (P : A -> B -> Prop) (xs : list A) (ys zs : list B) :
  (forall x y z, P x y -> P x z -> y = z) ->
  Forall2 P xs ys -> Forall2 P xs zs -> ys = zs.
Proof.
  intros Hfun H. revert zs. induction H as [|x y xs ys Hxy _ IH]; intros zs Hz.
  - inversion Hz. reflexivity.
  - inversion Hz as [|x' z xs' zs' Hxz Hrest]; subst.
    f_equal; [eapply Hfun; eassumption|apply IH; exact Hrest].
Qed.

Lemma last_map_nonempty {A B} (f : A -> B) (l : list A) (d : B) (d' : A) :
  l <> [] -> last (map f l) d = f (last l d').
Proof.
  induction l as [|x l IH]; [congruence|intros _].
  destruct l as [|y l]; [reflexivity|].
  change (last (map f (y :: l)) d = f (last (y :: l) d')).
  apply IH. discriminate.
Qed.

Lemma validation_loss_functional (p : Parameters) (b : batch) (x y : scalar) :
  validation_loss p b = Ok x -> validation_loss p b = Ok y -> x = y.
Proof. congruence. Qed.

(** ** One epoch of each cell, on well-formed batches *)

Lemma epoch17_total (trainloader testloader : list batch) (w : world) :
  Classifier_shape (model_parameters w) ->
  Forall batch_wf trainloader -> Forall batch_wf testloader ->
  testloader <> [] -> grad_enabled w = true ->
  exists train_losses w1 accs losses w2,
    training_pass trainloader w
      = Done (fold_left py_iadd_float (map Fin train_losses) (PyInt 0)) w1 /\
    Forall2 (fun b a => validation_accuracy (model_parameters w1) b = Ok (Fin a))
            testloader accs /\
    Forall2 (fun b l => validation_loss (model_parameters w1) b = Ok (Fin l))
            testloader losses /\
    Forall (fun a => 0 <= a <= 1) accs /\
    epoch17 trainloader testloader w = Done tt w2 /\
    stdout w2 = stdout w ++
      [AccuracyLine (Tensor (Fin (Rsum accs / INR (length testloader) * 100)));
       LossLine (Tensor (Fin (last losses 0 / INR (length testloader) * 100)))] /\
    trace w2 = trace w ++ flat_map (step_events (model_training w)) (map Fin train_losses)
                       ++ flat_map val_events17 (map Fin losses) /\
    length train_losses = length trainloader /\
    model_class w2 = model_class w /\
    model_training w2 = true /\
    grad_enabled w2 = true /\
    model_parameters w2 = model_parameters w1 /\
    generator w2 = generator w1 /\
    Classifier_shape (model_parameters w2).
Proof.
  intros Hshape Htrain Htest Hne Hg.
  destruct (@training_loop_total trainloader (PyInt 0) w Hshape Htrain Hg)
    as (tl & w1 & Hloop & Hlen & Hc1 & Ht1 & Hg1 & Ho1 & Htr1 & Hs1).
  destruct (@validation_all_total _ _ Hs1 Htest) as (accs & losses & Hacc & Hloss & Hbd).
  destruct (validation_pass17_spec testloader w1)
    as (Hret & (S1 & S2 & S3 & S4 & S5 & S6) & Hge & _ & Hdone).
  rewrite (@vfold17_ok _ _ _ _ Hacc Hloss) in Hret.
  assert (Haccs : accs <> []).
  { intros ->. destruct testloader; [congruence|inversion Hacc]. }
  assert (Hlosses : losses <> []).
  { intros ->. destruct testloader; [congruence|inversion Hloss]. }
  assert (Hn : length testloader <> 0%nat) by (destruct testloader; simpl; congruence).
  rewrite (@accumulate_from_zero accs Haccs) in Hret.
  rewrite (@last_map_nonempty _ _ (fun l => Tensor (Fin l)) losses (PyInt 0) 0 Hlosses) in Hret.
  destruct (validation_pass17 testloader w1) as [r w1'|e w1'] eqn:Hval;
    simpl in Hret; [|discriminate].
  injection Hret as ->. world_simpl.
  destruct (Hdone _ _ eq_refl) as (Htrain' & losses' & Hl' & Htrace).
  assert (Hsame : losses' = map Fin losses).
  { eapply Forall2_functional; [|exact Hl'|apply Forall2_map_r; exact Hloss].
    intros b x y. apply validation_loss_functional. }
  subst losses'.
  exists tl, w1, accs, losses. eexists.
  split; [exact Hloop|]. split; [exact Hacc|]. split; [exact Hloss|].
  split; [exact Hbd|].
  unfold epoch17, bind. unfold training_pass in Hloop. unfold training_pass.
  rewrite Hloop, Hval. world_simpl.
  rewrite (@report_accuracy_tensor _ _ _ Hn), (@report_loss_tensor _ _ _ Hn).
  split; [reflexivity|]. world_simpl.
  split_all; try congruence.
  - rewrite S6, Ho1, <- app_assoc. reflexivity.
  - rewrite Htrace, Htr1, <- app_assoc. reflexivity.
Qed.

Lemma epoch13_total (trainloader testloader : list batch) (w : world) :
  model_class w = Plain ->
  Classifier_shape (model_parameters w) ->
  Forall batch_wf trainloader -> Forall batch_wf testloader ->
  testloader <> [] -> grad_enabled w = true ->
  exists train_losses w1 accs w2,
    training_pass trainloader w
      = Done (fold_left py_iadd_float (map Fin train_losses) (PyInt 0)) w1 /\
    Forall2 (fun b a => validation_accuracy (model_parameters w1) b = Ok (Fin a))
            testloader accs /\
    Forall (fun a => 0 <= a <= 1) accs /\
    epoch13 trainloader testloader w = Done tt w2 /\
    stdout w2 = stdout w ++
      [AccuracyLine (Tensor (Fin (Rsum accs / INR (length testloader) * 100)))] /\
    trace w2 = trace w ++ flat_map (step_events (model_training w)) (map Fin train_losses)
                       ++ repeat (Forward ValidationPass (model_training w) false)
                                 (length testloader) /\
    length train_losses = length trainloader /\
    model_class w2 = model_class w /\
    model_training w2 = model_training w /\
    grad_enabled w2 = true /\
    model_parameters w2 = model_parameters w1 /\
    generator w2 = generator w1 /\
    Classifier_shape (model_parameters w2).
Proof.
  intros Hplain Hshape Htrain Htest Hne Hg.
  destruct (@training_loop_total trainloader (PyInt 0) w Hshape Htrain Hg)
    as (tl & w1 & Hloop & Hlen & Hc1 & Ht1 & Hg1 & Ho1 & Htr1 & Hs1).
  destruct (@validation_all_total _ _ Hs1 Htest) as (accs & _ & Hacc & _ & Hbd).
  assert (Hdet : deterministic w1) by (left; congruence).
  destruct (@validation_pass13_spec testloader w1 Hdet)
    as (Hret & (S1 & S2 & S3 & S4 & S5 & S6) & Hge & Htr & _ & Hdone).
  rewrite (@vfold13_ok _ _ _ Hacc) in Hret.
  assert (Haccs : accs <> []).
  { intros ->. destruct testloader; [congruence|inversion Hacc]. }
  assert (Hn : length testloader <> 0%nat) by (destruct testloader; simpl; congruence).
  rewrite (@accumulate_from_zero accs Haccs) in Hret.
  destruct (validation_pass13 testloader w1) as [r w1'|e w1'] eqn:Hval;
    simpl in Hret; [|discriminate].
  injection Hret as ->. world_simpl.
  pose proof (Hdone _ _ eq_refl) as Htrace.
  exists tl, w1, accs. eexists.
  split; [exact Hloop|]. split; [exact Hacc|]. split; [exact Hbd|].
  unfold epoch13, bind. unfold training_pass in Hloop. unfold training_pass.
  rewrite Hloop, Hval. world_simpl.
  rewrite (@report_accuracy_tensor _ _ _ Hn).
  split; [reflexivity|]. world_simpl.
  split_all; try congruence.
  rewrite Htrace, Htr1, Ht1, <- app_assoc. reflexivity.
Qed.

(** ** The output layer *)

Lemma Classifier_forward_log_softmax (p : Parameters) (x y : matrix) :
  Classifier_forward p x = Ok y -> exists h, y = F_log_softmax h.
Proof.
  unfold Classifier_forward.
  destruct (view_flatten x) as [x'|e]; simpl; [|discriminate].
  destruct (Linear_forward (fc1 p) x') as [h1|e]; simpl; [|discriminate].
  destruct (Linear_forward (fc2 p) (F_relu h1)) as [h2|e]; simpl; [|discriminate].
  destruct (Linear_forward (fc3 p) (F_relu h2)) as [h3|e]; simpl; [|discriminate].
  destruct (Linear_forward (fc4 p) (F_relu h3)) as [h4|e]; simpl; [|discriminate].
  intros H. injection H as <-. eauto.
Qed.

Lemma Rsum_nonneg (xs : list R) : Forall (fun x => 0 < x) xs -> 0 <= Rsum xs.
Proof.
  unfold Rsum. induction 1 as [|x xs Hx _ IH]; simpl; lra.
Qed.

Lemma Rsum_pos (xs : list R) : xs <> [] -> Forall (fun x => 0 < x) xs -> 0 < Rsum xs.
Proof.
  destruct xs as [|x xs]; [congruence|intros _ H].
  inversion H as [|? ? Hx Hxs]; subst.
  pose proof (Rsum_nonneg Hxs). unfold Rsum in *. simpl. lra.
Qed.

Lemma Rsum_exceeds_entry (xs : list R) (x : R) :
  Forall (fun y => 0 < y) xs -> (2 <= length xs)%nat -> In x xs -> x < Rsum xs.
Proof.
  intros Hpos Hlen Hin.
  destruct (in_split _ _ Hin) as (l1 & l2 & ->).
  rewrite Rsum_app. change (Rsum (x :: l2)) with (x + Rsum l2).
  apply Forall_app in Hpos. destruct Hpos as (H1 & H2).
  inversion H2 as [|? ? Hx Hl2]; subst.
  pose proof (Rsum_nonneg H1). pose proof (Rsum_nonneg Hl2).
  rewrite length_app in Hlen. simpl in Hlen.
  destruct l1 as [|a l1].
  - destruct l2 as [|c l2]; [simpl in Hlen; lia|].
    assert (0 < Rsum (c :: l2)) by (apply Rsum_pos; [discriminate|exact Hl2]).
    unfold Rsum in *. simpl in *. lra.
  - assert (0 < Rsum (a :: l1)) by (apply Rsum_pos; [discriminate|exact H1]).
    lra.
Qed.

(** With two classes or more every log-probability is negative. *)
Lemma log_softmax_row_negative (z : list R) :
  (2 <= length z)%nat -> Forall (fun v => v < 0) (log_softmax_row z).
Proof.
  intros Hlen. unfold log_softmax_row. apply Forall_map. apply Forall_forall.
  intros zi Hin.
  assert (Hlt : exp zi < Rsum (map exp z)).
  { apply Rsum_exceeds_entry.
    - apply Forall_map. apply Forall_forall. intros y _. apply exp_pos.
    - rewrite length_map. exact Hlen.
    - apply in_map. exact Hin. }
  pose proof (exp_pos zi) as Hpos.
  apply ln_increasing in Hlt; [|exact Hpos]. rewrite ln_exp in Hlt. lra.
Qed.

Lemma Forall2_Forall_r {A B} (P : A -> B -> Prop) (Q : B -> Prop)
  (xs : list A) (ys : list B) :
  Forall2 P xs ys -> Forall (fun x => forall y, P x y -> Q y) xs -> Forall Q ys.
Proof.
  induction 1 as [|x y xs ys Hxy _ IH]; intros H; [constructor|].
  inversion H as [|? ? Hx Hxs]; subst. constructor; auto.
Qed.

(** The loss of a batch of ten-class log-probabilities is positive. *)
Lemma NLLLoss_positive (h : matrix) (labels : list nat) (l : R) :
  rows_of 10 h -> NLLLoss (F_log_softmax h) labels = Ok (Fin l) -> 0 < l.
Proof.
  intros Hrows. unfold NLLLoss.
  destruct (length (F_log_softmax h) =? length labels)%nat; [|discriminate].
  destruct (result_map _ (combine (F_log_softmax h) labels)) as [picked|e] eqn:Hp;
    simpl; [|discriminate].
  assert (Hall : Forall (fun v => 0 < v) picked).
  { apply result_map_Forall2 in Hp.
    eapply Forall2_Forall_r; [exact Hp|].
    apply Forall_forall. intros [row lab] Hin v Hv. simpl in Hv.
    destruct (nth_error row lab) as [x|] eqn:Hx; [|discriminate].
    injection Hv as <-. apply nth_error_In in Hx.
    apply in_combine_l in Hin. unfold F_log_softmax in Hin.
    apply in_map_iff in Hin. destruct Hin as (z & <- & Hz).
    unfold rows_of in Hrows. rewrite Forall_forall in Hrows.
    assert (Hneg : Forall (fun v => v < 0) (log_softmax_row z)).
    { apply log_softmax_row_negative. rewrite (Hrows _ Hz). lia. }
    rewrite Forall_forall in Hneg. specialize (Hneg _ Hx). lra. }
  intros H.
  assert (Hne : picked <> []).
  { intros ->. unfold torch_mean in H. simpl in H. discriminate. }
  pose proof (Rsum_pos Hne Hall) as Hsum.
  unfold torch_mean in H.
  destruct (length picked) as [|n]; cbn [sdiv_nat] in H; [discriminate|].
  injection H as <-.
  apply Rdiv_lt_0_compat; [exact Hsum|]. apply (lt_0_INR (S n)). lia.
Qed.

(** ** Flags seen by the forward calls *)

Lemma step_events_flags (losses : list scalar) :
  Forall mode_ok17 (flat_map (step_events true) losses) /\
  Forall mode_ok13 (flat_map (step_events true) losses) /\
  forall tr, Forall grad_ok (flat_map (step_events tr) losses).
Proof.
  split_all; [| |intros tr]; induction losses as [|l r IH]; simpl;
    repeat constructor; assumption.
Qed.

Lemma val_events17_flags (losses : list scalar) :
  Forall mode_ok17 (flat_map val_events17 losses) /\
  Forall grad_ok (flat_map val_events17 losses).
Proof.
  split; induction losses as [|l r IH]; simpl; repeat constructor; assumption.
Qed.

Lemma val_events13_flags (tr : bool) (n : nat) :
  Forall grad_ok (repeat (Forward ValidationPass tr false) n) /\
  (tr = true -> Forall mode_ok13 (repeat (Forward ValidationPass tr false) n)).
Proof.
  split; [|intros ->]; induction n as [|n IH]; simpl; repeat constructor; assumption.
Qed.

(** ** The loops over the epochs *)

Lemma last_cons {A} (l : list A) : forall x d, last (x :: l) d = last l x.
Proof.
  induction l as [|y l IH]; intros x d; [reflexivity|].
  change (last (y :: l) d = last (y :: l) x). apply last_cons_default.
Qed.

Lemma cell17_loop_total (trainloader testloader : DataLoader) (n : nat) :
  (forall e, Forall batch_wf (trainloader e)) ->
  (forall e, Forall batch_wf (testloader e)) ->
  (forall e, testloader e <> []) ->
  forall (start : nat) (w : world),
    Classifier_shape (model_parameters w) ->
    model_training w = true -> grad_enabled w = true ->
    exists ws,
      for_each (seq start n)
               (fun e (_ : unit) => epoch17 (trainloader e) (testloader e)) tt w
        = Done tt (last ws w) /\
      length ws = n /\
      epochs_between (fun e => epoch17 (trainloader e) (testloader e)) start ws w /\
      Forall (fun x => model_training x = true /\ grad_enabled x = true) ws /\
      model_class (last ws w) = model_class w /\
      length (stdout (last ws w)) = (length (stdout w) + 2 * n)%nat /\
      exists evs, trace (last ws w) = trace w ++ evs /\
                  Forall mode_ok17 evs /\ Forall grad_ok evs.
Proof.
  intros Htrain Htest Hne.
  induction n as [|n IH]; intros start w Hshape Htr Hg.
  - exists []. simpl. unfold ret. split_all; auto; try lia.
    exists []. rewrite app_nil_r. split_all; [reflexivity|constructor|constructor].
  - destruct (@epoch17_total (trainloader start) (testloader start) w
                Hshape (Htrain start) (Htest start) (Hne start) Hg)
      as (tl & w1 & accs & losses & w2 & _ & _ & _ & _ & Hepoch & Hout & Htrace &
          _ & Hc & Ht2 & Hg2 & _ & _ & Hs2).
    destruct (IH (S start) w2 Hs2 Ht2 Hg2)
      as (ws & Hloop & Hlen & Hchain & Hflags & Hc' & Hlen' & evs & Hevs & Hm & Hgr).
    exists (w2 :: ws). rewrite last_cons.
    cbn [seq for_each]. unfold bind. rewrite Hepoch, Hloop.
    split_all; try congruence.
    + simpl. lia.
    + simpl. split; assumption.
    + constructor; [split; assumption|exact Hflags].
    + rewrite Hlen', Hout, length_app. simpl. lia.
    + exists ((flat_map (step_events (model_training w)) (map Fin tl)
               ++ flat_map val_events17 (map Fin losses)) ++ evs).
      rewrite Htr.
      destruct (step_events_flags (map Fin tl)) as (M1 & _ & G1).
      destruct (val_events17_flags (map Fin losses)) as (M2 & G2).
      split_all.
      * rewrite Hevs, Htrace, Htr, <- !app_assoc. reflexivity.
      * repeat (apply Forall_app; split); auto.
      * repeat (apply Forall_app; split); auto.
Qed.

Lemma cell13_loop_total (trainloader testloader : DataLoader) (n : nat) :
  (forall e, Forall batch_wf (trainloader e)) ->
  (forall e, Forall batch_wf (testloader e)) ->
  (forall e, testloader e <> []) ->
  forall (start : nat) (w : world),
    model_class w = Plain ->
    Classifier_shape (model_parameters w) ->
    model_training w = true -> grad_enabled w = true ->
    exists ws,
      for_each (seq start n)
               (fun e (_ : unit) => epoch13 (trainloader e) (testloader e)) tt w
        = Done tt (last ws w) /\
      length ws = n /\
      epochs_between (fun e => epoch13 (trainloader e) (testloader e)) start ws w /\
      Forall (fun x => model_training x = true /\ grad_enabled x = true) ws /\
      model_class (last ws w) = model_class w /\
      length (stdout (last ws w)) = (length (stdout w) + n)%nat /\
      exists evs, trace (last ws w) = trace w ++ evs /\
                  Forall mode_ok13 evs /\ Forall grad_ok evs.
Proof.
  intros Htrain Htest Hne.
  induction n as [|n IH]; intros start w Hplain Hshape Htr Hg.
  - exists []. simpl. unfold ret. split_all; auto; try lia.
    exists []. rewrite app_nil_r. split_all; [reflexivity|constructor|constructor].
  - destruct (@epoch13_total (trainloader start) (testloader start) w Hplain
                Hshape (Htrain start) (Htest start) (Hne start) Hg)
      as (tl & w1 & accs & w2 & _ & _ & _ & Hepoch & Hout & Htrace &
          _ & Hc & Ht2 & Hg2 & _ & _ & Hs2).
    assert (Hplain2 : model_class w2 = Plain) by congruence.
    assert (Htr2 : model_training w2 = true) by congruence.
    destruct (IH (S start) w2 Hplain2 Hs2 Htr2 Hg2)
      as (ws & Hloop & Hlen & Hchain & Hflags & Hc' & Hlen' & evs & Hevs & Hm & Hgr).
    exists (w2 :: ws). rewrite last_cons.
    cbn [seq for_each]. unfold bind. rewrite Hepoch, Hloop.
    split_all; try congruence.
    + simpl. lia.
    + simpl. split; assumption.
    + constructor; [split; assumption|exact Hflags].
    + rewrite Hlen', Hout, length_app. simpl. lia.
    + exists ((flat_map (step_events (model_training w)) (map Fin tl)
               ++ repeat (Forward ValidationPass (model_training w) false)
                         (length (testloader start))) ++ evs).
      rewrite Htr.
      destruct (step_events_flags (map Fin tl)) as (_ & M1 & G1).
      destruct (val_events13_flags true (length (testloader start))) as (G2 & M2).
      split_all.
      * rewrite Hevs, Htrace, Htr, <- !app_assoc. reflexivity.
      * repeat (apply Forall_app; split); auto.
      * repeat (apply Forall_app; split); auto.
Qed.

(** The whole cells: the model object and the optimizer are created, then
    the epochs run.  [w1] is the state in which the first epoch starts, [ws]
    the states in which the successive epochs end. *)
Lemma constructors_total (c : arch) (w : world) :
  exists w1,
    bind (new_Classifier c) (fun _ => new_Adam) w = Done tt w1 /\
    model_class w1 = c /\ model_training w1 = true /\
    grad_enabled w1 = grad_enabled w /\
    trace w1 = trace w /\ stdout w1 = stdout w /\
    Classifier_shape (model_parameters w1).
Proof.
  unfold bind, new_Classifier, new_Adam.
  pose proof (init_parameters_shape (generator w)) as Hshape.
  destruct (init_parameters (generator w)) as [p g]. simpl in Hshape.
  eexists. split; [reflexivity|]. world_simpl. split_all; auto.
Qed.

Lemma Forall2_last {A B} (P : A -> B -> Prop) (xs : list A) (ys : list B) (dx : A) (dy : B) :
  Forall2 P xs ys -> xs <> [] -> P (last xs dx) (last ys dy).
Proof.
  induction 1 as [|x y xs ys Hxy Hrest IH]; [congruence|intros _].
  destruct Hrest as [|x' y' xs' ys' Hxy' Hrest'].
  - exact Hxy.
  - change (P (last (x' :: xs') dx) (last (y' :: ys') dy)). apply IH. discriminate.
Qed.

Lemma validation_loss_positive (p : Parameters) (b : batch) (l : R) :
  Classifier_shape p -> batch_wf b -> validation_loss p b = Ok (Fin l) -> 0 < l.
Proof.
  intros Hp (Hne & Hx & _) Hl.
  destruct (Classifier_forward_total Hp Hne Hx) as (lp & Hf & _ & Hrows).
  unfold validation_loss in Hl. rewrite Hf in Hl. simpl in Hl.
  destruct (Classifier_forward_log_softmax _ _ Hf) as (h & ->).
  apply (@NLLLoss_positive h (snd b) l); [|exact Hl].
  unfold rows_of, F_log_softmax in *. rewrite Forall_map in Hrows.
  eapply Forall_impl; [|exact Hrows].
  intros z Hz. simpl in Hz. unfold log_softmax_row in Hz.
  rewrite length_map in Hz. exact Hz.
Qed.

(** * The claims *)

(** C1 (amended).  In the train-and-validate loop of the dropout model, the
    line [Loss: ...] printed at the end of an epoch holds the loss of the last
    validation batch alone, divided by the number of validation batches and
    multiplied by 100; the line [Accuracy: ...%] printed before it holds the
    sum of the accuracies of all validation batches divided by their number,
    as a percentage. *)
Theorem epoch17_reports_last_loss_over_count
  (trainloader testloader : list batch) (w : world) :
  Classifier_shape (model_parameters w) ->
  Forall batch_wf trainloader -> Forall batch_wf testloader ->
  testloader <> [] -> grad_enabled w = true ->
  exists running_loss w1 accs last_loss w2,
    training_pass trainloader w = Done running_loss w1 /\
    Forall2 (fun b a => validation_accuracy (model_parameters w1) b = Ok (Fin a))
            testloader accs /\
    validation_loss (model_parameters w1) (last testloader ([], [])) = Ok (Fin last_loss) /\
    epoch17 trainloader testloader w = Done tt w2 /\
    stdout w2 = stdout w ++
      [AccuracyLine (Tensor (Fin (Rsum accs / INR (length testloader) * 100)));
       LossLine (Tensor (Fin (last_loss / INR (length testloader) * 100)))].
Proof.
  intros Hshape Htrain Htest Hne Hg.
  destruct (@epoch17_total trainloader testloader w Hshape Htrain Htest Hne Hg)
    as (tl & w1 & accs & losses & w2 & Hloop & Hacc & Hloss & _ & Hepoch & Hout & _).
  exists (fold_left py_iadd_float (map Fin tl) (PyInt 0)), w1, accs, (last losses 0), w2.
  split_all; try assumption.
  apply (@Forall2_last _ _
           (fun b l => validation_loss (model_parameters w1) b = Ok (Fin l))
           testloader losses ([], []) 0 Hloss Hne).
Qed.

(** C2.  For an epoch with a non-empty validation source, the percentage
    printed on the [Accuracy: ...%] line is 100 times the sum over the
    validation batches of the per-batch accuracy divided by the number of
    validation batches, in both cells; the per-batch accuracy
    ([validation_accuracy], through [spec_batch_accuracy]) is the fraction of
    examples whose top-1 class of the exponentiated log-probabilities equals
    the label, the predictions taken in the shape of the labels; and the top-1
    class of an example is the index of a greatest probability of its row,
    whichever the library takes where several probabilities are equal. *)
Theorem epoch_accuracy_is_mean_of_batch_accuracies
  (trainloader testloader : list batch) (w : world) :
  Classifier_shape (model_parameters w) ->
  Forall batch_wf trainloader -> Forall batch_wf testloader ->
  testloader <> [] -> grad_enabled w = true ->
  (exists running_loss w1 accs loss_line w2,
     training_pass trainloader w = Done running_loss w1 /\
     Forall2 (fun b a => validation_accuracy (model_parameters w1) b = Ok (Fin a))
             testloader accs /\
     epoch17 trainloader testloader w = Done tt w2 /\
     stdout w2 = stdout w ++
       [AccuracyLine (Tensor (Fin (Rsum accs / INR (length testloader) * 100)));
        loss_line]) /\
  (model_class w = Plain ->
   exists running_loss w1 accs w2,
     training_pass trainloader w = Done running_loss w1 /\
     Forall2 (fun b a => validation_accuracy (model_parameters w1) b = Ok (Fin a))
             testloader accs /\
     epoch13 trainloader testloader w = Done tt w2 /\
     stdout w2 = stdout w ++
       [AccuracyLine (Tensor (Fin (Rsum accs / INR (length testloader) * 100)))]) /\
  (forall ps labels, batch_accuracy ps labels = spec_batch_accuracy ps labels) /\
  (forall ps tops, topk1 ps = Ok tops -> Forall2 max_index ps (concat (snd tops))).
Proof.
  intros Hshape Htrain Htest Hne Hg. split_all.
  - destruct (@epoch17_total trainloader testloader w Hshape Htrain Htest Hne Hg)
      as (tl & w1 & accs & losses & w2 & Hloop & Hacc & _ & _ & Hepoch & Hout & _).
    do 5 eexists. split_all; eassumption.
  - intros Hplain.
    destruct (@epoch13_total trainloader testloader w Hplain Hshape Htrain Htest Hne Hg)
      as (tl & w1 & accs & w2 & Hloop & Hacc & _ & Hepoch & Hout & _).
    do 4 eexists. split_all; eassumption.
  - apply batch_accuracy_refines.
  - apply topk1_max_index.
Qed.

(** C5.  For an epoch with a non-empty validation source, the accuracy
    reported lies between 0 and 1: the [Accuracy: ...%] line shows it as the
    percentage [a * 100] with [0 <= a <= 1], in both cells. *)
Theorem epoch_accuracy_in_unit_interval
  (trainloader testloader : list batch) (w : world) :
  Classifier_shape (model_parameters w) ->
  Forall batch_wf trainloader -> Forall batch_wf testloader ->
  testloader <> [] -> grad_enabled w = true ->
  (exists a loss_line w2,
     epoch17 trainloader testloader w = Done tt w2 /\
     stdout w2 = stdout w ++ [AccuracyLine (Tensor (Fin (a * 100))); loss_line] /\
     0 <= a <= 1) /\
  (model_class w = Plain ->
   exists a w2,
     epoch13 trainloader testloader w = Done tt w2 /\
     stdout w2 = stdout w ++ [AccuracyLine (Tensor (Fin (a * 100)))] /\
     0 <= a <= 1).
Proof.
  intros Hshape Htrain Htest Hne Hg.
  assert (Hmean : forall accs : list R,
             length accs = length testloader ->
             Forall (fun a => 0 <= a <= 1) accs ->
             0 <= Rsum accs / INR (length testloader) <= 1).
  { intros accs Hlen Hbd.
    pose proof (Rsum_bounds Hbd) as Hs. rewrite Hlen in Hs.
    assert (Hpos : 0 < INR (length testloader)).
    { apply lt_0_INR. destruct testloader; [congruence|simpl; lia]. }
    split.
    - apply Rmult_le_pos; [lra|]. left. apply Rinv_0_lt_compat. exact Hpos.
    - apply (Rmult_le_reg_r (INR (length testloader))); [exact Hpos|].
      unfold Rdiv. rewrite Rmult_assoc, Rinv_l by lra. lra. }
  split.
  - destruct (@epoch17_total trainloader testloader w Hshape Htrain Htest Hne Hg)
      as (tl & w1 & accs & losses & w2 & _ & Hacc & _ & Hbd & Hepoch & Hout & _).
    do 3 eexists. split_all; try eassumption;
      apply (Hmean accs); auto; symmetry; eapply Forall2_length; exact Hacc.
  - intros Hplain.
    destruct (@epoch13_total trainloader testloader w Hplain Hshape Htrain Htest Hne Hg)
      as (tl & w1 & accs & w2 & _ & Hacc & Hbd & Hepoch & Hout & _).
    do 2 eexists. split_all; try eassumption;
      apply (Hmean accs); auto; symmetry; eapply Forall2_length; exact Hacc.
Qed.

Lemma cell17_chain (trainloader testloader : DataLoader) (w : world) :
  (forall e, Forall batch_wf (trainloader e)) ->
  (forall e, Forall batch_wf (testloader e)) ->
  (forall e, testloader e <> []) ->
  grad_enabled w = true ->
  exists w1 ws,
    bind (new_Classifier WithDropout) (fun _ => new_Adam) w = Done tt w1 /\
    cell17 trainloader testloader w = Done tt (last ws w1) /\
    length ws = epochs /\
    epochs_between (fun e => epoch17 (trainloader e) (testloader e)) 0 ws w1 /\
    Forall (fun x => model_training x = true /\ grad_enabled x = true) (w1 :: ws) /\
    exists evs, trace (last ws w1) = trace w ++ evs /\
                Forall mode_ok17 evs /\ Forall grad_ok evs.
Proof.
  intros Htrain Htest Hne Hg.
  destruct (constructors_total WithDropout w)
    as (w1 & Hnew & Hc & Ht & Hg1 & Htrace & _ & Hshape).
  rewrite Hg in Hg1.
  destruct (@cell17_loop_total trainloader testloader epochs Htrain Htest Hne
              0%nat w1 Hshape Ht Hg1)
    as (ws & Hloop & Hlen & Hchain & Hflags & _ & _ & evs & Hevs & Hm & Hgr).
  exists w1, ws. split_all; try assumption.
  - unfold cell17, cell17_loop. unfold bind in Hnew |- *.
    destruct (new_Classifier WithDropout w) as [[] w0|e w0]; [|discriminate].
    rewrite Hnew. exact Hloop.
  - constructor; [split; assumption|exact Hflags].
  - exists evs. rewrite <- Htrace. split_all; assumption.
Qed.

Lemma cell13_chain (trainloader testloader : DataLoader) (w : world) :
  (forall e, Forall batch_wf (trainloader e)) ->
  (forall e, Forall batch_wf (testloader e)) ->
  (forall e, testloader e <> []) ->
  grad_enabled w = true ->
  exists w1 ws,
    bind (new_Classifier Plain) (fun _ => new_Adam) w = Done tt w1 /\
    cell13 trainloader testloader w = Done tt (last ws w1) /\
    length ws = epochs /\
    epochs_between (fun e => epoch13 (trainloader e) (testloader e)) 0 ws w1 /\
    Forall (fun x => model_training x = true /\ grad_enabled x = true) (w1 :: ws) /\
    exists evs, trace (last ws w1) = trace w ++ evs /\
                Forall mode_ok13 evs /\ Forall grad_ok evs.
Proof.
  intros Htrain Htest Hne Hg.
  destruct (constructors_total Plain w)
    as (w1 & Hnew & Hc & Ht & Hg1 & Htrace & _ & Hshape).
  rewrite Hg in Hg1.
  destruct (@cell13_loop_total trainloader testloader epochs Htrain Htest Hne
              0%nat w1 Hc Hshape Ht Hg1)
    as (ws & Hloop & Hlen & Hchain & Hflags & _ & _ & evs & Hevs & Hm & Hgr).
  exists w1, ws. split_all; try assumption.
  - unfold cell13, cell13_loop. unfold bind in Hnew |- *.
    destruct (new_Classifier Plain w) as [[] w0|e w0]; [|discriminate].
    rewrite Hnew. exact Hloop.
  - constructor; [split; assumption|exact Hflags].
  - exists evs. rewrite <- Htrace. split_all; assumption.
Qed.

Lemma Forall_and_l {A} (P Q : A -> Prop) (l : list A) :
  Forall (fun x => P x /\ Q x) l -> Forall P l.
Proof. apply Forall_impl. tauto. Qed.

Lemma Forall_and_r {A} (P Q : A -> Prop) (l : list A) :
  Forall (fun x => P x /\ Q x) l -> Forall Q l.
Proof. apply Forall_impl. tauto. Qed.

(** C3 (amended).  In the cell of the dropout model every forward call of a
    validation pass runs with the mode flag at evaluation and every forward
    call of a training pass with the flag at training; the flag is at training
    when the first epoch starts and when each of the 30 epochs ends.  The
    first cell never touches the flag: all its forward calls, those of the
    validation passes included, run with the flag at training, and the flag is
    at training when the first epoch starts and when each epoch ends. *)
Theorem mode_flag_in_both_cells (trainloader testloader : DataLoader) (w : world) :
  (forall e, Forall batch_wf (trainloader e)) ->
  (forall e, Forall batch_wf (testloader e)) ->
  (forall e, testloader e <> []) ->
  grad_enabled w = true ->
  (exists w1 ws,
     bind (new_Classifier WithDropout) (fun _ => new_Adam) w = Done tt w1 /\
     cell17 trainloader testloader w = Done tt (last ws w1) /\
     length ws = epochs /\
     epochs_between (fun e => epoch17 (trainloader e) (testloader e)) 0 ws w1 /\
     Forall (fun x => model_training x = true) (w1 :: ws) /\
     exists evs, trace (last ws w1) = trace w ++ evs /\ Forall mode_ok17 evs) /\
  (exists w1 ws,
     bind (new_Classifier Plain) (fun _ => new_Adam) w = Done tt w1 /\
     cell13 trainloader testloader w = Done tt (last ws w1) /\
     length ws = epochs /\
     epochs_between (fun e => epoch13 (trainloader e) (testloader e)) 0 ws w1 /\
     Forall (fun x => model_training x = true) (w1 :: ws) /\
     exists evs, trace (last ws w1) = trace w ++ evs /\ Forall mode_ok13 evs).
Proof.
  intros Htrain Htest Hne Hg. split.
  - destruct (cell17_chain trainloader testloader w Htrain Htest Hne Hg)
      as (w1 & ws & H1 & H2 & H3 & H4 & H5 & evs & H6 & H7 & _).
    exists w1, ws. split_all; try assumption.
    + exact (@Forall_and_l _ _ _ _ H5).
    + exists evs. split; assumption.
  - destruct (cell13_chain trainloader testloader w Htrain Htest Hne Hg)
      as (w1 & ws & H1 & H2 & H3 & H4 & H5 & evs & H6 & H7 & _).
    exists w1, ws. split_all; try assumption.
    + exact (@Forall_and_l _ _ _ _ H5).
    + exists evs. split; assumption.
Qed.

(** C4.  In both cells every forward call of a validation pass runs with
    gradient tracking off and every forward call of a training pass with
    tracking on; tracking is on when the first epoch starts and when each
    epoch ends.  Leaving the [torch.no_grad()] scope of the validation pass
    puts the flag back to what it was before, whatever the pass did. *)
Theorem gradient_tracking_off_during_validation
  (trainloader testloader : DataLoader) (w : world) :
  (forall e, Forall batch_wf (trainloader e)) ->
  (forall e, Forall batch_wf (testloader e)) ->
  (forall e, testloader e <> []) ->
  grad_enabled w = true ->
  (exists w1 ws,
     bind (new_Classifier WithDropout) (fun _ => new_Adam) w = Done tt w1 /\
     cell17 trainloader testloader w = Done tt (last ws w1) /\
     length ws = epochs /\
     epochs_between (fun e => epoch17 (trainloader e) (testloader e)) 0 ws w1 /\
     Forall (fun x => grad_enabled x = true) (w1 :: ws) /\
     exists evs, trace (last ws w1) = trace w ++ evs /\ Forall grad_ok evs) /\
  (exists w1 ws,
     bind (new_Classifier Plain) (fun _ => new_Adam) w = Done tt w1 /\
     cell13 trainloader testloader w = Done tt (last ws w1) /\
     length ws = epochs /\
     epochs_between (fun e => epoch13 (trainloader e) (testloader e)) 0 ws w1 /\
     Forall (fun x => grad_enabled x = true) (w1 :: ws) /\
     exists evs, trace (last ws w1) = trace w ++ evs /\ Forall grad_ok evs) /\
  (forall batches x,
     grad_enabled (final_world (validation_pass17 batches x)) = grad_enabled x /\
     exists evs, trace (final_world (validation_pass17 batches x)) = trace x ++ evs /\
                 Forall (val_event false false) evs).
Proof.
  intros Htrain Htest Hne Hg. split_all.
  - destruct (cell17_chain trainloader testloader w Htrain Htest Hne Hg)
      as (w1 & ws & H1 & H2 & H3 & H4 & H5 & evs & H6 & _ & H7).
    exists w1, ws. split_all; try assumption.
    + exact (@Forall_and_r _ _ _ _ H5).
    + exists evs. split; assumption.
  - destruct (cell13_chain trainloader testloader w Htrain Htest Hne Hg)
      as (w1 & ws & H1 & H2 & H3 & H4 & H5 & evs & H6 & _ & H7).
    exists w1, ws. split_all; try assumption.
    + exact (@Forall_and_r _ _ _ _ H5).
    + exists evs. split; assumption.
  - intros batches x.
    destruct (validation_pass17_spec batches x) as (_ & _ & H1 & H2 & _).
    split; assumption.
Qed.


(** Whatever the first validation pass did, a second one right after it
    returns the same values or raises the same exception, and neither pass
    touches the parameters, the generator, the gradients or the optimizer. *)
Lemma validation_pass17_repeat (testloader : list batch) (w : world) :
  returned (validation_pass17 testloader (final_world (validation_pass17 testloader w)))
    = returned (validation_pass17 testloader w) /\
  same_state w (final_world (validation_pass17 testloader w)) /\
  same_state (final_world (validation_pass17 testloader w))
             (final_world (validation_pass17 testloader
                             (final_world (validation_pass17 testloader w)))).
Proof.
  destruct (validation_pass17_spec testloader w) as (Hret1 & Hs1 & _).
  destruct (validation_pass17_spec testloader
              (final_world (validation_pass17 testloader w))) as (Hret2 & Hs2 & _).
  split_all; try assumption.
  rewrite Hret2, Hret1. destruct Hs1 as (_ & -> & _). reflexivity.
Qed.

(** C8.  Two validation passes in a row over the same batches in the same
    order, with no training step in between, return the same accumulated
    accuracy, which is reported as the same percentage both times; a pass
    leaves the parameters, the generator, the gradients and the optimizer as
    they were.  Two epochs in a row whose training source is empty print the
    same two lines twice. *)
Theorem validation_twice_same_accuracy (testloader : list batch) (w : world) :
  Classifier_shape (model_parameters w) -> Forall batch_wf testloader ->
  testloader <> [] -> grad_enabled w = true ->
  (exists accs w1 w2 a,
     validation_pass17 testloader w = Done accs w1 /\
     validation_pass17 testloader w1 = Done accs w2 /\
     same_state w w1 /\ same_state w1 w2 /\
     forall x, report_accuracy (fst accs) (length testloader) x
               = Done tt (emit (AccuracyLine (Tensor (Fin (a * 100)))) x)) /\
  (exists w1 w2 accuracy_line loss_line,
     epoch17 [] testloader w = Done tt w1 /\
     epoch17 [] testloader w1 = Done tt w2 /\
     stdout w2 = stdout w ++ [accuracy_line; loss_line; accuracy_line; loss_line]).
Proof.
  intros Hshape Htest Hne Hg. split.
  - destruct (validation_pass17_repeat testloader w) as (Hrep & Hs1 & Hs2).
    destruct (validation_pass17_spec testloader w) as (Hret & _).
    destruct (@validation_all_total _ _ Hshape Htest) as (accs & losses & Hacc & Hloss & _).
    rewrite (@vfold17_ok _ _ _ _ Hacc Hloss) in Hret.
    assert (Haccs : accs <> []) by (intros ->; destruct testloader; [congruence|inversion Hacc]).
    rewrite (@accumulate_from_zero accs Haccs) in Hret.
    destruct (validation_pass17 testloader w) as [r w1|e w1] eqn:Hv1;
      simpl in Hret; [|discriminate].
    injection Hret as ->. simpl final_world in Hrep, Hs1, Hs2. simpl returned in Hrep.
    destruct (validation_pass17 testloader w1) as [r w2|e w2] eqn:Hv2;
      simpl in Hrep; [|discriminate].
    injection Hrep as ->. simpl final_world in Hs2.
    eexists. exists w1, w2, (Rsum accs / INR (length testloader)).
    split; [first [reflexivity|exact Hv1]|]. split; [exact Hv2|].
    split; [exact Hs1|]. split; [exact Hs2|].
    intros x. simpl fst. apply report_accuracy_tensor.
    destruct testloader; simpl; congruence.
  - destruct (@epoch17_total [] testloader w Hshape (Forall_nil _) Htest Hne Hg)
      as (tl & w1 & accs & losses & w2 & Hloop & Hacc & Hloss & _ & Hepoch & Hout & _ &
          _ & _ & _ & Hg2 & Hp2 & _ & Hs2).
    unfold training_pass in Hloop. simpl in Hloop. unfold ret in Hloop.
    injection Hloop as _ <-.
    destruct (@epoch17_total [] testloader w2 Hs2 (Forall_nil _) Htest Hne Hg2)
      as (tl' & w1' & accs' & losses' & w3 & Hloop' & Hacc' & Hloss' & _ & Hepoch' &
          Hout' & _).
    unfold training_pass in Hloop'. simpl in Hloop'. unfold ret in Hloop'.
    injection Hloop' as _ <-.
    rewrite Hp2 in Hacc', Hloss'.
    assert (accs' = accs).
    { eapply Forall2_functional; [|exact Hacc'|exact Hacc]. intros; congruence. }
    assert (losses' = losses).
    { eapply Forall2_functional; [|exact Hloss'|exact Hloss]. intros; congruence. }
    subst accs' losses'.
    do 4 eexists. split_all; [exact Hepoch|exact Hepoch'|].
    rewrite Hout', Hout, <- app_assoc. reflexivity.
Qed.

(** C9.  When the validation source yields no batch, the accuracy accumulator
    is still the integer [0] and its division by [len(testloader) = 0] raises
    Python's [ZeroDivisionError]; nothing guards the division, so the
    exception leaves the epoch: no line is printed for it, in either cell, and
    the exception is the arithmetic one, none of the notebook's own. *)
Theorem empty_validation_source_raises
  (trainloader : list batch) (w : world) :
  Classifier_shape (model_parameters w) -> Forall batch_wf trainloader ->
  grad_enabled w = true ->
  py_truediv_len (PyInt 0) 0 = Err ZeroDivisionError /\
  (exists w', epoch17 trainloader [] w = Raised ZeroDivisionError w' /\
              stdout w' = stdout w) /\
  (exists w', epoch13 trainloader [] w = Raised ZeroDivisionError w' /\
              stdout w' = stdout w).
Proof.
  intros Hshape Htrain Hg.
  destruct (@training_loop_total trainloader (PyInt 0) w Hshape Htrain Hg)
    as (tl & w1 & Hloop & _ & _ & _ & _ & Hout & _).
  split; [reflexivity|]. split.
  - unfold epoch17, bind, training_pass. rewrite Hloop.
    eexists. split; [reflexivity|]. world_simpl. exact Hout.
  - unfold epoch13, bind, training_pass. rewrite Hloop.
    eexists. split; [reflexivity|]. world_simpl. exact Hout.
Qed.

(** C10.  The inference cell puts the model in evaluation mode, runs the
    forward pass on the one example with gradient tracking off, and hands the
    visualizer the image together with the element-wise exponential of the
    output of that forward pass; this exponential has one entry per class, ten
    in all, every entry is positive and the entries sum to 1. *)
Theorem inference_hands_over_distribution
  (img : list R) (imgs : matrix) (labels : list nat) (rest : list batch) (w : world) :
  Classifier_shape (model_parameters w) -> length img = 784%nat ->
  exists log_ps w',
    forward_of (model_class w) (model_parameters w) false (generator w) [img]
      = (Ok [log_ps], generator w) /\
    cell19 ((img :: imgs, labels) :: rest) w = Done tt w' /\
    trace w' = trace w ++
      [Forward Inference false false; ViewClassify img [map exp log_ps]] /\
    model_training w' = false /\
    grad_enabled w' = grad_enabled w /\
    length (map exp log_ps) = 10%nat /\
    Forall (fun pr => 0 <= pr) (map exp log_ps) /\
    Rsum (map exp log_ps) = 1.
Proof.
  intros Hshape Hlen.
  assert (Hx : rows_of 784 [img]) by (constructor; [exact Hlen|constructor]).
  assert (Hne : [img] <> []) by discriminate.
  destruct (Classifier_forward_total Hshape Hne Hx) as (y & Hf & Hl & Hrows).
  destruct y as [|log_ps [|? ?]]; try discriminate.
  destruct (Classifier_forward_log_softmax _ _ Hf) as (h & Hh).
  destruct h as [|z [|? ?]]; try discriminate. injection Hh as Hh.
  inversion Hrows as [|? ? Hrow _]; subst.
  assert (Hz : z <> []).
  { intros ->. discriminate. }
  destruct (softmax_distribution Hz) as (Hpos' & Hsum).
  assert (Hpos : Forall (fun pr => 0 <= pr) (map exp (log_softmax_row z))).
  { eapply Forall_impl; [|exact Hpos']. intros pr Hpr. lra. }
  exists (log_softmax_row z). eexists.
  split.
  { unfold forward_of. destruct (model_class w).
    - rewrite Hf. reflexivity.
    - rewrite DropoutClassifier_forward_eval, Hf. reflexivity. }
  unfold cell19, bind, model_eval, lift, view_classify. cbn [fst].
  unfold view2. rewrite Hlen. cbn [Nat.mul Nat.add Nat.eqb chunks].
  rewrite <- Hlen, firstn_all.
  unfold no_grad.
  rewrite model_call_deterministic by (right; reflexivity).
  world_simpl. rewrite Hf. world_simpl.
  split; [reflexivity|]. world_simpl.
  split_all; try reflexivity; try assumption.
  - unfold torch_exp. simpl. rewrite app_nil_r, <- app_assoc. reflexivity.
  - rewrite length_map. exact Hrow.
Qed.

End WorldFacts.

(** * Concrete runs *)

Lemma zero_parameters_shape : Classifier_shape zero_parameters.
Proof. exact (@init_parameters_shape constant_torch 0%nat). Qed.

Lemma batch0_wf : batch_wf batch0.
Proof.
  unfold batch_wf, batch0, blank_image. cbn [fst snd].
  split; [discriminate|]. split; [|split].
  - constructor; [apply repeat_length|constructor].
  - reflexivity.
  - constructor; [lia|constructor].
Qed.

Lemma loader0_wf : forall e, Forall batch_wf (loader0 e).
Proof. intros e. constructor; [exact batch0_wf|constructor]. Qed.

Lemma loader0_nonempty : forall e, loader0 e <> [].
Proof. intros e. discriminate. Qed.

Lemma epoch17_reports_last_loss_over_count_witness :
  Classifier_shape (model_parameters (world_of WithDropout)) /\
  Forall batch_wf [batch0] /\ Forall batch_wf [batch0; batch0] /\
  [batch0; batch0] <> [] /\ grad_enabled (world_of WithDropout) = true /\
  exists accuracy loss w2,
    epoch17 [batch0] [batch0; batch0] (world_of WithDropout) = Done tt w2 /\
    stdout w2 = [AccuracyLine accuracy; LossLine loss].
Proof.
  assert (H1 : Classifier_shape (model_parameters (world_of WithDropout)))
    by exact zero_parameters_shape.
  assert (H2 : Forall batch_wf [batch0])
    by (constructor; [exact batch0_wf|constructor]).
  assert (H3 : Forall batch_wf [batch0; batch0])
    by (constructor; [exact batch0_wf|exact H2]).
  assert (H4 : [batch0; batch0] <> []) by discriminate.
  assert (H5 : grad_enabled (world_of WithDropout) = true) by reflexivity.
  split_all; try assumption.
  destruct (@epoch17_reports_last_loss_over_count constant_torch
              [batch0] [batch0; batch0] (world_of WithDropout) H1 H2 H3 H4 H5)
    as (rl & w1 & accs & l & w2 & _ & _ & _ & Hepoch & Hout).
  do 2 eexists. exists w2. split; [exact Hepoch|exact Hout].
Defined.

(** C1, as stated, fails: with two validation batches the dropout cell does
    not print 100 times the loss of the last batch. *)
Lemma reported_loss_is_not_last_loss_times_100 :
  ~ (forall l v w2,
       validation_loss zero_parameters batch0 = Ok (Fin l) ->
       epoch17 [] [batch0; batch0] (world_of WithDropout) = Done tt w2 ->
       last (stdout w2) (LossLine (PyInt 0)) = LossLine v ->
       v = Tensor (Fin (l * 100))).
Proof.
  intros Hclaim.
  assert (H3 : Forall batch_wf [batch0; batch0])
    by (constructor; [exact batch0_wf|constructor; [exact batch0_wf|constructor]]).
  assert (H4 : [batch0; batch0] <> []) by discriminate.
  destruct (@epoch17_total constant_torch
              [] [batch0; batch0] (world_of WithDropout)
              zero_parameters_shape (Forall_nil _) H3 H4 eq_refl)
    as (tl & w1 & accs & losses & w2 & Hloop & _ & Hloss & _ & Hepoch & Hout & _).
  unfold training_pass in Hloop. simpl in Hloop. unfold ret in Hloop.
  injection Hloop as _ <-.
  pose proof (@Forall2_last _ _
                (fun b l => validation_loss
                              (model_parameters (world_of WithDropout)) b = Ok (Fin l))
                [batch0; batch0] losses ([], []) 0 Hloss H4) as Hl.
  set (l := last losses 0) in *.
  change (last [batch0; batch0] ([], [])) with batch0 in Hl.
  change (model_parameters (world_of WithDropout)) with zero_parameters in Hl.
  pose proof (validation_loss_positive zero_parameters_shape batch0_wf Hl) as Hpos.
  specialize (Hclaim l (Tensor (Fin (l / INR (length [batch0; batch0]) * 100)))
                     w2 Hl Hepoch).
  rewrite Hout in Hclaim. specialize (Hclaim eq_refl).
  injection Hclaim as Heq.
  change (INR (length [batch0; batch0])) with (INR 2) in Heq.
  simpl INR in Heq. lra.
Qed.

(** *** A run on scores without ties *)

Lemma dot_zero (x : list R) (n : nat) : dot x (repeat 0 n) = 0.
Proof.
  unfold dot, Rsum. revert n.
  induction x as [|a x IH]; intros [|n]; simpl; try reflexivity.
  rewrite IH. lra.
Qed.

Lemma Linear_row_zero_weight (i : nat) (x : list R) :
  forall (o : nat) (b : list R),
    length b = o ->
    Linear_row {| in_features := i; out_features := o;
                  weight := repeat (repeat 0 i) o; bias := b |} x = b.
Proof.
  unfold Linear_row. cbn [weight bias].
  induction o as [|o IH]; intros [|b0 b] Hlen; try discriminate; [reflexivity|].
  cbn [repeat combine map fst snd]. rewrite dot_zero.
  injection Hlen as Hlen. rewrite (IH b Hlen). f_equal. lra.
Qed.

Lemma Linear_forward_zero_weight (i o : nat) (b : list R) (x : matrix) :
  length b = o -> rows_of i x ->
  Linear_forward {| in_features := i; out_features := o;
                    weight := repeat (repeat 0 i) o; bias := b |} x
  = Ok (map (fun _ => b) x).
Proof.
  intros Hb Hx. unfold Linear_forward. cbn [in_features].
  replace (forallb (fun row => (length row =? i)%nat) x) with true.
  - f_equal. apply map_ext. intros row. apply Linear_row_zero_weight. exact Hb.
  - symmetry. apply forallb_forall. intros row Hrow. apply Nat.eqb_eq.
    unfold rows_of in Hx. rewrite Forall_forall in Hx. auto.
Qed.

Lemma F_relu_zero (o : nat) (x : matrix) :
  F_relu (map (fun _ => repeat 0 o) x) = map (fun _ => repeat 0 o) x.
Proof.
  unfold F_relu. rewrite map_map. apply map_ext. intros _.
  rewrite map_repeat. f_equal. apply Rmax_left. lra.
Qed.

Lemma rows_of_constant (o : nat) (x : matrix) :
  rows_of o (map (fun _ => repeat 0 o) x).
Proof.
  unfold rows_of. apply Forall_map. apply Forall_forall. intros row _.
  apply repeat_length.
Qed.

Lemma ramp_parameters_shape : Classifier_shape ramp_parameters.
Proof.
  destruct zero_parameters_shape as (H1 & H2 & H3 & _).
  split; [exact H1|]. split; [exact H2|]. split; [exact H3|].
  unfold Linear_shape, ramp_parameters, ramp_linear.
  cbn [fc4 in_features out_features weight bias].
  split_all; try reflexivity.
  apply Forall_forall. intros row Hrow.
  apply repeat_spec in Hrow. subst row. apply repeat_length.
Qed.

(** Under [ramp_parameters] every image gets the scores 0, 1, ..., 9. *)
Lemma Classifier_forward_ramp (x : matrix) :
  x <> [] -> rows_of 784 x ->
  Classifier_forward ramp_parameters x
  = Ok (map (fun _ => log_softmax_row [0; 1; 2; 3; 4; 5; 6; 7; 8; 9]) x).
Proof.
  intros Hne Hx. unfold Classifier_forward.
  destruct x as [|x0 x'] eqn:Ex; [congruence|]. rewrite <- Ex in *.
  replace (view_flatten x) with (Ok x) by (rewrite Ex; reflexivity).
  cbn [result_bind]. unfold ramp_parameters, zero_linear, ramp_linear.
  cbn [fc1 fc2 fc3 fc4].
  rewrite (@Linear_forward_zero_weight 784 256 (repeat 0 256) x (repeat_length 0 256) Hx).
  cbn [result_bind].
  rewrite F_relu_zero.
  rewrite (@Linear_forward_zero_weight 256 128 (repeat 0 128) _
             (repeat_length 0 128) (rows_of_constant 256 x)).
  cbn [result_bind]. rewrite map_map, F_relu_zero.
  rewrite (@Linear_forward_zero_weight 128 64 (repeat 0 64) _
             (repeat_length 0 64) (rows_of_constant 128 x)).
  cbn [result_bind]. rewrite map_map, F_relu_zero.
  rewrite (@Linear_forward_zero_weight 64 10 [0; 1; 2; 3; 4; 5; 6; 7; 8; 9] _
             eq_refl (rows_of_constant 64 x)).
  cbn [result_bind]. unfold F_log_softmax. rewrite !map_map. reflexivity.
Qed.

Section RampRun.

Context {T : Torch}.

(** Class 9 is the prediction for those scores, whatever the library does
    with equal entries. *)
Lemma topk_index_ramp :
  topk_index (map exp (log_softmax_row [0; 1; 2; 3; 4; 5; 6; 7; 8; 9])) = 9%nat.
Proof.
  unfold log_softmax_row.
  set (s := ln (Rsum (map exp [0; 1; 2; 3; 4; 5; 6; 7; 8; 9]))).
  cbn [map].
  apply topk_index_unique with (v := exp (9 - s)); [reflexivity|].
  intros j x Hj Hx.
  do 10 (destruct j as [|j];
         [cbn [nth_error] in Hx;
          first [congruence|injection Hx as <-; apply exp_increasing; lra]|]).
  destruct j; discriminate.
Qed.

(** Of the two images of [batch2] the first is labelled 9 and the second 3:
    the accuracy is one half. *)
Lemma validation_accuracy_ramp :
  validation_accuracy ramp_parameters batch2 = Ok (Fin (1 / 2)).
Proof.
  unfold validation_accuracy, batch2. cbn [fst snd].
  rewrite Classifier_forward_ramp;
    [|discriminate|repeat constructor; apply repeat_length].
  cbn [result_bind map]. unfold spec_batch_accuracy, topk1, torch_exp.
  cbn [map result_map].
  assert (Htop : topk1_row (map exp (log_softmax_row [0; 1; 2; 3; 4; 5; 6; 7; 8; 9]))
                 = Ok (nth 9 (map exp (log_softmax_row [0; 1; 2; 3; 4; 5; 6; 7; 8; 9])) 0,
                       9%nat)).
  { pose proof topk_index_ramp as Hi. unfold log_softmax_row in *.
    cbn [map] in *. cbn [topk1_row]. rewrite Hi. reflexivity. }
  rewrite Htop. cbn [result_bind map fst snd concat app]. unfold view1.
  cbn [concat app length Nat.eqb result_bind combine filter fst snd sdiv_nat].
  replace (INR 1 / INR 2) with (1 / 2) by (simpl; lra). reflexivity.
Qed.

End RampRun.

Lemma batch2_wf : batch_wf batch2.
Proof.
  unfold batch_wf, batch2, blank_image. cbn [fst snd].
  split; [discriminate|]. split; [|split].
  - repeat constructor; apply repeat_length.
  - reflexivity.
  - repeat constructor; lia.
Qed.

Lemma epoch_accuracy_is_mean_of_batch_accuracies_witness :
  Classifier_shape (model_parameters (ramp_world Plain)) /\
  Forall batch_wf [batch2; batch2] /\ [batch2; batch2] <> [] /\
  grad_enabled (ramp_world Plain) = true /\ model_class (ramp_world Plain) = Plain /\
  validation_accuracy (T := constant_torch) ramp_parameters batch2 = Ok (Fin (1 / 2)) /\
  exists w13 loss_line w17,
    epoch13 [] [batch2; batch2] (ramp_world Plain) = Done tt w13 /\
    stdout w13 = [AccuracyLine (Tensor (Fin ((1 / 2 + 1 / 2) / 2 * 100)))] /\
    epoch17 [] [batch2; batch2] (ramp_world Plain) = Done tt w17 /\
    stdout w17 = [AccuracyLine (Tensor (Fin ((1 / 2 + 1 / 2) / 2 * 100))); loss_line].
Proof.
  assert (H1 : Classifier_shape (model_parameters (ramp_world Plain)))
    by exact ramp_parameters_shape.
  assert (H2 : Forall batch_wf [batch2; batch2])
    by (constructor; [exact batch2_wf|constructor; [exact batch2_wf|constructor]]).
  assert (H3 : [batch2; batch2] <> []) by discriminate.
  assert (H4 : grad_enabled (ramp_world Plain) = true) by reflexivity.
  assert (H5 : model_class (ramp_world Plain) = Plain) by reflexivity.
  assert (Hhalf : validation_accuracy (T := constant_torch) ramp_parameters batch2
                  = Ok (Fin (1 / 2)))
    by exact (@validation_accuracy_ramp constant_torch).
  assert (Hsame : forall accs : list R,
             Forall2 (fun b a => validation_accuracy (T := constant_torch)
                                   ramp_parameters b = Ok (Fin a))
                     [batch2; batch2] accs ->
             Rsum accs / INR (@length batch [batch2; batch2]) * 100
             = (1 / 2 + 1 / 2) / 2 * 100).
  { intros accs Hacc.
    inversion Hacc as [|b a bs accs' Ha Hrest]; subst.
    inversion Hrest as [|b' a' bs' accs'' Ha' Hrest']; subst.
    inversion Hrest'; subst.
    rewrite Hhalf in Ha, Ha'. injection Ha as <-. injection Ha' as <-.
    unfold Rsum. simpl. lra. }
  split_all; try assumption.
  destruct (@epoch_accuracy_is_mean_of_batch_accuracies constant_torch
              [] [batch2; batch2] (ramp_world Plain) H1 (Forall_nil _) H2 H3 H4)
    as (H17 & H13 & _).
  destruct (H13 H5) as (rl & w1 & accs & w13 & Hloop & Hacc & Hepoch & Hout).
  destruct H17 as (rl' & w1' & accs' & loss_line & w17 & Hloop' & Hacc' & Hepoch' & Hout').
  unfold training_pass in Hloop, Hloop'. simpl in Hloop, Hloop'.
  unfold ret in Hloop, Hloop'.
  injection Hloop as _ <-. injection Hloop' as _ <-.
  change (model_parameters (ramp_world Plain)) with ramp_parameters in Hacc, Hacc'.
  exists w13, loss_line, w17. split_all.
  - exact Hepoch.
  - rewrite Hout, (Hsame _ Hacc). reflexivity.
  - exact Hepoch'.
  - rewrite Hout', (Hsame _ Hacc'). reflexivity.
Defined.

Lemma epoch_accuracy_in_unit_interval_witness :
  Classifier_shape (model_parameters (world_of WithDropout)) /\
  Forall batch_wf [batch0] /\ [batch0] <> [] /\
  grad_enabled (world_of WithDropout) = true /\
  exists a loss_line w2,
    epoch17 [batch0] [batch0] (world_of WithDropout) = Done tt w2 /\
    stdout w2 = [AccuracyLine (Tensor (Fin (a * 100))); loss_line] /\
    0 <= a <= 1.
Proof.
  assert (H1 : Classifier_shape (model_parameters (world_of WithDropout)))
    by exact zero_parameters_shape.
  assert (H2 : Forall batch_wf [batch0])
    by (constructor; [exact batch0_wf|constructor]).
  assert (H3 : [batch0] <> []) by discriminate.
  assert (H4 : grad_enabled (world_of WithDropout) = true) by reflexivity.
  split_all; try assumption.
  destruct (@epoch_accuracy_in_unit_interval constant_torch
              [batch0] [batch0] (world_of WithDropout) H1 H2 H2 H3 H4)
    as ((a & loss_line & w2 & Hepoch & Hout & Hbd) & _).
  exists a, loss_line, w2. split_all; try assumption; apply Hbd.
Defined.

Lemma mode_flag_in_both_cells_witness :
  (forall e, Forall batch_wf (loader0 e)) /\ (forall e, loader0 e <> []) /\
  grad_enabled (world_of Plain) = true /\
  exists w17 w13,
    cell17 loader0 loader0 (world_of Plain) = Done tt w17 /\
    cell13 loader0 loader0 (world_of Plain) = Done tt w13.
Proof.
  split; [exact loader0_wf|]. split; [exact loader0_nonempty|].
  split; [reflexivity|].
  destruct (@mode_flag_in_both_cells constant_torch loader0 loader0 (world_of Plain)
              loader0_wf loader0_wf loader0_nonempty eq_refl)
    as ((w1 & ws & _ & H17 & _) & (w1' & ws' & _ & H13 & _)).
  exists (last ws w1), (last ws' w1'). split; assumption.
Defined.

(** C3, as stated, fails for the first cell: its validation pass runs with
    the mode flag at training. *)
Lemma first_cell_validates_in_training_mode :
  ~ Forall validation_in_evaluation_mode
           (trace (final_world (epoch13 [] [batch0] (world_of Plain)))).
Proof.
  assert (H2 : Forall batch_wf [batch0])
    by (constructor; [exact batch0_wf|constructor]).
  assert (H3 : [batch0] <> []) by discriminate.
  destruct (@epoch13_total constant_torch [] [batch0] (world_of Plain)
              eq_refl zero_parameters_shape (Forall_nil _) H2 H3 eq_refl)
    as (tl & w1 & accs & w2 & _ & _ & _ & Hepoch & _ & Htrace & Hlen & _).
  destruct tl; [|discriminate].
  rewrite Hepoch. simpl final_world. rewrite Htrace. simpl.
  intros H. inversion H as [|? ? Hev _]; subst. simpl in Hev. discriminate.
Qed.

Lemma gradient_tracking_off_during_validation_witness :
  (forall e, Forall batch_wf (loader0 e)) /\ (forall e, loader0 e <> []) /\
  grad_enabled (world_of WithDropout) = true /\
  exists w17 evs,
    cell17 loader0 loader0 (world_of WithDropout) = Done tt w17 /\
    trace w17 = evs /\ Forall grad_ok evs.
Proof.
  split; [exact loader0_wf|]. split; [exact loader0_nonempty|].
  split; [reflexivity|].
  destruct (@gradient_tracking_off_during_validation constant_torch
              loader0 loader0 (world_of WithDropout)
              loader0_wf loader0_wf loader0_nonempty eq_refl)
    as ((w1 & ws & _ & H17 & _ & _ & _ & evs & Hevs & Hok) & _).
  exists (last ws w1), evs. split_all; assumption.
Defined.


Lemma validation_twice_same_accuracy_witness :
  Classifier_shape (model_parameters (world_of WithDropout)) /\
  Forall batch_wf [batch0; batch0] /\ [batch0; batch0] <> [] /\
  grad_enabled (world_of WithDropout) = true /\
  exists accs w1 w2,
    validation_pass17 [batch0; batch0] (world_of WithDropout) = Done accs w1 /\
    validation_pass17 [batch0; batch0] w1 = Done accs w2.
Proof.
  assert (H1 : Classifier_shape (model_parameters (world_of WithDropout)))
    by exact zero_parameters_shape.
  assert (H3 : Forall batch_wf [batch0; batch0])
    by (constructor; [exact batch0_wf|constructor; [exact batch0_wf|constructor]]).
  assert (H4 : [batch0; batch0] <> []) by discriminate.
  split_all; try assumption; try reflexivity.
  destruct (@validation_twice_same_accuracy constant_torch [batch0; batch0]
              (world_of WithDropout) H1 H3 H4 eq_refl)
    as ((accs & w1 & w2 & a & Hv1 & Hv2 & _) & _).
  exists accs, w1, w2. split; assumption.
Defined.

Lemma empty_validation_source_raises_witness :
  Classifier_shape (model_parameters (world_of WithDropout)) /\
  Forall batch_wf [batch0] /\ grad_enabled (world_of WithDropout) = true /\
  exists w',
    epoch17 [batch0] [] (world_of WithDropout) = Raised ZeroDivisionError w' /\
    stdout w' = [].
Proof.
  assert (H1 : Classifier_shape (model_parameters (world_of WithDropout)))
    by exact zero_parameters_shape.
  assert (H2 : Forall batch_wf [batch0])
    by (constructor; [exact batch0_wf|constructor]).
  split_all; try assumption; try reflexivity.
  destruct (@empty_validation_source_raises constant_torch [batch0]
              (world_of WithDropout) H1 H2 eq_refl)
    as (_ & (w' & Hepoch & Hout) & _).
  exists w'. split; assumption.
Defined.

Lemma inference_hands_over_distribution_witness :
  Classifier_shape (model_parameters (world_of WithDropout)) /\
  length blank_image = 784%nat /\
  exists log_ps w',
    cell19 [batch0] (world_of WithDropout) = Done tt w' /\
    trace w' = [Forward Inference false false;
                ViewClassify blank_image [map exp log_ps]] /\
    Rsum (map exp log_ps) = 1.
Proof.
  assert (H1 : Classifier_shape (model_parameters (world_of WithDropout)))
    by exact zero_parameters_shape.
  assert (H2 : length blank_image = 784%nat) by apply repeat_length.
  split_all; try assumption.
  destruct (@inference_hands_over_distribution constant_torch blank_image [] [3%nat] []
              (world_of WithDropout) H1 H2)
    as (log_ps & w' & _ & Hcell & Htrace & _ & _ & _ & _ & Hsum).
  exists log_ps, w'. split_all; assumption.
Defined.

(** * Further properties of the cells *)

(** ** Top-1 selection *)

Section TopKExtras.

Context {T : Torch}.

(** X1.  On a row in which one probability is greater than every other one,
    [topk(1)] returns that probability and its index, whatever the library
    does with equal entries; on a row without entries it raises a
    RuntimeError. *)
Theorem topk1_row_of_unique_max (row : list R) (c : nat) (v : R) :
  nth_error row c = Some v ->
  (forall j x, j <> c -> nth_error row j = Some x -> x < v) ->
  topk1_row row = Ok (v, c) /\ topk1_row [] = Err RuntimeError.
Proof.
  intros Hc Hothers. split; [|reflexivity].
  pose proof (topk_index_unique _ Hc Hothers) as Hi.
  destruct row as [|x r] eqn:Hrow; [destruct c; discriminate|].
  cbn [topk1_row]. rewrite Hi.
  rewrite (nth_error_nth _ _ 0 Hc). reflexivity.
Qed.

(** ** Outcomes of the accuracy and of the loss of one batch *)

Lemma topk_rows_outcome (ps : matrix) :
  (Forall (fun row => row <> []) ps /\
   exists ts, result_map topk1_row ps = Ok ts /\ length ts = length ps) \/
  (Exists (fun row => row = []) ps /\ result_map topk1_row ps = Err RuntimeError).
Proof.
  induction ps as [|row ps IH].
  - left. split; [constructor|]. exists []. split; reflexivity.
  - destruct row as [|x r].
    + right. split; [left; reflexivity|reflexivity].
    + destruct IH as [(Hall & ts & Hts & Hlen)|(Hex & Herr)].
      * left. split; [constructor; [discriminate|exact Hall]|].
        destruct (@topk1_row_total _ (x :: r)) as (v & c & Htop); [discriminate|].
        exists ((v, c) :: ts). cbn [result_map]. rewrite Htop, Hts.
        split; [reflexivity|simpl; congruence].
      * right. split; [right; exact Hex|].
        destruct (@topk1_row_total _ (x :: r)) as (v & c & Htop); [discriminate|].
        cbn [result_map]. rewrite Htop, Herr. reflexivity.
Qed.

Lemma concat_singletons_length {A B} (f : A -> B) (ts : list A) :
  length (concat (map (fun t => [f t]) ts)) = length ts.
Proof.
  induction ts as [|t ts IH]; simpl; [reflexivity|]. rewrite IH. reflexivity.
Qed.

(** X3.  The accuracy of one batch (lines 284-287, 502-505) has four
    outcomes, decided by the shapes alone.  A row of probabilities without
    entries makes [topk] raise a RuntimeError; a number of labels other than
    the number of rows makes [labels.view] raise a RuntimeError; a batch
    without examples gives nan, silently; and every other batch gives
    [k / B], with [B] the number of examples and [k <= B] a count. *)
Theorem batch_accuracy_outcomes (ps : matrix) (labels : list nat) :
  (Exists (fun row => row = []) ps /\
   batch_accuracy ps labels = Err RuntimeError) \/
  (Forall (fun row => row <> []) ps /\ length labels <> length ps /\
   batch_accuracy ps labels = Err RuntimeError) \/
  (ps = [] /\ labels = [] /\ batch_accuracy ps labels = Ok NonFinite) \/
  (ps <> [] /\ Forall (fun row => row <> []) ps /\ length labels = length ps /\
   exists k, (k <= length ps)%nat /\
             batch_accuracy ps labels = Ok (Fin (INR k / INR (length ps)))).
Proof.
  rewrite batch_accuracy_refines. unfold spec_batch_accuracy, topk1.
  destruct (topk_rows_outcome ps) as [(Hall & ts & Hts & Hlen)|(Hex & Herr)].
  - right. rewrite Hts. cbn [result_bind snd]. unfold view1.
    rewrite concat_singletons_length.
    destruct (Nat.eqb_spec (length ts) (length labels)) as [Heq|Hneq].
    + right. cbn [result_bind].
      set (k := length (filter (fun pl : nat * nat => Nat.eqb (fst pl) (snd pl))
                          (combine (concat (map (fun t : R * nat => [snd t]) ts)) labels))).
      assert (Hk : (k <= length labels)%nat).
      { unfold k. etransitivity; [apply filter_length_le|].
        rewrite length_combine. lia. }
      destruct ps as [|row ps'].
      * left. destruct labels; [|simpl in *; lia]. destruct ts; [|discriminate].
        split_all; reflexivity.
      * right. split; [discriminate|]. split; [exact Hall|].
        split; [congruence|]. exists k. split; [lia|].
        rewrite <- Hlen, Heq.
        destruct (length labels) eqn:Hn; [simpl in *; lia|]. reflexivity.
    + left. split; [exact Hall|]. split; [congruence|]. reflexivity.
  - left. split; [exact Hex|]. rewrite Herr. reflexivity.
Qed.

End TopKExtras.

Lemma picked_outcome (log_ps : matrix) (labels : list nat) :
  (Forall (fun rl : list R * nat => (snd rl < length (fst rl))%nat)
          (combine log_ps labels) /\
   result_map
     (fun rl : list R * nat =>
        match nth_error (fst rl) (snd rl) with
        | Some v => Ok (- v)
        | None => Err IndexError
        end) (combine log_ps labels)
   = Ok (map (fun rl : list R * nat => - nth (snd rl) (fst rl) 0) (combine log_ps labels))) \/
  (Exists (fun rl : list R * nat => (length (fst rl) <= snd rl)%nat)
          (combine log_ps labels) /\
   result_map
     (fun rl : list R * nat =>
        match nth_error (fst rl) (snd rl) with
        | Some v => Ok (- v)
        | None => Err IndexError
        end) (combine log_ps labels)
   = Err IndexError).
Proof.
  induction (combine log_ps labels) as [|[row l] rest IH].
  - left. split; [constructor|reflexivity].
  - cbn [result_map fst snd].
    destruct (nth_error row l) as [v|] eqn:Hv.
    + assert (Hl : (l < length row)%nat) by (apply nth_error_Some; congruence).
      destruct IH as [(Hall & ->)|(Hex & ->)].
      * left. split; [constructor; [exact Hl|exact Hall]|]. cbn [result_bind map fst snd].
        rewrite (nth_error_nth _ _ 0 Hv). reflexivity.
      * right. split; [right; exact Hex|reflexivity].
    + right. split; [|reflexivity]. left. apply nth_error_None. exact Hv.
Qed.

(** X4.  The criterion [nn.NLLLoss()] on one batch has four outcomes.  A
    number of labels other than the number of rows raises a ValueError; with
    matching numbers, a label that is no index of its row raises an
    IndexError; a batch without examples gives nan, silently; every other
    batch gives the mean over the batch of minus the log-probability of the
    true class. *)
Theorem NLLLoss_outcomes (log_ps : matrix) (labels : list nat) :
  (length log_ps <> length labels /\ NLLLoss log_ps labels = Err ValueError) \/
  (length log_ps = length labels /\
   Exists (fun rl : list R * nat => (length (fst rl) <= snd rl)%nat)
          (combine log_ps labels) /\
   NLLLoss log_ps labels = Err IndexError) \/
  (log_ps = [] /\ labels = [] /\ NLLLoss log_ps labels = Ok NonFinite) \/
  (log_ps <> [] /\ length log_ps = length labels /\
   Forall (fun rl : list R * nat => (snd rl < length (fst rl))%nat)
          (combine log_ps labels) /\
   NLLLoss log_ps labels
   = Ok (Fin (Rsum (map (fun rl : list R * nat => - nth (snd rl) (fst rl) 0)
                        (combine log_ps labels))
              / INR (length log_ps)))).
Proof.
  unfold NLLLoss.
  destruct (Nat.eqb_spec (length log_ps) (length labels)) as [Heq|Hneq].
  - right. destruct (picked_outcome log_ps labels) as [(Hall & ->)|(Hex & ->)].
    + right. cbn [result_bind]. unfold torch_mean.
      assert (Hl : length (map (fun rl : list R * nat => - nth (snd rl) (fst rl) 0)
                               (combine log_ps labels)) = length log_ps)
        by (rewrite length_map, length_combine; lia).
      rewrite Hl.
      destruct log_ps as [|row rest].
      * left. destruct labels; [|discriminate]. split_all; reflexivity.
      * right. split; [discriminate|]. split; [exact Heq|]. split; [exact Hall|].
        reflexivity.
    + left. split_all; [exact Heq|exact Hex|reflexivity].
  - left. split; [exact Hneq|reflexivity].
Qed.

(** ** Views *)

Lemma chunks_shape {A} (rows cols : nat) :
  forall data : list A,
    length data = (rows * cols)%nat ->
    length (chunks rows cols data) = rows /\
    Forall (fun r => length r = cols) (chunks rows cols data) /\
    concat (chunks rows cols data) = data.
Proof.
  induction rows as [|rows IH]; intros data Hlen; simpl in *.
  - destruct data; [|discriminate]. split_all; [reflexivity|constructor|reflexivity].
  - destruct (IH (skipn cols data)) as (H1 & H2 & H3).
    { rewrite length_skipn. lia. }
    split_all.
    + rewrite H1. reflexivity.
    + constructor; [rewrite length_firstn; lia|exact H2].
    + rewrite H3. apply firstn_skipn.
Qed.

(** X5.  A view keeps the storage: [t.view(rows, cols)] of a tensor of
    [rows * cols] elements has [rows] rows of [cols] elements each, and viewing
    the result flat again gives the elements back in their order (so
    [labels.view(B, 1)] and [img.view(1, 784)] lose and reorder nothing); on
    any other number of elements the view raises a RuntimeError. *)
Theorem view_round_trip {A} (data : list A) (rows cols : nat) :
  (length data = (rows * cols)%nat /\
   exists t, view2 data rows cols = Ok t /\ length t = rows /\
             Forall (fun r => length r = cols) t /\
             view1 t (rows * cols) = Ok data) \/
  (length data <> (rows * cols)%nat /\ view2 data rows cols = Err RuntimeError).
Proof.
  unfold view2.
  destruct (Nat.eqb_spec (length data) (rows * cols)) as [Heq|Hneq].
  - left. split; [exact Heq|].
    destruct (chunks_shape rows cols data Heq) as (H1 & H2 & H3).
    exists (chunks rows cols data). split_all; try assumption; try reflexivity.
    unfold view1. rewrite H3, Heq, Nat.eqb_refl. reflexivity.
  - right. split; [exact Hneq|reflexivity].
Qed.

(** ** The forward pass of both classes *)

Section ForwardExtras.

Context {T : Torch}.

Lemma DropoutClassifier_forward_log_softmax
  (p : Parameters) (tr : bool) (g g' : Generator) (x y : matrix) :
  DropoutClassifier_forward p tr g x = (Ok y, g') -> exists h, y = F_log_softmax h.
Proof.
  unfold DropoutClassifier_forward.
  destruct (view_flatten x) as [x'|e]; [|discriminate].
  destruct (Linear_forward (fc1 p) x') as [h1|e]; [|discriminate].
  destruct (Dropout_forward tr g (F_relu h1)) as [d1 g1].
  destruct (Linear_forward (fc2 p) d1) as [h2|e]; [|discriminate].
  destruct (Dropout_forward tr g1 (F_relu h2)) as [d2 g2].
  destruct (Linear_forward (fc3 p) d2) as [h3|e]; [|discriminate].
  destruct (Dropout_forward tr g2 (F_relu h3)) as [d3 g3].
  destruct (Linear_forward (fc4 p) d3) as [h4|e]; [|discriminate].
  intros H. injection H as <- _. eauto.
Qed.

(** X6.  Whatever the weights, the mode flag and the dropout masks, the
    forward pass of either class on a non-empty batch of 784-pixel images
    returns one row per image, and every row is a row of log-probabilities
    over the ten classes: ten entries, none of them positive, whose
    exponentials sum to 1 (the sum taken over the reals, without rounding). *)
Theorem forward_returns_log_probabilities
  (c : arch) (p : Parameters) (tr : bool) (g : Generator) (x : matrix) :
  Classifier_shape p -> x <> [] -> rows_of 784 x ->
  exists y g',
    forward_of c p tr g x = (Ok y, g') /\
    length y = length x /\ Forall log_probabilities y.
Proof.
  intros Hp Hne Hx.
  destruct (forward_of_total c tr g Hp Hne Hx) as (y & g' & Hf & Hlen & Hrows).
  exists y, g'. split; [exact Hf|]. split; [exact Hlen|].
  assert (Hh : exists h, y = F_log_softmax h).
  { destruct c; simpl in Hf.
    - injection Hf as Hf _. apply (Classifier_forward_log_softmax _ _ Hf).
    - apply (DropoutClassifier_forward_log_softmax _ _ _ _ Hf). }
  destruct Hh as (h & ->).
  unfold rows_of, F_log_softmax in *. rewrite Forall_map in Hrows |- *.
  eapply Forall_impl; [|exact Hrows].
  intros z Hz. cbn beta in Hz.
  assert (Hlz : length z = 10%nat).
  { unfold log_softmax_row in Hz. rewrite length_map in Hz. exact Hz. }
  assert (Hnz : z <> []) by (intros ->; discriminate).
  destruct (softmax_distribution Hnz) as (_ & Hsum).
  unfold log_probabilities. split_all; [exact Hz| |exact Hsum].
  eapply Forall_impl; [|apply log_softmax_row_negative; lia].
  intros v Hv. cbn beta in Hv. lra.
Qed.

Lemma Linear_forward_error (i o : nat) (l : Linear) (x : matrix) :
  Linear_shape i o l -> ~ rows_of i x -> Linear_forward l x = Err RuntimeError.
Proof.
  intros (Hi & _) Hx. unfold Linear_forward.
  destruct (forallb (fun row => (length row =? in_features l)%nat) x) eqn:Hb;
    [|reflexivity].
  exfalso. apply Hx. unfold rows_of. apply Forall_forall. intros row Hrow.
  rewrite forallb_forall in Hb. specialize (Hb _ Hrow).
  apply Nat.eqb_eq in Hb. congruence.
Qed.

(** X7.  On a batch without examples, or with an image that does not have
    784 pixels, the forward pass of either class raises a RuntimeError, before
    any dropout mask is drawn: the generator is left as it was. *)
Theorem forward_rejects_bad_batches
  (c : arch) (p : Parameters) (tr : bool) (g : Generator) (x : matrix) :
  Classifier_shape p -> x = [] \/ ~ rows_of 784 x ->
  forward_of c p tr g x = (Err RuntimeError, g).
Proof.
  intros (H1 & _) Hbad.
  assert (Hplain : Classifier_forward p x = Err RuntimeError).
  { unfold Classifier_forward. destruct Hbad as [->|Hx]; [reflexivity|].
    destruct x as [|x0 x']; [reflexivity|]. cbn [view_flatten result_bind].
    rewrite (Linear_forward_error H1 Hx). reflexivity. }
  destruct c; simpl.
  - rewrite Hplain. reflexivity.
  - unfold DropoutClassifier_forward. destruct Hbad as [->|Hx]; [reflexivity|].
    destruct x as [|x0 x']; [reflexivity|]. cbn [view_flatten].
    rewrite (Linear_forward_error H1 Hx). reflexivity.
Qed.

Lemma dropout_row_entries (row : list R) :
  forall g, Forall2 dropped_or_rescaled row (fst (dropout_row g row)).
Proof.
  induction row as [|x r IH]; intros g; simpl; [constructor|].
  destruct (bernoulli (1 - p_drop) g) as [keep g1].
  specialize (IH g1). destruct (dropout_row g1 r) as [r' g2]. simpl in *.
  constructor; [|exact IH].
  unfold dropped_or_rescaled, p_drop. destruct keep; [right; lra|left; reflexivity].
Qed.

(** X8.  The dropout module with [p = 0.2]: in training mode every
    activation is either set to zero or multiplied by 1.25, the shape is kept;
    in evaluation mode the activations pass unchanged and nothing is drawn
    from the generator. *)
Theorem dropout_zeroes_or_rescales (g : Generator) (t : matrix) :
  Forall2 (Forall2 dropped_or_rescaled) t (fst (Dropout_forward true g t)) /\
  Dropout_forward false g t = (t, g).
Proof.
  split; [|reflexivity]. simpl. revert g.
  induction t as [|row r IH]; intros g; simpl; [constructor|].
  pose proof (dropout_row_entries row g) as Hrow.
  destruct (dropout_row g row) as [row' g1].
  specialize (IH g1). destruct (dropout_rows g1 r) as [r' g2]. simpl in *.
  constructor; assumption.
Qed.

End ForwardExtras.

(** ** Exceptions in a training step *)

Section WorldExtras.

Context {T : Torch}.
Open Scope py_scope.

Lemma Linear_forward_err (l : Linear) (x : matrix) (e : exn) :
  Linear_forward l x = Err e -> e = RuntimeError.
Proof.
  unfold Linear_forward. destruct (forallb _ x); [discriminate|].
  intros H. injection H as <-. reflexivity.
Qed.

Lemma Classifier_forward_err (p : Parameters) (x : matrix) (e : exn) :
  Classifier_forward p x = Err e -> e = RuntimeError.
Proof.
  unfold Classifier_forward.
  destruct x as [|x0 x']; [intros H; injection H as <-; reflexivity|].
  cbn [view_flatten result_bind].
  destruct (Linear_forward (fc1 p) (x0 :: x')) as [h1|e1] eqn:E1; cbn [result_bind];
    [|intros H; injection H as <-; exact (Linear_forward_err _ _ E1)].
  destruct (Linear_forward (fc2 p) (F_relu h1)) as [h2|e2] eqn:E2; cbn [result_bind];
    [|intros H; injection H as <-; exact (Linear_forward_err _ _ E2)].
  destruct (Linear_forward (fc3 p) (F_relu h2)) as [h3|e3] eqn:E3; cbn [result_bind];
    [|intros H; injection H as <-; exact (Linear_forward_err _ _ E3)].
  destruct (Linear_forward (fc4 p) (F_relu h3)) as [h4|e4] eqn:E4; cbn [result_bind];
    [discriminate|intros H; injection H as <-; exact (Linear_forward_err _ _ E4)].
Qed.

Lemma DropoutClassifier_forward_err
  (p : Parameters) (tr : bool) (g g' : Generator) (x : matrix) (e : exn) :
  DropoutClassifier_forward p tr g x = (Err e, g') -> e = RuntimeError.
Proof.
  unfold DropoutClassifier_forward.
  destruct x as [|x0 x']; [intros H; injection H as <- _; reflexivity|].
  cbn [view_flatten].
  destruct (Linear_forward (fc1 p) (x0 :: x')) as [h1|e1] eqn:E1;
    [|intros H; injection H as <- _; exact (Linear_forward_err _ _ E1)].
  destruct (Dropout_forward tr g (F_relu h1)) as [d1 g1].
  destruct (Linear_forward (fc2 p) d1) as [h2|e2] eqn:E2;
    [|intros H; injection H as <- _; exact (Linear_forward_err _ _ E2)].
  destruct (Dropout_forward tr g1 (F_relu h2)) as [d2 g2].
  destruct (Linear_forward (fc3 p) d2) as [h3|e3] eqn:E3;
    [|intros H; injection H as <- _; exact (Linear_forward_err _ _ E3)].
  destruct (Dropout_forward tr g2 (F_relu h3)) as [d3 g3].
  destruct (Linear_forward (fc4 p) d3) as [h4|e4] eqn:E4;
    [discriminate|intros H; injection H as <- _; exact (Linear_forward_err _ _ E4)].
Qed.

Lemma NLLLoss_err (log_ps : matrix) (labels : list nat) (e : exn) :
  NLLLoss log_ps labels = Err e -> e = ValueError \/ e = IndexError.
Proof.
  unfold NLLLoss. destruct (length log_ps =? length labels)%nat.
  - destruct (picked_outcome log_ps labels) as [(_ & ->)|(_ & ->)]; cbn [result_bind].
    + discriminate.
    + intros H. injection H as <-. right. reflexivity.
  - intros H. injection H as <-. left. reflexivity.
Qed.

Lemma batch_accuracy_err (ps : matrix) (labels : list nat) (e : exn) :
  batch_accuracy ps labels = Err e -> e = RuntimeError.
Proof.
  unfold batch_accuracy, topk1.
  destruct (topk_rows_outcome ps) as [(_ & ts & -> & _)|(_ & ->)]; cbn [result_bind].
  - unfold view2. destruct (length labels =? _)%nat; cbn [result_bind]; [discriminate|].
    intros H. injection H as <-. reflexivity.
  - intros H. injection H as <-. reflexivity.
Qed.

Lemma untouched_refl (w : world) : untouched w w.
Proof. unfold untouched. split_all; reflexivity. Qed.

Lemma untouched_trans (w1 w2 w3 : world) :
  untouched w1 w2 -> untouched w2 w3 -> untouched w1 w3.
Proof.
  intros (A1 & A2 & A3 & A4 & A5 & A6) (B1 & B2 & B3 & B4 & B5 & B6).
  unfold untouched. split_all; congruence.
Qed.

(** A forward call, whatever its outcome: only the generator and the trace
    can change, an exception is a RuntimeError, and the result carries a graph
    exactly when gradient tracking is on. *)
Lemma model_call_outcome (s : site) (x : matrix) (w : world) :
  untouched w (final_world (model_call s x w)) /\
  grads (final_world (model_call s x w)) = grads w /\
  (forall e w', model_call s x w = Raised e w' -> e = RuntimeError) /\
  (forall t w', model_call s x w = Done t w' ->
     grad_fn t = if grad_enabled w then Some (graph_of w x) else None).
Proof.
  unfold model_call, graph_of. destruct (model_class w) eqn:Hc.
  - destruct (Classifier_forward (model_parameters w) x) as [v|e] eqn:Hf;
      world_simpl; unfold untouched; world_simpl.
    + split_all; try reflexivity; try assumption; try discriminate.
      intros t w' H. injection H as <- _. reflexivity.
    + split_all; try reflexivity; try assumption; try discriminate.
      intros e' w' H. injection H as <- _. apply (Classifier_forward_err _ _ Hf).
  - destruct (DropoutClassifier_forward (model_parameters w) (model_training w)
                (generator w) x) as [[v|e] g] eqn:Hf;
      world_simpl; unfold untouched; world_simpl.
    + split_all; try reflexivity; try assumption; try discriminate.
      intros t w' H. injection H as <- _. reflexivity.
    + split_all; try reflexivity; try assumption; try discriminate.
      intros e' w' H. injection H as <- _.
      apply (DropoutClassifier_forward_err _ _ _ _ Hf).
Qed.

(** X9.  An exception in a training step never leaves the model half
    updated: if the step raises, the parameters, the optimizer, the two flags
    and the output are as before the step and the gradients are the cleared
    ones; the exception is a RuntimeError (forward pass or backward pass), a
    ValueError or an IndexError (criterion). *)
Theorem training_step_exception_safe
  (b : batch) (running_loss : pynum) (w : world) (e : exn) (w' : world) :
  training_step b running_loss w = Raised e w' ->
  untouched w w' /\ grads w' = no_gradients /\
  (e = RuntimeError \/ e = ValueError \/ e = IndexError).
Proof.
  unfold training_step, bind, zero_grad.
  set (w0 := set_grads no_gradients (log ZeroGrad w)).
  assert (H0 : untouched w w0 /\ grads w0 = no_gradients).
  { unfold untouched, w0. world_simpl. split_all; reflexivity. }
  destruct H0 as (U0 & G0).
  destruct (model_call_outcome TrainingPass (fst b) w0) as (U1 & G1 & E1 & _).
  destruct (model_call TrainingPass (fst b) w0) as [t w1|e1 w1] eqn:Hm;
    cbn [final_world] in U1, G1.
  - unfold criterion.
    destruct (NLLLoss (values t) (snd b)) as [l|e2] eqn:Hl.
    + unfold backward. world_simpl.
      destruct (grad_fn t) as [gr|]; world_simpl.
      * unfold optimizer_step. world_simpl.
        destruct (Adam_step _ _ _) as [a p]. unfold accumulate_loss. discriminate.
      * intros H. injection H as <- <-. split_all.
        -- eapply untouched_trans; [exact U0|].
           destruct U1 as (A1 & A2 & A3 & A4 & A5 & A6).
           unfold untouched. world_simpl. split_all; assumption.
        -- world_simpl. congruence.
        -- left. reflexivity.
    + intros H. injection H as <- <-. split_all.
      * exact (@untouched_trans w w0 w1 U0 U1).
      * congruence.
      * right. apply (NLLLoss_err _ _ Hl).
  - intros H. injection H as <- <-. split_all.
    + exact (@untouched_trans w w0 w1 U0 U1).
    + congruence.
    + left. apply (E1 _ _ eq_refl).
Qed.

(** X10.  A training step taken while gradient tracking is off (as inside
    a [torch.no_grad()] scope) gets as far as [loss.backward()] and raises a
    RuntimeError there: the forward pass recorded no graph.  The optimizer
    never steps and the parameters are unchanged. *)
Theorem training_without_gradient_tracking_raises
  (b : batch) (running_loss : pynum) (w : world) :
  Classifier_shape (model_parameters w) -> batch_wf b -> grad_enabled w = false ->
  exists l w',
    training_step b running_loss w = Raised RuntimeError w' /\
    trace w' = trace w ++
      [ZeroGrad; Forward TrainingPass (model_training w) false;
       Criterion TrainingPass (Fin l); Backward] /\
    model_parameters w' = model_parameters w /\
    optimizer w' = optimizer w.
Proof.
  intros Hshape (Hne & Hx & Hlen & Hlab) Hg.
  destruct (forward_of_total (model_class w) (model_training w) (generator w)
              Hshape Hne Hx) as (log_ps & g' & Hf & Hl & Hrows).
  assert (Hne' : log_ps <> []).
  { destruct log_ps; [|congruence]. destruct (fst b); [congruence|discriminate]. }
  destruct (@NLLLoss_total log_ps (snd b) Hne' Hrows) as (l & Hloss);
    [congruence|exact Hlab|].
  exists l. unfold forward_of in Hf.
  unfold training_step, bind, zero_grad, model_call, criterion, backward.
  world_simpl. rewrite Hg.
  destruct (model_class w) eqn:Hc.
  - injection Hf as Hf _. rewrite Hf. world_simpl. rewrite Hloss. world_simpl.
    eexists. split; [reflexivity|]. world_simpl.
    split_all; try reflexivity.
    repeat rewrite <- app_assoc. reflexivity.
  - rewrite Hf. world_simpl. rewrite Hloss. world_simpl.
    eexists. split; [reflexivity|]. world_simpl.
    split_all; try reflexivity.
    repeat rewrite <- app_assoc. reflexivity.
Qed.

(** ** Exceptions in a validation pass *)

Lemma vstep17_pure_err (p : Parameters) (b : batch) (accs : pynum * pynum) (e : exn) :
  vstep17_pure p b accs = Err e ->
  e = RuntimeError \/ e = ValueError \/ e = IndexError.
Proof.
  unfold vstep17_pure.
  destruct (Classifier_forward p (fst b)) as [lp|e1] eqn:Hf; cbn [result_bind].
  - destruct (NLLLoss lp (snd b)) as [l|e2] eqn:Hl; cbn [result_bind].
    + destruct (batch_accuracy (torch_exp lp) (snd b)) as [a|e3] eqn:Ha;
        cbn [result_bind]; [discriminate|].
      intros H. injection H as <-. left. apply (batch_accuracy_err _ _ Ha).
    + intros H. injection H as <-. right. apply (NLLLoss_err _ _ Hl).
  - intros H. injection H as <-. left. apply (Classifier_forward_err _ _ Hf).
Qed.

Lemma vfold17_err (p : Parameters) (testloader : list batch) (e : exn) :
  forall accs,
    result_fold (vstep17_pure p) testloader accs = Err e ->
    e = RuntimeError \/ e = ValueError \/ e = IndexError.
Proof.
  induction testloader as [|b r IH]; intros accs; simpl; [discriminate|].
  destruct (vstep17_pure p b accs) as [accs'|e1] eqn:Hstep; cbn [result_bind].
  - apply IH.
  - intros H. injection H as <-. apply (vstep17_pure_err _ _ _ Hstep).
Qed.

(** X11.  When a validation batch of the dropout cell makes the pass raise,
    the exception leaves the [with] block before [model.train()] is reached:
    the model stays in evaluation mode.  Gradient tracking is put back all the
    same, and the parameters, the generator, the gradients, the optimizer and
    the output are untouched.  The exception is a RuntimeError, a ValueError
    or an IndexError. *)
Theorem validation_exception_leaves_evaluation_mode
  (testloader : list batch) (w : world) (e : exn) (w' : world) :
  validation_pass17 testloader w = Raised e w' ->
  model_training w' = false /\
  grad_enabled w' = grad_enabled w /\
  same_state w w' /\
  (e = RuntimeError \/ e = ValueError \/ e = IndexError).
Proof.
  unfold validation_pass17, no_grad, bind, model_eval, model_train, ret.
  set (w0 := set_training false (set_grad_enabled false w)).
  assert (Hdet : deterministic w0) by (right; reflexivity).
  destruct (vloop17_spec testloader (PyInt 0, PyInt 0) Hdet eq_refl eq_refl)
    as (Hret & Hfr & _).
  destruct Hfr as (F1 & F2 & F3 & F4 & F5 & F6 & F7 & F8 & _).
  destruct (for_each testloader validation_step17 (PyInt 0, PyInt 0) w0)
    as [a w1|e1 w1] eqn:E;
    unfold w0 in F1, F2, F3, F4, F5, F6, F7, F8, Hret; world_simpl;
    [discriminate|].
  intros H. injection H as <- <-. world_simpl.
  split_all; try assumption; try reflexivity.
  - unfold same_state. world_simpl. split_all; assumption.
  - simpl in Hret. symmetry in Hret. apply (vfold17_err _ _ _ Hret).
Qed.

(** ** Outcomes of the inference cell *)

(** X12.  The inference cell on a model of the declared shape has four
    outcomes.  A test loader without batches raises StopIteration, a first
    batch without images raises an IndexError, a first image that does not
    have 784 pixels raises a RuntimeError; in these three cases all that has
    happened is [model.eval()]: no forward pass, nothing shown.  Otherwise the
    cell finishes; it leaves the model in evaluation mode (it never calls
    [model.train()]), gradient tracking as it found it, and the parameters,
    the generator, the gradients, the optimizer and the output untouched. *)
Theorem inference_outcomes (traversal : list batch) (w : world) :
  Classifier_shape (model_parameters w) ->
  (traversal = [] /\
   cell19 traversal w = Raised StopIteration (set_training false w)) \/
  (exists labels rest,
     traversal = ([], labels) :: rest /\
     cell19 traversal w = Raised IndexError (set_training false w)) \/
  (exists img imgs labels rest,
     traversal = (img :: imgs, labels) :: rest /\ length img <> 784%nat /\
     cell19 traversal w = Raised RuntimeError (set_training false w)) \/
  (exists img imgs labels rest w',
     traversal = (img :: imgs, labels) :: rest /\ length img = 784%nat /\
     cell19 traversal w = Done tt w' /\
     model_training w' = false /\ grad_enabled w' = grad_enabled w /\
     same_state w w').
Proof.
  intros Hshape.
  destruct traversal as [|[images labels] rest]; [left; split; reflexivity|].
  right. destruct images as [|img imgs].
  { left. exists labels, rest. split; reflexivity. }
  right. destruct (Nat.eq_dec (length img) 784) as [Hlen|Hlen].
  - right. exists img, imgs, labels, rest.
    assert (Hx : rows_of 784 [img]) by (constructor; [exact Hlen|constructor]).
    assert (Hne : [img] <> []) by discriminate.
    destruct (Classifier_forward_total Hshape Hne Hx) as (y & Hf & _).
    eexists. split; [reflexivity|]. split; [exact Hlen|].
    unfold cell19, bind, model_eval, lift, view_classify. cbn [fst].
    unfold view2. rewrite Hlen. cbn [Nat.mul Nat.add Nat.eqb chunks].
    rewrite <- Hlen, firstn_all.
    unfold no_grad.
    rewrite model_call_deterministic by (right; reflexivity).
    world_simpl. rewrite Hf. world_simpl.
    split; [reflexivity|].
    world_simpl. unfold same_state. world_simpl. split_all; reflexivity.
  - left. exists img, imgs, labels, rest.
    split; [reflexivity|]. split; [exact Hlen|].
    unfold cell19, bind, model_eval, lift. cbn [fst].
    unfold view2.
    replace (length img =? 1 * 784)%nat with false
      by (symmetry; apply Nat.eqb_neq; lia).
    reflexivity.
Qed.

(** ** What the two cells print and how often the optimizer steps *)

Lemma count_steps_training (tr : bool) (losses : list scalar) :
  length (filter is_optimizer_step (flat_map (step_events tr) losses)) = length losses.
Proof.
  induction losses as [|l r IH]; simpl; [reflexivity|]. rewrite IH. reflexivity.
Qed.

Lemma count_steps_validation17 (losses : list scalar) :
  length (filter is_optimizer_step (flat_map val_events17 losses)) = 0%nat.
Proof.
  induction losses as [|l r IH]; simpl; [reflexivity|]. exact IH.
Qed.

Lemma count_steps_validation13 (tr : bool) (n : nat) :
  length (filter is_optimizer_step (repeat (Forward ValidationPass tr false) n)) = 0%nat.
Proof.
  induction n as [|n IH]; simpl; [reflexivity|]. exact IH.
Qed.


Lemma loop17_reports (trainloader testloader : DataLoader) (n : nat) :
  forall (start : nat) (w : world),
    (forall e, (start <= e < start + n)%nat ->
               Forall batch_wf (trainloader e) /\ Forall batch_wf (testloader e) /\
               testloader e <> []) ->
    Classifier_shape (model_parameters w) -> grad_enabled w = true ->
    exists w' reports evs,
      for_each (seq start n)
               (fun e (_ : unit) => epoch17 (trainloader e) (testloader e)) tt w
        = Done tt w' /\
      length reports = n /\
      stdout w' = stdout w ++ flat_map report_lines17 reports /\
      trace w' = trace w ++ evs /\
      length (filter is_optimizer_step evs)
        = list_sum (map (fun e => length (trainloader e)) (seq start n)) /\
      Classifier_shape (model_parameters w') /\ grad_enabled w' = true.
Proof.
  induction n as [|n IH]; intros start w Hwf Hshape Hg.
  - exists w, [], []. simpl. unfold ret. rewrite !app_nil_r. split_all; auto.
  - destruct (Hwf start) as (Htrain & Htest & Hne); [lia|].
    destruct (@epoch17_total _ (trainloader start) (testloader start) w
                Hshape Htrain Htest Hne Hg)
      as (tl & w1 & accs & losses & w2 & _ & _ & _ & _ & Hepoch & Hout & Htrace &
          Hlen & _ & _ & Hg2 & _ & _ & Hs2).
    destruct (IH (S start) w2) as (w' & reports & evs & Hloop & Hrep & Hout' & Htrace' &
                                   Hcount & Hs' & Hg'); auto.
    { intros e He. apply Hwf. lia. }
    exists w',
      ((Tensor (Fin (Rsum accs / INR (length (testloader start)) * 100)),
        Tensor (Fin (last losses 0 / INR (length (testloader start)) * 100)))
       :: reports),
      ((flat_map (step_events (model_training w)) (map Fin tl)
        ++ flat_map val_events17 (map Fin losses)) ++ evs).
    cbn [seq for_each]. unfold bind. rewrite Hepoch, Hloop.
    split; [reflexivity|]. split; [simpl; rewrite Hrep; reflexivity|].
    split; [rewrite Hout', Hout, <- app_assoc; reflexivity|].
    split; [rewrite Htrace', Htrace, <- !app_assoc; reflexivity|].
    split; [|split; assumption].
    rewrite !filter_app, !length_app, count_steps_training, count_steps_validation17,
      Hcount, length_map, Hlen.
    simpl. lia.
Qed.

Lemma loop13_reports (trainloader testloader : DataLoader) (n : nat) :
  forall (start : nat) (w : world),
    (forall e, (start <= e < start + n)%nat ->
               Forall batch_wf (trainloader e) /\ Forall batch_wf (testloader e) /\
               testloader e <> []) ->
    model_class w = Plain ->
    Classifier_shape (model_parameters w) -> grad_enabled w = true ->
    exists w' reports evs,
      for_each (seq start n)
               (fun e (_ : unit) => epoch13 (trainloader e) (testloader e)) tt w
        = Done tt w' /\
      length reports = n /\
      stdout w' = stdout w ++ map AccuracyLine reports /\
      trace w' = trace w ++ evs /\
      length (filter is_optimizer_step evs)
        = list_sum (map (fun e => length (trainloader e)) (seq start n)) /\
      model_class w' = Plain /\
      Classifier_shape (model_parameters w') /\ grad_enabled w' = true.
Proof.
  induction n as [|n IH]; intros start w Hwf Hplain Hshape Hg.
  - exists w, [], []. simpl. unfold ret. rewrite !app_nil_r. split_all; auto.
  - destruct (Hwf start) as (Htrain & Htest & Hne); [lia|].
    destruct (@epoch13_total _ (trainloader start) (testloader start) w Hplain
                Hshape Htrain Htest Hne Hg)
      as (tl & w1 & accs & w2 & _ & _ & _ & Hepoch & Hout & Htrace &
          Hlen & Hc2 & _ & Hg2 & _ & _ & Hs2).
    destruct (IH (S start) w2) as (w' & reports & evs & Hloop & Hrep & Hout' & Htrace' &
                                   Hcount & Hc' & Hs' & Hg'); auto.
    { intros e He. apply Hwf. lia. }
    { congruence. }
    exists w',
      (Tensor (Fin (Rsum accs / INR (length (testloader start)) * 100)) :: reports),
      ((flat_map (step_events (model_training w)) (map Fin tl)
        ++ repeat (Forward ValidationPass (model_training w) false)
                  (length (testloader start))) ++ evs).
    cbn [seq for_each]. unfold bind. rewrite Hepoch, Hloop.
    split; [reflexivity|]. split; [simpl; rewrite Hrep; reflexivity|].
    split; [rewrite Hout', Hout, <- app_assoc; reflexivity|].
    split; [rewrite Htrace', Htrace, <- !app_assoc; reflexivity|].
    split; [|split_all; assumption].
    rewrite !filter_app, !length_app, count_steps_training, count_steps_validation13,
      Hcount, length_map, Hlen.
    simpl. lia.
Qed.

Lemma cell17_unfold (trainloader testloader : DataLoader) (w w1 : world) :
  bind (new_Classifier WithDropout) (fun _ => new_Adam) w = Done tt w1 ->
  cell17 trainloader testloader w
  = for_each (seq 0 epochs)
             (fun e (_ : unit) => epoch17 (trainloader e) (testloader e)) tt w1.
Proof.
  intros Hnew. unfold cell17, cell17_loop. unfold bind in Hnew |- *.
  destruct (new_Classifier WithDropout w) as [[] w0|e w0]; [|discriminate].
  rewrite Hnew. reflexivity.
Qed.

Lemma cell13_unfold (trainloader testloader : DataLoader) (w w1 : world) :
  bind (new_Classifier Plain) (fun _ => new_Adam) w = Done tt w1 ->
  cell13 trainloader testloader w
  = for_each (seq 0 epochs)
             (fun e (_ : unit) => epoch13 (trainloader e) (testloader e)) tt w1.
Proof.
  intros Hnew. unfold cell13, cell13_loop. unfold bind in Hnew |- *.
  destruct (new_Classifier Plain w) as [[] w0|e w0]; [|discriminate].
  rewrite Hnew. reflexivity.
Qed.

(** X13.  On well-formed loaders the dropout cell prints exactly two lines
    per epoch, an [Accuracy] line followed by a [Loss] line, 60 lines in all,
    and the optimizer steps exactly once per training minibatch: the number of
    [optimizer.step()] calls is the sum over the 30 epochs of the number of
    training batches; validation adds none. *)
Theorem cell17_output_and_steps (trainloader testloader : DataLoader) (w : world) :
  (forall e, Forall batch_wf (trainloader e)) ->
  (forall e, Forall batch_wf (testloader e)) ->
  (forall e, testloader e <> []) ->
  grad_enabled w = true ->
  exists w' reports evs,
    cell17 trainloader testloader w = Done tt w' /\
    length reports = 30%nat /\
    stdout w' = stdout w ++ flat_map report_lines17 reports /\
    trace w' = trace w ++ evs /\
    length (filter is_optimizer_step evs)
      = list_sum (map (fun e => length (trainloader e)) (seq 0 30)).
Proof.
  intros Htrain Htest Hne Hg.
  destruct (constructors_total WithDropout w)
    as (w1 & Hnew & _ & _ & Hg1 & Htrace & Hout & Hshape).
  rewrite Hg in Hg1.
  destruct (@loop17_reports trainloader testloader epochs 0%nat w1)
    as (w' & reports & evs & Hloop & Hrep & Hout' & Htrace' & Hcount & _); auto.
  exists w', reports, evs. rewrite (@cell17_unfold trainloader testloader w w1 Hnew).
  split_all; try assumption; congruence.
Qed.

(** X14.  On well-formed loaders the first cell prints exactly one
    [Accuracy] line per epoch, 30 lines in all and no other line, and the
    optimizer steps exactly once per training minibatch. *)
Theorem cell13_output_and_steps (trainloader testloader : DataLoader) (w : world) :
  (forall e, Forall batch_wf (trainloader e)) ->
  (forall e, Forall batch_wf (testloader e)) ->
  (forall e, testloader e <> []) ->
  grad_enabled w = true ->
  exists w' reports evs,
    cell13 trainloader testloader w = Done tt w' /\
    length reports = 30%nat /\
    stdout w' = stdout w ++ map AccuracyLine reports /\
    trace w' = trace w ++ evs /\
    length (filter is_optimizer_step evs)
      = list_sum (map (fun e => length (trainloader e)) (seq 0 30)).
Proof.
  intros Htrain Htest Hne Hg.
  destruct (constructors_total Plain w)
    as (w1 & Hnew & Hc & _ & Hg1 & Htrace & Hout & Hshape).
  rewrite Hg in Hg1.
  destruct (@loop13_reports trainloader testloader epochs 0%nat w1)
    as (w' & reports & evs & Hloop & Hrep & Hout' & Htrace' & Hcount & _); auto.
  exists w', reports, evs. rewrite (@cell13_unfold trainloader testloader w w1 Hnew).
  split_all; try assumption; congruence.
Qed.




End WorldExtras.

Section ReportedLoss.

Context {T : Torch}.

(** X16.  The value on the [Loss] line of the dropout cell is never
    negative: the loss of a batch of log-probabilities is the mean of numbers
    that are not negative, and it stays so when divided by the number of
    batches and multiplied by 100. *)
Theorem reported_loss_is_not_negative (trainloader testloader : list batch) (w : world) :
  Classifier_shape (model_parameters w) ->
  Forall batch_wf trainloader -> Forall batch_wf testloader ->
  testloader <> [] -> grad_enabled w = true ->
  exists accuracy_line v w2,
    epoch17 trainloader testloader w = Done tt w2 /\
    stdout w2 = stdout w ++ [accuracy_line; LossLine (Tensor (Fin v))] /\
    0 <= v.
Proof.
  intros Hshape Htrain Htest Hne Hg.
  destruct (@epoch17_total _ trainloader testloader w Hshape Htrain Htest Hne Hg)
    as (tl & w1 & accs & losses & w2 & Hloop & _ & Hloss & _ & Hepoch & Hout & _ &
        _ & _ & _ & _ & Hp & _ & Hs2).
  pose proof (@Forall2_last _ _
                (fun b l => validation_loss (model_parameters w1) b = Ok (Fin l))
                testloader losses ([], []) 0 Hloss Hne) as Hl.
  assert (Hwf : batch_wf (last testloader ([], []))).
  { rewrite Forall_forall in Htest. apply Htest.
    destruct testloader as [|b r]; [congruence|].
    apply (@exists_last _ (b :: r)) in Hne. destruct Hne as (l' & a & Heq).
    rewrite Heq. rewrite last_last. apply in_or_app. right. left. reflexivity. }
  rewrite <- Hp in Hl.
  pose proof (validation_loss_positive Hs2 Hwf Hl) as Hpos.
  do 2 eexists. exists w2. split; [exact Hepoch|]. split; [exact Hout|].
  assert (Hn : 0 < INR (length testloader)).
  { apply lt_0_INR. destruct testloader; [congruence|simpl; lia]. }
  left. apply Rmult_lt_0_compat; [|lra].
  apply Rdiv_lt_0_compat; assumption.
Qed.

End ReportedLoss.

(** ** Concrete runs of the further properties *)

Lemma topk1_row_of_unique_max_witness :
  nth_error [1; 2] 1 = Some 2 /\
  topk1_row (T := constant_torch) [1; 2] = Ok (2, 1%nat).
Proof.
  split; [reflexivity|].
  apply (@topk1_row_of_unique_max constant_torch [1; 2] 1%nat 2 eq_refl).
  intros [|[|[|j]]] x Hj Hx; simpl in Hx; try congruence; try discriminate.
  injection Hx as <-. lra.
Defined.

Lemma forward_returns_log_probabilities_witness :
  Classifier_shape zero_parameters /\ [blank_image] <> [] /\
  rows_of 784 [blank_image] /\
  exists y g',
    forward_of (T := constant_torch) WithDropout zero_parameters true 0%nat [blank_image]
      = (Ok y, g') /\
    Forall log_probabilities y.
Proof.
  assert (H2 : [blank_image] <> []) by discriminate.
  assert (H3 : rows_of 784 [blank_image])
    by (constructor; [apply repeat_length|constructor]).
  split; [exact zero_parameters_shape|]. split; [exact H2|]. split; [exact H3|].
  destruct (@forward_returns_log_probabilities constant_torch WithDropout
              zero_parameters true 0%nat [blank_image] zero_parameters_shape H2 H3)
    as (y & g' & Hf & _ & Hy).
  exists y, g'. split; assumption.
Defined.

Lemma forward_rejects_bad_batches_witness :
  Classifier_shape zero_parameters /\
  forward_of (T := constant_torch) WithDropout zero_parameters true 0%nat []
    = (Err RuntimeError, 0%nat).
Proof.
  split; [exact zero_parameters_shape|].
  apply (@forward_rejects_bad_batches constant_torch WithDropout zero_parameters
           true 0%nat [] zero_parameters_shape).
  left. reflexivity.
Defined.

Lemma training_step_exception_safe_witness :
  training_step ([], []) (PyInt 0) (world_of Plain)
    = Raised RuntimeError (final_world (training_step ([], []) (PyInt 0) (world_of Plain))) /\
  model_parameters (final_world (training_step ([], []) (PyInt 0) (world_of Plain)))
    = zero_parameters.
Proof.
  assert (H : training_step ([], []) (PyInt 0) (world_of Plain)
              = Raised RuntimeError
                  (final_world (training_step ([], []) (PyInt 0) (world_of Plain))))
    by reflexivity.
  split; [exact H|].
  destruct (@training_step_exception_safe constant_torch ([], []) (PyInt 0)
              (world_of Plain) RuntimeError _ H) as ((_ & Hp & _) & _).
  exact Hp.
Defined.

Lemma training_without_gradient_tracking_raises_witness :
  Classifier_shape (model_parameters (set_grad_enabled false (world_of WithDropout))) /\
  batch_wf batch0 /\
  grad_enabled (set_grad_enabled false (world_of WithDropout)) = false /\
  exists w',
    training_step batch0 (PyInt 0) (set_grad_enabled false (world_of WithDropout))
      = Raised RuntimeError w'.
Proof.
  split; [exact zero_parameters_shape|]. split; [exact batch0_wf|].
  split; [reflexivity|].
  destruct (@training_without_gradient_tracking_raises constant_torch batch0 (PyInt 0)
              (set_grad_enabled false (world_of WithDropout))
              zero_parameters_shape batch0_wf eq_refl)
    as (l & w' & Hstep & _).
  exists w'. exact Hstep.
Defined.

Lemma validation_exception_leaves_evaluation_mode_witness :
  validation_pass17 [([], [])] (world_of WithDropout)
    = Raised RuntimeError
        (final_world (validation_pass17 [([], [])] (world_of WithDropout))) /\
  model_training (final_world (validation_pass17 [([], [])] (world_of WithDropout)))
    = false.
Proof.
  assert (H : validation_pass17 [([], [])] (world_of WithDropout)
              = Raised RuntimeError
                  (final_world (validation_pass17 [([], [])] (world_of WithDropout))))
    by reflexivity.
  split; [exact H|].
  destruct (@validation_exception_leaves_evaluation_mode constant_torch [([], [])]
              (world_of WithDropout) RuntimeError _ H) as (Hmode & _).
  exact Hmode.
Defined.

Lemma inference_outcomes_witness :
  Classifier_shape (model_parameters (world_of WithDropout)) /\
  cell19 [] (world_of WithDropout)
    = Raised StopIteration (set_training false (world_of WithDropout)).
Proof.
  split; [exact zero_parameters_shape|].
  destruct (@inference_outcomes constant_torch [] (world_of WithDropout)
              zero_parameters_shape)
    as [(_ & H)|[(l & r & H & _)|[(i & ims & l & r & H & _)|(i & ims & l & r & w2 & H & _)]]];
    [exact H|discriminate..].
Defined.

Lemma cell17_output_and_steps_witness :
  (forall e, Forall batch_wf (loader0 e)) /\ (forall e, loader0 e <> []) /\
  grad_enabled (world_of WithDropout) = true /\
  exists w' reports evs,
    cell17 loader0 loader0 (world_of WithDropout) = Done tt w' /\
    stdout w' = flat_map report_lines17 reports /\ length reports = 30%nat /\
    trace w' = evs /\ length (filter is_optimizer_step evs) = 30%nat.
Proof.
  split; [exact loader0_wf|]. split; [exact loader0_nonempty|]. split; [reflexivity|].
  destruct (@cell17_output_and_steps constant_torch loader0 loader0 (world_of WithDropout)
              loader0_wf loader0_wf loader0_nonempty eq_refl)
    as (w' & reports & evs & Hcell & Hrep & Hout & Htrace & Hcount).
  exists w', reports, evs. split_all; assumption.
Defined.

Lemma cell13_output_and_steps_witness :
  (forall e, Forall batch_wf (loader0 e)) /\ (forall e, loader0 e <> []) /\
  grad_enabled (world_of Plain) = true /\
  exists w' reports,
    cell13 loader0 loader0 (world_of Plain) = Done tt w' /\
    stdout w' = map AccuracyLine reports /\ length reports = 30%nat.
Proof.
  split; [exact loader0_wf|]. split; [exact loader0_nonempty|]. split; [reflexivity|].
  destruct (@cell13_output_and_steps constant_torch loader0 loader0 (world_of Plain)
              loader0_wf loader0_wf loader0_nonempty eq_refl)
    as (w' & reports & evs & Hcell & Hrep & Hout & _).
  exists w', reports. split_all; assumption.
Defined.



Lemma reported_loss_is_not_negative_witness :
  Classifier_shape (model_parameters (world_of WithDropout)) /\
  Forall batch_wf [batch0] /\ [batch0] <> [] /\
  grad_enabled (world_of WithDropout) = true /\
  exists accuracy_line v w2,
    epoch17 [batch0] [batch0] (world_of WithDropout) = Done tt w2 /\
    stdout w2 = [accuracy_line; LossLine (Tensor (Fin v))] /\ 0 <= v.
Proof.
  assert (H2 : Forall batch_wf [batch0])
    by (constructor; [exact batch0_wf|constructor]).
  assert (H3 : [batch0] <> []) by discriminate.
  split; [exact zero_parameters_shape|]. split; [exact H2|]. split; [exact H3|].
  split; [reflexivity|].
  destruct (@reported_loss_is_not_negative constant_torch [batch0] [batch0]
              (world_of WithDropout) zero_parameters_shape H2 H2 H3 eq_refl)
    as (a & v & w2 & Hepoch & Hout & Hpos).
  exists a, v, w2. split_all; assumption.
Defined.
